(** * NBADataScraper: rate-governed fetch, normalisation and spot check

    A shallow embedding of [claude_scraper_nbaapi_ver00.py] (class
    [NBADataScraper]).  The methods are translated into a state-and-
    exception monad over an explicit world (clock, log, file sink, call
    trace); pandas frames are column-major association lists; the nba_api
    endpoints and the static player/team lookups are parameters. *)

From Stdlib Require Import ZArith QArith Qabs Ascii String.
From Corelib Require Import SpecFloat.
From stdpp Require Import base option list strings numbers gmap pretty.

Local Open Scope string_scope.
Local Open Scope list_scope.
Local Open Scope Z_scope.

(** ** Python values *)

(** [float] and [numpy.float64]: an IEEE 754 binary64 datum, with its
    signed zeros, infinities and NaN; the operations round to nearest, ties
    to even. *)
Abbreviation float64 := spec_float (only parsing).

Definition f64_add : float64 → float64 → float64 := SFadd 53 1024.
Definition f64_sub : float64 → float64 → float64 := SFsub 53 1024.
Definition f64_truediv : float64 → float64 → float64 := SFdiv 53 1024.
Definition f64_abs : float64 → float64 := SFabs.
Definition f64_lt : float64 → float64 → bool := SFltb.
Definition f64_le : float64 → float64 → bool := SFleb.
Definition f64_eq : float64 → float64 → bool := SFeqb.

(** The number a float stands for, when it is one. *)
Definition f64_value (f : float64) : option Q :=
  match f with
  | S754_zero _ => Some 0%Q
  | S754_finite negative m e =>
      Some ((if negative then -1 else 1) * inject_Z (Zpos m) * 2 ^ e)%Q
  | _ => None
  end.

(** [float(z)]: the float64 nearest to the integer. *)
Definition f64_of_int (z : Z) : float64 := binary_normalize 53 1024 z 0 false.

(** The literal [0.1]: 0x1.999999999999ap-4. *)
Definition f64_tenth : float64 := S754_finite false 7205759403792794 (-56).

(** [numpy.int64] arithmetic wraps around. *)
Definition wrap64 (z : Z) : Z := (z + 2 ^ 63) mod 2 ^ 64 - 2 ^ 63.

(** The scalar kinds that occur in the frames handled here: the values of
    an int64 column, the values of a float64 column (NaN is also pandas'
    marker of a missing number), and str objects. *)
Inductive cell : Type :=
| Int (z : Z)
| Float (f : float64)
| Str (s : string).

Abbreviation NaN := (Float S754_nan).
Abbreviation Inf negative := (Float (S754_infinity negative)).

(** Exceptions.  [except Exception] catches every class derived from
    [Exception]; [KeyboardInterrupt], [SystemExit] and [GeneratorExit]
    derive from [BaseException] only. *)
Inductive exc : Type :=
| KeyError (key : string)
| IndexError (msg : string)
| TypeError (msg : string)
| ValueError (msg : string)
| OtherException (cls msg : string)
| BaseExceptionOnly (cls : string).

Definition isinstance_Exception (e : exc) : bool :=
  match e with
  | BaseExceptionOnly _ => false
  | _ => true
  end.

(** The outcome of evaluating a Python expression: a value or a raised
    exception. *)
Inductive res (A : Type) : Type :=
| Ok (a : A)
| Raise (e : exc).
Arguments Ok {A} a.
Arguments Raise {A} e.

Definition res_bind {A B} (r : res A) (k : A → res B) : res B :=
  match r with
  | Ok a => k a
  | Raise e => Raise e
  end.

Fixpoint res_mapM {A B} (f : A → res B) (l : list A) : res (list B) :=
  match l with
  | [] => Ok []
  | x :: l' =>
      res_bind (f x) (λ y, res_bind (res_mapM f l') (λ ys, Ok (y :: ys)))
  end.

(** [l[i]] for a non-negative literal index. *)
Definition list_getitem {A} (l : list A) (i : nat) : res A :=
  match l !! i with
  | Some a => Ok a
  | None => Raise (IndexError "list index out of range")
  end.

(** [l[-1]]. *)
Definition list_getitem_last {A} (l : list A) : res A :=
  match last l with
  | Some a => Ok a
  | None => Raise (IndexError "list index out of range")
  end.

(** *** Strings *)

(** A str is kept as its UTF-8 bytes. *)
Definition byte_in (c : ascii) (lo hi : nat) : bool :=
  let n := nat_of_ascii c in ((lo <=? n) && (n <=? hi))%nat.

(** The number of bytes of the whitespace character that [s] starts
    with, 0 when it starts with none.  Whitespace is what [str.split()] and
    [str.isspace()] take for it: U+0009 to U+000D, U+001C to U+0020, U+0085,
    U+00A0, U+1680, U+2000 to U+200A, U+2028, U+2029, U+202F, U+205F and
    U+3000. *)
Definition space_width (s : string) : nat :=
  match s with
  | String c0 s1 =>
      if byte_in c0 9 13 || byte_in c0 28 32 then 1
      else
        match s1 with
        | String c1 s2 =>
            if byte_in c0 194 194 && (byte_in c1 133 133 || byte_in c1 160 160) then 2
            else
              match s2 with
              | String c2 _ =>
                  if byte_in c0 225 225 && byte_in c1 154 154 && byte_in c2 128 128
                     || byte_in c0 226 226 && byte_in c1 128 128 &&
                        (byte_in c2 128 138 || byte_in c2 168 169 || byte_in c2 175 175)
                     || byte_in c0 226 226 && byte_in c1 129 129 && byte_in c2 159 159
                     || byte_in c0 227 227 && byte_in c1 128 128 && byte_in c2 128 128
                  then 3 else 0
              | EmptyString => 0
              end
        | EmptyString => 0
        end
  | EmptyString => 0
  end%nat.

(** [s.split()]: the maximal runs of non-whitespace characters. [cur] is
    the token being read, reversed; [skip] counts the bytes still to pass
    of the whitespace character being read. *)
Fixpoint split_go (s : string) (skip : nat) (cur : list ascii) : list string :=
  let flush (rest : list string) :=
    match cur with
    | [] => rest
    | _ => string_of_list_ascii (rev cur) :: rest
    end in
  match s with
  | EmptyString => flush []
  | String c s' =>
      match skip with
      | S skip' => split_go s' skip' cur
      | O =>
          match space_width s with
          | O => split_go s' 0 (c :: cur)
          | S skip' => flush (split_go s' skip' [])
          end
      end
  end.

Definition split (s : string) : list string := split_go s 0 [].

(** [s.replace(' ', '_')] and, in general, replacing one character. *)
Fixpoint replace (old new : ascii) (s : string) : string :=
  match s with
  | EmptyString => EmptyString
  | String c s' => String (if Ascii.eqb c old then new else c) (replace old new s')
  end.

(** A path is kept as the list of components given to [os.path.join]. *)
Abbreviation path := (list string) (only parsing).
Definition os_path_join (p : path) (name : string) : path := p ++ [name].

(** *** Arithmetic and comparison on cells *)

(** [c >= k] for an int [k]. Ordering a str against an int raises. *)
Definition cell_ge (c : cell) (k : Z) : res bool :=
  match c with
  | Int z => Ok (k <=? z)
  | Float f => Ok (f64_le (f64_of_int k) f)
  | Str _ => Raise (TypeError "'>=' not supported between instances of 'str' and 'int'")
  end.

(** [a == b]; never raises, and NaN equals nothing. *)
Definition cell_eq (a b : cell) : bool :=
  match a, b with
  | Int x, Int y => x =? y
  | Int x, Float f | Float f, Int x => f64_eq (f64_of_int x) f
  | Float f, Float g => f64_eq f g
  | Str s, Str t => String.eqb s t
  | _, _ => false
  end.

(** The number held by a cell, as a float64; a str is not a number. *)
Definition as_float (c : cell) : res float64 :=
  match c with
  | Int z => Ok (f64_of_int z)
  | Float f => Ok f
  | Str _ => Raise (TypeError "unsupported operand type(s)")
  end.

(** [a - b] on numpy scalars: int64 when both are, float64 otherwise. *)
Definition cell_sub (a b : cell) : res cell :=
  match a, b with
  | Int x, Int y => Ok (Int (wrap64 (x - y)))
  | _, _ =>
      res_bind (as_float a) (λ x,
      res_bind (as_float b) (λ y, Ok (Float (f64_sub x y))))
  end.

(** [abs(a)] *)
Definition cell_abs (a : cell) : res cell :=
  match a with
  | Int z => Ok (Int (wrap64 (Z.abs z)))
  | Float f => Ok (Float (f64_abs f))
  | Str _ => Raise (TypeError "bad operand type for abs(): 'str'")
  end.

(** [a < q] for a float literal [q]. *)
Definition cell_lt (a : cell) (q : float64) : res bool :=
  res_bind (as_float a) (λ x, Ok (f64_lt x q)).

(** [a / b], elementwise on two columns: the operands are taken to
    float64 and divided there; a zero divisor gives an infinity or NaN,
    never an exception. *)
Definition cell_truediv (a b : cell) : res cell :=
  res_bind (as_float a) (λ x,
  res_bind (as_float b) (λ y, Ok (Float (f64_truediv x y)))).

(** ** pandas *)

(** A Series is its sequence of values; a DataFrame is its columns in
    order, each with its label.  [df.index] is implicit: row [i] is made of
    the [i]-th value of every column. *)
Abbreviation Series := (list cell) (only parsing).
Abbreviation DataFrame := (list (string * list cell)) (only parsing).

(** [pd.DataFrame()] *)
Definition pd_DataFrame : DataFrame := [].

Definition df_columns (df : DataFrame) : list string := map fst df.

(** [len(df)] *)
Definition df_len (df : DataFrame) : nat :=
  match df with
  | [] => 0
  | (_, s) :: _ => length s
  end.

(** [df.empty]: no column, or no row. *)
Definition df_empty (df : DataFrame) : bool := bool_decide (df_len df = 0%nat).

(** [name in df.columns] *)
Definition in_columns (name : string) (df : DataFrame) : bool :=
  bool_decide (name ∈ df_columns df).

(** [df[name]] *)
Fixpoint df_getitem (name : string) (df : DataFrame) : res Series :=
  match df with
  | [] => Raise (KeyError name)
  | (n, s) :: df' => if String.eqb n name then Ok s else df_getitem name df'
  end.

(** [df[name] = s]: an existing column is replaced where it stands, a new
    one is appended. *)
Fixpoint df_setitem (name : string) (s : Series) (df : DataFrame) : DataFrame :=
  match df with
  | [] => [(name, s)]
  | (n, c) :: df' =>
      if String.eqb n name then (n, s) :: df' else (n, c) :: df_setitem name s df'
  end.

(** [df[name] = c] for a scalar [c], broadcast over the index. *)
Definition df_setitem_scalar (name : string) (c : cell) (df : DataFrame) : DataFrame :=
  df_setitem name (replicate (df_len df) c) df.

(** [s >= k], elementwise. *)
Definition series_ge (s : Series) (k : Z) : res (list bool) :=
  res_mapM (λ c, cell_ge c k) s.

(** [b.astype(int)] on a boolean Series. *)
Definition astype_int (b : list bool) : list Z := map Z.b2z b.

(** [a + b] on two int Series over the same index. *)
Definition series_add (a b : list Z) : list Z := zip_with Z.add a b.

(** [a >= k] on an int Series. *)
Definition int_series_ge (a : list Z) (k : Z) : list bool := map (λ z, k <=? z) a.

(** An int Series as a column of cells. *)
Definition int_series (a : list Z) : Series := map Int a.

(** [a / b], elementwise over the same index. *)
Definition series_truediv (a b : Series) : res Series :=
  res_mapM (λ p, cell_truediv p.1 p.2) (zip a b).

(** [s == c], elementwise. *)
Definition series_eq (s : Series) (c : cell) : list bool := map (λ x, cell_eq x c) s.

(** [s[mask]]: the values of [s] where the boolean mask holds. *)
Fixpoint series_loc (mask : list bool) (s : Series) : Series :=
  match mask, s with
  | b :: mask', x :: s' => if b then x :: series_loc mask' s' else series_loc mask' s'
  | _, _ => []
  end.

(** [s.iloc[i]] and [s.values[i]] *)
Definition series_iloc (s : Series) (i : nat) : res cell :=
  match s !! i with
  | Some c => Ok c
  | None => Raise (IndexError "single positional indexer is out-of-bounds")
  end.

(** The column types that occur: a column of ints is int64, a column of
    numbers with a float or a missing value among them is float64, and a
    column with a str is a column of Python objects. *)
Inductive dtype : Type := dtype_int64 | dtype_float64 | dtype_object.

Definition is_Int (c : cell) : bool := match c with Int _ => true | _ => false end.
Definition is_Str (c : cell) : bool := match c with Str _ => true | _ => false end.

(** [s.dtype] *)
Definition series_dtype (s : Series) : dtype :=
  if forallb is_Int s then dtype_int64
  else if existsb is_Str s then dtype_object
  else dtype_float64.

(** A value as a column of the given type holds it: an int in a float64
    column is held as a float. *)
Definition astype (dt : dtype) (c : cell) : cell :=
  match dt, c with
  | dtype_float64, Int z => Float (f64_of_int z)
  | _, _ => c
  end.

(** [s.values] *)
Definition series_values (s : Series) : Series := map (astype (series_dtype s)) s.

(** [numpy.add.reduce] on a float64 array is a pairwise summation: fewer
    than 8 values are added from left to right, starting from [-0.0]; up to
    128 values are added into 8 running sums, which are combined, and the
    remaining values then added one by one; beyond that the array is cut
    near its middle, at a multiple of 8. *)
Fixpoint add_lanes (blocks : nat) (r l : list float64) : list float64 :=
  match blocks with
  | O => r
  | S blocks' => add_lanes blocks' (zip_with f64_add r (take 8 l)) (drop 8 l)
  end.

Definition combine_lanes (r : list float64) : float64 :=
  match r with
  | [r0; r1; r2; r3; r4; r5; r6; r7] =>
      f64_add (f64_add (f64_add r0 r1) (f64_add r2 r3))
              (f64_add (f64_add r4 r5) (f64_add r6 r7))
  | _ => foldl f64_add (S754_zero true) r
  end.

Definition pairwise_block (l : list float64) : float64 :=
  let n := length l in
  let whole := (n - n mod 8)%nat in
  let r := add_lanes (n / 8 - 1) (take 8 l) (drop 8 (take whole l)) in
  foldl f64_add (combine_lanes r) (drop whole l).

Fixpoint pairwise_sum (depth : nat) (l : list float64) : float64 :=
  let n := length l in
  if (n <? 8)%nat then foldl f64_add (S754_zero true) l
  else if (n <=? 128)%nat then pairwise_block l
  else
    match depth with
    | O => pairwise_block l
    | S depth' =>
        let n2 := (n / 2 - (n / 2) mod 8)%nat in
        f64_add (pairwise_sum depth' (take n2 l)) (pairwise_sum depth' (drop n2 l))
    end.

(** [a.sum()] for a float64 array [a]; the sum of no value is [0.0]. *)
Definition np_sum (l : list float64) : float64 :=
  match l with
  | [] => S754_zero false
  | _ => f64_add (S754_zero true) (pairwise_sum (length l) l)
  end.

(** The value that takes part in a float64 sum: a missing value counts
    for [0.0] ([skipna=True]). *)
Definition nan_to_zero (c : cell) : float64 :=
  match c with
  | Int z => f64_of_int z
  | Float S754_nan => S754_zero false
  | Float f => f
  | Str _ => S754_nan
  end.

(** The int held by a value of an int64 column. *)
Definition int_value (c : cell) : Z :=
  match c with
  | Int z => z
  | _ => 0
  end.

(** [a + b] on Python objects. *)
Definition py_add (a b : cell) : res cell :=
  match a, b with
  | Int x, Int y => Ok (Int (x + y))
  | Str s, Str t => Ok (Str (s +:+ t))
  | Str _, _ | _, Str _ => Raise (TypeError "unsupported operand type(s) for +")
  | _, _ =>
      res_bind (as_float a) (λ x,
      res_bind (as_float b) (λ y, Ok (Float (f64_add x y))))
  end.

(** The sum of a column of objects: the values are added from left to
    right, a missing value counting for 0, and the sum of no value is 0. *)
Definition object_sum (s : Series) : res cell :=
  let fill c := match c with NaN => Int 0 | _ => c end in
  match map fill s with
  | [] => Ok (Int 0)
  | c :: s' => foldl (λ acc x, res_bind acc (λ a, py_add a x)) (Ok c) s'
  end.

(** [s.sum()] on values selected from a column of type [dt]: missing
    values are skipped ([skipna=True]); an int64 sum wraps around, a
    float64 sum rounds at every addition. *)
Definition series_sum (dt : dtype) (s : Series) : res cell :=
  match dt with
  | dtype_int64 => Ok (Int (wrap64 (foldr (λ c acc, int_value c + acc) 0 s)))
  | dtype_float64 => Ok (Float (np_sum (map nan_to_zero s)))
  | dtype_object => object_sum s
  end.

(** ** The world and the scraper object *)

Inductive level : Type := DEBUG | INFO | WARNING | ERROR.

Definition levelno (l : level) : Z :=
  match l with DEBUG => 10 | INFO => 20 | WARNING => 30 | ERROR => 40 end.

(** An f-string, kept as its literal parts and interpolated values. *)
Inductive frag : Type :=
| Lit (s : string)
| FInt (z : Z)
| FNat (n : nat)
| FStr (s : string)
| FStrs (l : list string)
| FCell (c : cell)
| FPath (p : path)
| FSeconds2f (microseconds : Z)
| FExc (e : exc).

Record log_record : Type := LogRecord { levelname : level; message : list frag }.

(** Entries of [players.get_players()] and [teams.get_teams()]. *)
Record Player : Type := mkPlayer {
  p_id : Z;
  p_full_name : string;
  p_first_name : string;
  p_last_name : string
}.

Record Team : Type := mkTeam {
  t_id : Z;
  t_full_name : string;
  t_abbreviation : string;
  t_nickname : string
}.

(** What the process asks of its surroundings, in the order asked. *)
Inductive call : Type :=
| teams_get_teams_call
| find_players_by_full_name_call (pattern : string)
| find_players_by_first_name_call (pattern : string)
| find_players_by_last_name_call (pattern : string)
| find_player_by_id_call (player_id : Z)
| PlayerGameLog_call (player_id : Z) (season season_type : string)
| TeamGameLog_call (team_id : Z) (season season_type : string)
| BoxScoreTraditionalV2_call (game_id : string)
| time_sleep_call (microseconds : Z).

(** The world outside the object.  Time is in microseconds, the resolution
    of [datetime]; the clock never runs backwards: [drift] lists by how much
    each coming clock operation finds it further on than the program alone
    accounts for (an exhausted list means an ideal clock).  [records] are
    the log records of this process, [files] the CSV files on disk with
    what each holds, and [log_file] what [nba_scraper.log] holds, which the
    file handler installed at import appends to. *)
Record World : Type := mkWorld {
  clock : Z;
  drift : list N;
  records : list log_record;
  dirs : list path;
  files : gmap path DataFrame;
  calls : list call;
  log_file : list log_record
}.

(** The attributes of an [NBADataScraper]. Durations are in microseconds. *)
Record NBADataScraper : Type := mkNBADataScraper {
  season : string;
  season_type : string;
  data_dir : path;
  player_data_dir : path;
  team_data_dir : path;
  boxscore_data_dir : path;
  teams_data : list Team;
  team_id_to_abbr : gmap Z string;
  last_request_time : Z;
  request_delay : Z
}.

Record State : Type := mkState { self : NBADataScraper; world : World }.

(** The collaborators: the nba_api static tables and endpoints, and the
    failures of the file system. An endpoint is given as the frames its
    [get_data_frames()] (for the box score: its [player_stats] and
    [team_stats] data sets) yield, or the exception raised on the way. *)
Record Collaborators : Type := mkCollaborators {
  teams_get_teams : res (list Team);
  players_find_players_by_full_name : string → res (list Player);
  players_find_players_by_first_name : string → res (list Player);
  players_find_players_by_last_name : string → res (list Player);
  players_find_player_by_id : Z → res (option Player);
  playergamelog_PlayerGameLog : Z → string → string → res (list DataFrame);
  teamgamelog_TeamGameLog : Z → string → string → res (list DataFrame);
  boxscoretraditionalv2_BoxScoreTraditionalV2 : string → res (DataFrame * DataFrame);
  os_makedirs_error : path → option exc;
  to_csv_error : path → DataFrame → option exc
}.

(** *** The monad of methods *)

Definition M (S A : Type) : Type := S → res A * S.

Global Instance M_ret {S} : MRet (M S) := λ A a s, (Ok a, s).
Global Instance M_bind {S} : MBind (M S) := λ A B k m s,
  match m s with
  | (Ok a, s') => k a s'
  | (Raise e, s') => (Raise e, s')
  end.

Definition raise {S A} (e : exc) : M S A := λ s, (Raise e, s).

Definition lift_res {S A} (r : res A) : M S A := λ s, (r, s).

(** [try: body / except Exception as e: handler e] *)
Definition try_except_Exception {S A} (body : M S A) (handler : exc → M S A) : M S A :=
  λ s, match body s with
       | (Raise e, s') =>
           if isinstance_Exception e then handler e s' else (Raise e, s')
       | r => r
       end.

(** [try: body / except: handler] *)
Definition try_except {S A} (body : M S A) (handler : M S A) : M S A :=
  λ s, match body s with
       | (Raise e, s') => handler s'
       | r => r
       end.

Class HasWorld (S : Type) : Type := {
  get_world : S → World;
  set_world : World → S → S
}.

Global Instance World_HasWorld : HasWorld World :=
  {| get_world w := w; set_world w _ := w |}.
Global Instance State_HasWorld : HasWorld State :=
  {| get_world s := world s; set_world w s := mkState (self s) w |}.

Definition modify_world {S} `{HasWorld S} (f : World → World) : M S unit :=
  λ s, (Ok tt, set_world (f (get_world s)) s).

(** The clock moves on by [d] and by the next drift. *)
Definition advance (d : Z) (w : World) : World :=
  let j := match drift w with [] => 0 | j :: _ => Z.of_N j end in
  mkWorld (clock w + d + j) (tail (drift w)) (records w) (dirs w) (files w) (calls w)
    (log_file w).

(** A record goes to both handlers: to the stream, and to the end of the
    log file. *)
Definition emit (r : log_record) (w : World) : World :=
  mkWorld (clock w) (drift w) (records w ++ [r]) (dirs w) (files w) (calls w)
    (log_file w ++ [r]).

Definition note_call (c : call) (w : World) : World :=
  mkWorld (clock w) (drift w) (records w) (dirs w) (files w) (calls w ++ [c]) (log_file w).

Definition add_dir (p : path) (w : World) : World :=
  mkWorld (clock w) (drift w) (records w) (dirs w ++ [p]) (files w) (calls w) (log_file w).

(** A file is written from its start: what the path held is replaced. *)
Definition add_file (p : path) (df : DataFrame) (w : World) : World :=
  mkWorld (clock w) (drift w) (records w) (dirs w) (<[p := df]> (files w)) (calls w)
    (log_file w).

Definition get_self : M State NBADataScraper := λ s, (Ok (self s), s).

Definition set_last_request_time (t : Z) : M State unit :=
  λ s, let o := self s in
       (Ok tt,
        mkState (mkNBADataScraper (season o) (season_type o) (data_dir o)
                   (player_data_dir o) (team_data_dir o) (boxscore_data_dir o)
                   (teams_data o) (team_id_to_abbr o) t (request_delay o))
                (world s)).

Fixpoint for_each {S A} (l : list A) (body : A → M S unit) : M S unit :=
  match l with
  | [] => mret tt
  | x :: l' => body x;; for_each l' body
  end.

(** [timedelta(seconds=n)], in microseconds. *)
Definition seconds (n : Z) : Z := n * 1000000.

(** [SeasonType.regular] *)
Definition SeasonType_regular : string := "Regular Season".

(** The dictionary returned by [get_box_score]. *)
Record BoxScore : Type := mkBoxScore {
  player_stats : DataFrame;
  team_stats : DataFrame
}.

(** ** The class *)

Section NBADataScraper.
Context (env : Collaborators).

Section Primitives.
Context {S : Type} `{HasWorld S}.

(** [logging.basicConfig(level=logging.INFO, ...)]: records below INFO
    are dropped. *)
Definition logger_log (l : level) (msg : list frag) : M S unit :=
  if bool_decide (levelno INFO ≤ levelno l)
  then modify_world (emit (LogRecord l msg))
  else mret tt.

Definition logger_debug := logger_log DEBUG.
Definition logger_info := logger_log INFO.
Definition logger_warning := logger_log WARNING.
Definition logger_error := logger_log ERROR.

(** [datetime.now()] *)
Definition datetime_now : M S Z :=
  λ s, let w := advance 0 (get_world s) in (Ok (clock w), set_world w s).

(** [time.sleep(d)]: the caller is suspended for at least [d]. *)
Definition time_sleep (d : Z) : M S unit :=
  if bool_decide (d < 0)
  then raise (ValueError "sleep length must be non-negative")
  else modify_world (λ w, advance d (note_call (time_sleep_call d) w)).

Definition os_path_exists (p : path) : M S bool :=
  λ s, (Ok (bool_decide (p ∈ dirs (get_world s))), s).

Definition os_makedirs (p : path) : M S unit :=
  match os_makedirs_error env p with
  | Some e => raise e
  | None => modify_world (add_dir p)
  end.

(** [df.to_csv(p, index=False)] *)
Definition to_csv (df : DataFrame) (p : path) : M S unit :=
  match to_csv_error env p df with
  | Some e => raise e
  | None => modify_world (add_file p df)
  end.

(** A request to a collaborator: it is noted, then answers or raises. *)
Definition ask {A} (c : call) (r : res A) : M S A :=
  modify_world (note_call c);; lift_res r.
End Primitives.

Definition __init__ (season season_type : string) : M World NBADataScraper :=
  let data_dir := ["nba_data"] in
  let player_data_dir := os_path_join data_dir "players" in
  let team_data_dir := os_path_join data_dir "teams" in
  let boxscore_data_dir := os_path_join data_dir "boxscores" in
  for_each [data_dir; player_data_dir; team_data_dir; boxscore_data_dir]
    (λ directory,
       e ← os_path_exists directory;
       if negb e then
         os_makedirs directory;;
         logger_info [Lit "Created directory: "; FPath directory]
       else mret tt);;
  teams_data ←
    try_except_Exception
      (td ← ask teams_get_teams_call (teams_get_teams env);
       logger_info [Lit "Successfully loaded data for "; FNat (length td); Lit " teams"];;
       mret td)
      (λ e,
         logger_error [Lit "Failed to load teams data: "; FExc e];;
         mret []);
  let team_id_to_abbr :=
    foldl (λ (d : gmap Z string) team, <[t_id team := t_abbreviation team]> d) ∅ teams_data in
  last_request_time ← datetime_now;
  mret (mkNBADataScraper season season_type data_dir player_data_dir team_data_dir
          boxscore_data_dir teams_data team_id_to_abbr last_request_time (seconds 1)).

(** Apply rate limiting to avoid getting blocked by the API. *)
Definition _rate_limit_request : M State unit :=
  current_time ← datetime_now;
  o ← get_self;
  let elapsed := current_time - last_request_time o in
  (if bool_decide (elapsed < request_delay o) then
     let sleep_time := request_delay o - elapsed in
     logger_debug [Lit "Rate limiting: sleeping for "; FSeconds2f sleep_time; Lit " seconds"];;
     time_sleep sleep_time
   else mret tt);;
  t ← datetime_now;
  set_last_request_time t.

(** Get a player's ID by their name: the ID if found, None otherwise. *)
Definition get_player_id_by_name (player_name : string) : M State (option Z) :=
  try_except_Exception
    (player_matches ← ask (find_players_by_full_name_call player_name)
                          (players_find_players_by_full_name env player_name);
     player_matches ←
       match player_matches with
       | [] =>
           first ← lift_res (list_getitem (split player_name) 0);
           player_matches ← ask (find_players_by_first_name_call first)
                                (players_find_players_by_first_name env first);
           match player_matches with
           | [] =>
               if bool_decide (1 < length (split player_name))%nat then
                 last ← lift_res (list_getitem_last (split player_name));
                 ask (find_players_by_last_name_call last)
                     (players_find_players_by_last_name env last)
               else mret player_matches
           | _ => mret player_matches
           end
       | _ => mret player_matches
       end;
     match player_matches with
     | p0 :: _ =>
         (if bool_decide (1 < length player_matches)%nat then
            logger_warning [Lit "Multiple players found for '"; FStr player_name; Lit "': ";
                            FStrs (map p_full_name player_matches)];;
            logger_warning [Lit "Using the first match: "; FStr (p_full_name p0)]
          else mret tt);;
         let player_id := p_id p0 in
         logger_info [Lit "Found player ID "; FInt player_id; Lit " for '";
                      FStr player_name; Lit "'"];;
         mret (Some player_id)
     | [] =>
         logger_error [Lit "No player found with name '"; FStr player_name; Lit "'"];;
         mret None
     end)
    (λ e,
       logger_error [Lit "Error finding player ID for '"; FStr player_name; Lit "': "; FExc e];;
       mret None).

(** [(df[name] >= 10).astype(int)] *)
Definition at_least_10 (name : string) (df : DataFrame) : res (list Z) :=
  res_bind (df_getitem name df) (λ s,
  res_bind (series_ge s 10) (λ b, Ok (astype_int b))).

(** The sum that both derived flags compare:
    [(df['PTS'] >= 10).astype(int) + (df['REB'] >= 10).astype(int) +
     (df['AST'] >= 10).astype(int) + (df['STL'] >= 10).astype(int) +
     (df['BLK'] >= 10).astype(int)]. *)
Definition categories_at_least_10 (df : DataFrame) : res (list Z) :=
  res_bind (at_least_10 "PTS" df) (λ pts,
  res_bind (at_least_10 "REB" df) (λ reb,
  res_bind (at_least_10 "AST" df) (λ ast,
  res_bind (at_least_10 "STL" df) (λ stl,
  res_bind (at_least_10 "BLK" df) (λ blk,
    Ok (series_add (series_add (series_add (series_add pts reb) ast) stl) blk)))))).

(** [(categories >= k).astype(int)] *)
Definition flag_column (df : DataFrame) (k : Z) : res Series :=
  res_bind (categories_at_least_10 df) (λ n,
    Ok (int_series (astype_int (int_series_ge n k)))).

(** [if pct not in df.columns and made in df.columns and att in df.columns:
       df[pct] = df[made] / df[att]] *)
Definition shooting_percentage (pct made att : string) (df : DataFrame) : res DataFrame :=
  if negb (in_columns pct df) && in_columns made df && in_columns att df then
    res_bind (df_getitem made df) (λ m,
    res_bind (df_getitem att df) (λ a,
    res_bind (series_truediv m a) (λ q, Ok (df_setitem pct q df))))
  else Ok df.

(** Get game-by-game statistics for a player. *)
Definition get_player_game_log (player_id : Z) (save : bool) : M State DataFrame :=
  try_except_Exception
    (o ← get_self;
     logger_info [Lit "Fetching game log for player ID "; FInt player_id;
                  Lit " for season "; FStr (season o)];;
     _rate_limit_request;;
     frames ← ask (PlayerGameLog_call player_id (season o) (season_type o))
                  (playergamelog_PlayerGameLog env player_id (season o) (season_type o));
     df ← lift_res (list_getitem frames 0);
     if df_empty df then
       logger_warning [Lit "No game data found for player ID "; FInt player_id;
                       Lit " in "; FStr (season o); Lit " season"];;
       mret pd_DataFrame
     else
       let df := df_setitem_scalar "PLAYER_ID" (Int player_id) df in
       player_name ←
         try_except
           (player_info ← ask (find_player_by_id_call player_id)
                              (players_find_player_by_id env player_id);
            mret match player_info with
                 | Some p => p_full_name p
                 | None => "Unknown_" +:+ pretty player_id
                 end)
           (mret ("Unknown_" +:+ pretty player_id));
       dd ← lift_res (flag_column df 2);
       let df := df_setitem "DOUBLE_DOUBLE" dd df in
       td ← lift_res (flag_column df 3);
       let df := df_setitem "TRIPLE_DOUBLE" td df in
       df ← lift_res (shooting_percentage "FG_PCT" "FGM" "FGA" df);
       df ← lift_res (shooting_percentage "FG3_PCT" "FG3M" "FG3A" df);
       (if save then
          let file_path :=
            os_path_join (player_data_dir o) (replace " " "_" player_name +:+ "_games.csv") in
          to_csv df file_path;;
          logger_info [Lit "Saved player game log to "; FPath file_path]
        else mret tt);;
       logger_info [Lit "Successfully fetched "; FNat (df_len df);
                    Lit " games for player ID "; FInt player_id];;
       mret df)
    (λ e,
       logger_error [Lit "Error fetching game log for player ID "; FInt player_id;
                     Lit ": "; FExc e];;
       mret pd_DataFrame).

(** Get game-by-game statistics for a team. *)
Definition get_team_game_log (team_id : Z) (save : bool) : M State DataFrame :=
  try_except_Exception
    (o ← get_self;
     logger_info [Lit "Fetching game log for team ID "; FInt team_id;
                  Lit " for season "; FStr (season o)];;
     _rate_limit_request;;
     frames ← ask (TeamGameLog_call team_id (season o) (season_type o))
                  (teamgamelog_TeamGameLog env team_id (season o) (season_type o));
     df ← lift_res (list_getitem frames 0);
     if df_empty df then
       logger_warning [Lit "No game data found for team ID "; FInt team_id;
                       Lit " in "; FStr (season o); Lit " season"];;
       mret pd_DataFrame
     else
       let df := df_setitem_scalar "TEAM_ID" (Int team_id) df in
       let team_abbr :=
         default ("Unknown_" +:+ pretty team_id) (team_id_to_abbr o !! team_id) in
       (if save then
          let file_path := os_path_join (team_data_dir o) (team_abbr +:+ "_games.csv") in
          to_csv df file_path;;
          logger_info [Lit "Saved team game log to "; FPath file_path]
        else mret tt);;
       logger_info [Lit "Successfully fetched "; FNat (df_len df);
                    Lit " games for team ID "; FInt team_id];;
       mret df)
    (λ e,
       logger_error [Lit "Error fetching game log for team ID "; FInt team_id;
                     Lit ": "; FExc e];;
       mret pd_DataFrame).

(** Get the box score for a specific game. *)
Definition get_box_score (game_id : string) (save : bool) : M State BoxScore :=
  try_except_Exception
    (o ← get_self;
     logger_info [Lit "Fetching box score for game ID "; FStr game_id];;
     _rate_limit_request;;
     box_score ← ask (BoxScoreTraditionalV2_call game_id)
                     (boxscoretraditionalv2_BoxScoreTraditionalV2 env game_id);
     let player_stats := box_score.1 in
     let team_stats := box_score.2 in
     if df_empty player_stats || df_empty team_stats then
       logger_warning [Lit "No box score data found for game ID "; FStr game_id];;
       mret (mkBoxScore pd_DataFrame pd_DataFrame)
     else
       (if save then
          let player_file_path :=
            os_path_join (boxscore_data_dir o) ("game_" +:+ game_id +:+ "_player_stats.csv") in
          let team_file_path :=
            os_path_join (boxscore_data_dir o) ("game_" +:+ game_id +:+ "_team_stats.csv") in
          to_csv player_stats player_file_path;;
          to_csv team_stats team_file_path;;
          logger_info [Lit "Saved player box score to "; FPath player_file_path];;
          logger_info [Lit "Saved team box score to "; FPath team_file_path]
        else mret tt);;
       logger_info [Lit "Successfully fetched box score for game ID "; FStr game_id];;
       mret (mkBoxScore player_stats team_stats))
    (λ e,
       logger_error [Lit "Error fetching box score for game ID "; FStr game_id;
                     Lit ": "; FExc e];;
       mret (mkBoxScore pd_DataFrame pd_DataFrame)).

(** [df.loc[df['TEAM_ID'] == team_id, 'PTS']]: the selected values, with
    the type of the column they come from. *)
Definition loc_team_pts (df : DataFrame) (team_id : cell) : res (dtype * Series) :=
  res_bind (df_getitem "TEAM_ID" df) (λ ids,
  res_bind (df_getitem "PTS" df) (λ pts,
    Ok (series_dtype pts,
        series_loc (series_eq (series_values ids) team_id) (series_values pts)))).

(** [abs(a - b) < 0.1] *)
Definition within_tolerance (a b : cell) : res bool :=
  res_bind (cell_sub a b) (λ d,
  res_bind (cell_abs d) (λ m, cell_lt m f64_tenth)).

(** Perform a spot check on a specific game to verify data accuracy. *)
Definition spot_check_game (game_id : string) : M State bool :=
  try_except_Exception
    (logger_info [Lit "Performing spot check on game ID "; FStr game_id];;
     box_score ← get_box_score game_id false;
     if negb (df_empty (player_stats box_score)) && negb (df_empty (team_stats box_score)) then
       let player_stats := player_stats box_score in
       let team_stats := team_stats box_score in
       home_team_id ← lift_res (res_bind (df_getitem "TEAM_ID" team_stats)
                                         (λ s, series_iloc (series_values s) 0));
       away_team_id ← lift_res (res_bind (df_getitem "TEAM_ID" team_stats)
                                         (λ s, series_iloc (series_values s) 1));
       home_team_pts ← lift_res (res_bind (loc_team_pts team_stats home_team_id)
                                          (λ s, series_iloc s.2 0));
       away_team_pts ← lift_res (res_bind (loc_team_pts team_stats away_team_id)
                                          (λ s, series_iloc s.2 0));
       home_player_pts ← lift_res (res_bind (loc_team_pts player_stats home_team_id)
                                            (λ s, series_sum s.1 s.2));
       away_player_pts ← lift_res (res_bind (loc_team_pts player_stats away_team_id)
                                            (λ s, series_sum s.1 s.2));
       home_check ← lift_res (within_tolerance home_team_pts home_player_pts);
       away_check ← lift_res (within_tolerance away_team_pts away_player_pts);
       if home_check && away_check then
         logger_info [Lit "Spot check passed for game ID "; FStr game_id];;
         mret true
       else
         logger_warning [Lit "Spot check failed for game ID "; FStr game_id];;
         logger_warning [Lit "Home team: reported "; FCell home_team_pts;
                         Lit ", calculated "; FCell home_player_pts];;
         logger_warning [Lit "Away team: reported "; FCell away_team_pts;
                         Lit ", calculated "; FCell away_player_pts];;
         mret false
     else
       logger_warning [Lit "No data available for spot check on game ID "; FStr game_id];;
       mret false)
    (λ e,
       logger_error [Lit "Error during spot check for game ID "; FStr game_id;
                     Lit ": "; FExc e];;
       mret false).
End NBADataScraper.

(** ** Reading frames row by row *)

(** The value of column [name] in row [i], if there is one. *)
Definition df_cell (df : DataFrame) (name : string) (i : nat) : option cell :=
  match df_getitem name df with
  | Ok s => s !! i
  | Raise _ => None
  end.

(** A frame is rectangular: every column runs over the whole index. *)
Definition df_wf (df : DataFrame) : Prop :=
  Forall (λ col, length col.2 = df_len df) df.

(** [pd.isna(c)] *)
Definition isna (c : cell) : bool :=
  match c with NaN => true | _ => false end.

Definition is_inf (c : cell) : bool :=
  match c with Inf _ => true | _ => false end.

(** A numeric zero. *)
Definition is_zero (c : cell) : bool := cell_eq c (Int 0).

(** The sign of the zero a cell holds: [true] for [-0.0] only. *)
Definition zero_sign (c : cell) : bool :=
  match c with
  | Float (S754_zero negative) => negative
  | _ => false
  end.

(** A cell that holds a number, possibly NaN or an infinity. *)
Definition is_number (c : cell) : Prop :=
  match c with
  | Str _ => False
  | _ => True
  end.

(** Column [name], when the frame has it, holds numbers only. *)
Definition numeric_column (df : DataFrame) (name : string) : Prop :=
  ∀ col, df_getitem name df = Ok col → Forall is_number col.

(** ** The statements of the specification *)

(** "individually >= k", on the number a cell holds: an int by its value,
    a float by the float64 order, where NaN reaches nothing. *)
Definition reaches (c : cell) (k : Z) : Prop :=
  match c with
  | Int z => k ≤ z
  | Float f => f64_le (f64_of_int k) f = true
  | Str _ => False
  end.

Global Instance reaches_dec c k : Decision (reaches c k).
Proof. destruct c; simpl; apply _. Defined.

(** How many of the given categories reach 10. *)
Definition categories_reached (row : list cell) : nat :=
  length (filter (λ c, reaches c 10) row).

(** "1 if at least [k] of {points, rebounds, assists, steals, blocks} are
    individually >= 10, else 0". *)
Definition flag_spec (k : nat) (pts reb ast stl blk : cell) : Z :=
  if bool_decide (k ≤ categories_reached [pts; reb; ast; stl; blk])%nat then 1 else 0.

Definition DOUBLE_DOUBLE_spec := flag_spec 2.
Definition TRIPLE_DOUBLE_spec := flag_spec 3.

(** The box score as the specification sees it: team rows with an
    identifier and reported points, player rows with the team they belong
    to and their points, NaN for a player who did not play. *)
Record TeamLine : Type := mkTeamLine { tl_team : Z; tl_points : cell }.
Record PlayerLine : Type := mkPlayerLine { pl_team : Z; pl_points : cell }.

Definition team_line (id pts : cell) : option TeamLine :=
  match id, pts with
  | Int t, (Int _ | Float _) => Some (mkTeamLine t pts)
  | _, _ => None
  end.

Definition player_line (id pts : cell) : option PlayerLine :=
  match id, pts with
  | Int t, (Int _ | Float _) => Some (mkPlayerLine t pts)
  | _, _ => None
  end.

(** The typed rows held by the TEAM_ID and PTS columns of a frame. *)
Definition lines {L} (line : cell → cell → option L) (df : DataFrame) : option (list L) :=
  match df_getitem "TEAM_ID" df, df_getitem "PTS" df with
  | Ok ids, Ok pts =>
      if bool_decide (length ids = length pts)
      then mapM (λ p, line p.1 p.2) (zip ids pts)
      else None
  | _, _ => None
  end.

(** The points reported for team [t]: those of the first team row that
    carries the identifier, as the points column holds them. *)
Definition reported_points (teams : list TeamLine) (t : Z) : option cell :=
  match filter (λ l, tl_team l = t) teams with
  | [] => None
  | l :: _ => Some (astype (series_dtype (map tl_points teams)) (tl_points l))
  end.

(** "partition player rows by team identifier, sum each partition's points
    column": an int64 sum when every player row holds an int, a float64
    sum otherwise, a player who did not play counting for nothing. *)
Definition players_points (rows : list PlayerLine) (t : Z) : cell :=
  let mine := map pl_points (filter (λ r, pl_team r = t) rows) in
  if forallb is_Int (map pl_points rows)
  then Int (wrap64 (foldr Z.add 0 (map int_value mine)))
  else Float (np_sum (map nan_to_zero mine)).

(** "the absolute difference" between the reported points of a team and
    the sum of its players' points, in the arithmetic of the two values. *)
Definition points_gap (teams : list TeamLine) (rows : list PlayerLine) (t : Z)
  : option cell :=
  match reported_points teams t with
  | None => None
  | Some r =>
      match res_bind (cell_sub r (players_points rows t)) cell_abs with
      | Ok g => Some g
      | Raise _ => None
      end
  end.

(** "... is below the fixed tolerance (0.1)". *)
Definition team_consistent (teams : list TeamLine) (rows : list PlayerLine) (t : Z)
  : Prop :=
  ∃ g, points_gap teams rows t = Some g ∧ cell_lt g f64_tenth = Ok true.

(** The check of a box score: of its first two team rows, each names a
    team that is consistent. *)
Definition check_box_score_spec (teams : list TeamLine) (rows : list PlayerLine) : Prop :=
  match teams with
  | h :: a :: _ =>
      team_consistent teams rows (tl_team h) ∧ team_consistent teams rows (tl_team a)
  | _ => False
  end.

(** ** Exceptions that [except Exception] catches *)

Definition raises_Exception {A} (r : res A) : Prop :=
  match r with
  | Raise e => isinstance_Exception e = true
  | Ok _ => True
  end.

(** Whatever a collaborator raises derives from [Exception]. *)
Record OnlyExceptions (env : Collaborators) : Prop := mkOnlyExceptions {
  oe_get_teams : raises_Exception (teams_get_teams env);
  oe_full_name : ∀ n, raises_Exception (players_find_players_by_full_name env n);
  oe_first_name : ∀ n, raises_Exception (players_find_players_by_first_name env n);
  oe_last_name : ∀ n, raises_Exception (players_find_players_by_last_name env n);
  oe_player_log : ∀ i s t, raises_Exception (playergamelog_PlayerGameLog env i s t);
  oe_team_log : ∀ i s t, raises_Exception (teamgamelog_TeamGameLog env i s t);
  oe_box_score : ∀ g, raises_Exception (boxscoretraditionalv2_BoxScoreTraditionalV2 env g);
  oe_to_csv : ∀ p df e, to_csv_error env p df = Some e → isinstance_Exception e = true
}.

(** A method neither lets an exception out nor fails to return. *)
Definition returns {S A} (m : M S A) : Prop := ∀ s, ∃ a s', m s = (Ok a, s').

(** A method lets out nothing but what [except Exception] catches. *)
Definition catchable {S A} (m : M S A) : Prop := ∀ s, raises_Exception (m s).1.

(** The records a successful resolution leaves: the warning that several
    players matched and the first is taken, when there are several, then
    the identifier found. *)
Definition selection_records (player_name : string) (p : Player) (others : list Player)
  : list log_record :=
  match others with
  | [] => []
  | _ :: _ =>
      [LogRecord WARNING [Lit "Multiple players found for '"; FStr player_name; Lit "': ";
                          FStrs (map p_full_name (p :: others))];
       LogRecord WARNING [Lit "Using the first match: "; FStr (p_full_name p)]]
  end ++
  [LogRecord INFO [Lit "Found player ID "; FInt (p_id p); Lit " for '";
                   FStr player_name; Lit "'"]].

(** Empty, or made of whitespace only. *)
Fixpoint whitespace_go (s : string) (skip : nat) : bool :=
  match s with
  | EmptyString => true
  | String _ s' =>
      match skip with
      | S skip' => whitespace_go s' skip'
      | O =>
          match space_width s with
          | O => false
          | S skip' => whitespace_go s' skip'
          end
      end
  end.

Definition whitespace_only (s : string) : bool := whitespace_go s 0.

(** "zero matches after exhausting the fallback chain": the full name
    matches nobody, and neither does the first token, if there is one, nor
    the last token, if there are several. *)
Definition chain_yields_no_match (env : Collaborators) (player_name : string) : Prop :=
  players_find_players_by_full_name env player_name = Ok [] ∧
  match split player_name with
  | [] => True
  | [first] => players_find_players_by_first_name env first = Ok []
  | first :: rest =>
      players_find_players_by_first_name env first = Ok [] ∧
      players_find_players_by_last_name env (default first (last rest)) = Ok []
  end.

(** ** Sample collaborators and data *)

(** Collaborators that know nothing and never fail, except for the one
    answer given. *)
Definition serving_player_log (r : res (list DataFrame)) : Collaborators :=
  mkCollaborators (Ok []) (λ _, Ok []) (λ _, Ok []) (λ _, Ok []) (λ _, Ok None)
    (λ _ _ _, r) (λ _ _ _, Ok []) (λ _, Ok ([], [])) (λ _, None) (λ _ _, None).

Definition serving_team_log (r : res (list DataFrame)) : Collaborators :=
  mkCollaborators (Ok []) (λ _, Ok []) (λ _, Ok []) (λ _, Ok []) (λ _, Ok None)
    (λ _ _ _, Ok []) (λ _ _ _, r) (λ _, Ok ([], [])) (λ _, None) (λ _ _, None).

Definition serving_box_score (r : res (DataFrame * DataFrame)) : Collaborators :=
  mkCollaborators (Ok []) (λ _, Ok []) (λ _, Ok []) (λ _, Ok []) (λ _, Ok None)
    (λ _ _ _, Ok []) (λ _ _ _, Ok []) (λ _, r) (λ _, None) (λ _ _, None).

(** The same team log, on a disk that takes no more files. *)
Definition serving_team_log_disk_full (r : res (list DataFrame)) : Collaborators :=
  mkCollaborators (Ok []) (λ _, Ok []) (λ _, Ok []) (λ _, Ok []) (λ _, Ok None)
    (λ _ _ _, Ok []) (λ _ _ _, r) (λ _, Ok ([], [])) (λ _, None)
    (λ _ _, Some (OtherException "OSError" "[Errno 28] No space left on device")).

(** A static player table searched by exact name. *)
Definition serving_players (snapshot : list Player) : Collaborators :=
  mkCollaborators (Ok [])
    (λ n, Ok (filter (λ p, p_full_name p = n) snapshot))
    (λ n, Ok (filter (λ p, p_first_name p = n) snapshot))
    (λ n, Ok (filter (λ p, p_last_name p = n) snapshot))
    (λ i, Ok (head (filter (λ p, p_id p = i) snapshot)))
    (λ _ _ _, Ok []) (λ _ _ _, Ok []) (λ _, Ok ([], [])) (λ _, None) (λ _ _, None).

(** The object and the world right after
    [NBADataScraper(season="2024-25")] in an empty directory, at time 0. *)
Definition boot : State :=
  mkState
    (mkNBADataScraper "2024-25" SeasonType_regular ["nba_data"]
       ["nba_data"; "players"] ["nba_data"; "teams"] ["nba_data"; "boxscores"]
       [] ∅ 0 (seconds 1))
    (mkWorld 0 [] [] [["nba_data"]; ["nba_data"; "players"]; ["nba_data"; "teams"];
                       ["nba_data"; "boxscores"]] ∅ [] []).

(** Two game rows: a double-double and a triple-double; the first with no
    shot attempted. *)
Definition two_games : DataFrame :=
  [("Game_ID", [Str "0022400001"; Str "0022400002"]);
   ("PTS", [Int 10; Int 10]); ("REB", [Int 10; Int 10]); ("AST", [Int 3; Int 10]);
   ("STL", [Int 0; Int 0]); ("BLK", [Int 0; Int 0]);
   ("FGM", [Int 5; Int 4]); ("FGA", [Int 0; Int 8]);
   ("FG3M", [Int 0; Int 1]); ("FG3A", [Int 0; Int 2])].

(** A game row without the steals column. *)
Definition no_steals : DataFrame :=
  [("PTS", [Int 10]); ("REB", [Int 10]); ("AST", [Int 3]); ("BLK", [Int 0])].

(** Team game rows as the endpoint labels them, and with a TEAM_ID column
    of their own. *)
Definition team_games : DataFrame :=
  [("Team_ID", [Int 7; Int 7]); ("Game_ID", [Str "0022400001"; Str "0022400002"]);
   ("PTS", [Int 100; Int 98])].

Definition team_games_with_id : DataFrame :=
  [("TEAM_ID", [Int 1; Int 1]); ("PTS", [Int 100; Int 98])].

(** Box scores: team totals 100 and 98; players with 50.05 + 50 and 98
    points (one player did not play), and players with 50.1 + 50 and 98
    points. *)
Definition two_teams : DataFrame :=
  [("TEAM_ID", [Int 1; Int 2]); ("PTS", [Int 100; Int 98])].

Definition one_team : DataFrame :=
  [("TEAM_ID", [Int 1]); ("PTS", [Int 100])].

(** Two team rows that carry one identifier, and the players of that
    team, with 100 points between them. *)
Definition one_team_twice : DataFrame :=
  [("TEAM_ID", [Int 1; Int 1]); ("PTS", [Int 100; Int 5])].

Definition players_of_one_team : DataFrame :=
  [("TEAM_ID", [Int 1; Int 1]); ("PTS", [Int 60; Int 40])].

(** A team reported with 0.1 points that has no player row. *)
Definition two_teams_tenth : DataFrame :=
  [("TEAM_ID", [Int 2; Int 1]); ("PTS", [Float f64_tenth; Int 100])].

Definition players_close : DataFrame :=
  [("TEAM_ID", [Int 1; Int 1; Int 2; Int 1]);
   ("PTS", [Float (S754_finite false 7043911292184166 (-47)); Int 50; Int 98; NaN])].

Definition players_off : DataFrame :=
  [("TEAM_ID", [Int 1; Int 1; Int 2]);
   ("PTS", [Float (S754_finite false 7050948166601933 (-47)); Int 50; Int 98])].

Definition snapshot : list Player :=
  [mkPlayer 2544 "LeBron James" "LeBron" "James";
   mkPlayer 201939 "Stephen Curry" "Stephen" "Curry";
   mkPlayer 203552 "Seth Curry" "Seth" "Curry";
   mkPlayer 1629029 "Luka Doncic" "Luka" "Doncic"].

Definition ConnectionError : exc :=
  OtherException "requests.exceptions.ConnectionError" "Max retries exceeded".

(** The value a run returns, [d] if it lets an exception out. *)
Definition returned {S A} (d : A) (r : res A * S) : A :=
  match r.1 with
  | Ok a => a
  | Raise _ => d
  end.

(** ** The team lookups and the sweep over all teams *)

(** The searches of the static team table, under the names the code calls
    them by. They leave no entry in the trace of calls. *)
Record TeamLookups : Type := mkTeamLookups {
  teams_find_teams_by_full_name : string → res (list Team);
  teams_find_teams_by_abbreviation : string → res (list Team);
  teams_find_teams_by_nickname : string → res (list Team)
}.

Global Instance Team_eq_dec : EqDecision Team.
Proof. solve_decision. Defined.

(** A method with a local variable of type [R] that it updates in place:
    the variable rides along with the object and the world. *)
Global Instance Local_HasWorld {R} : HasWorld (State * R) :=
  {| get_world s := world s.1; set_world w s := (mkState (self s.1) w, s.2) |}.

Definition call_method {R A} (m : M State A) : M (State * R) A :=
  λ s, let r := m s.1 in (r.1, (r.2, s.2)).

Definition modify_local {R} (f : R → R) : M (State * R) unit :=
  λ s, (Ok tt, (s.1, f s.2)).

Definition return_local {R} (init : R) (m : M (State * R) unit) : M State R :=
  λ s, let r := m (s, init) in
       (match r.1 with Ok _ => Ok r.2.2 | Raise e => Raise e end, r.2.1).

Section TeamMethods.
Context (env : Collaborators) (lookups : TeamLookups).

(** Get a team's ID by their name: the ID if found, None otherwise. *)
Definition get_team_id_by_name (team_name : string) : M State (option Z) :=
  try_except_Exception
    (team_matches ← lift_res (teams_find_teams_by_full_name lookups team_name);
     team_matches ←
       match team_matches with
       | [] => lift_res (teams_find_teams_by_abbreviation lookups team_name)
       | _ => mret team_matches
       end;
     team_matches ←
       match team_matches with
       | [] => lift_res (teams_find_teams_by_nickname lookups team_name)
       | _ => mret team_matches
       end;
     match team_matches with
     | t0 :: _ =>
         let team_id := t_id t0 in
         logger_info [Lit "Found team ID "; FInt team_id; Lit " for '";
                      FStr team_name; Lit "'"];;
         mret (Some team_id)
     | [] =>
         logger_error [Lit "No team found with name '"; FStr team_name; Lit "'"];;
         mret None
     end)
    (λ e,
       logger_error [Lit "Error finding team ID for '"; FStr team_name; Lit "': "; FExc e];;
       mret None).

(** Get recent games for all teams: a dictionary from team ID to the
    team's game log. The argument [days_back] is not used. *)
Definition get_recent_games_for_all_teams (days_back : Z) : M State (gmap Z DataFrame) :=
  o ← get_self;
  return_local (∅ : gmap Z DataFrame)
    (for_each (teams_data o)
       (λ team,
          let team_id := t_id team in
          let team_name := t_full_name team in
          logger_info [Lit "Fetching recent games for "; FStr team_name;
                       Lit " (ID: "; FInt team_id; Lit ")"];;
          try_except_Exception
            (df ← call_method (get_team_game_log env team_id true);
             (if negb (df_empty df) then modify_local (<[team_id := df]>) else mret tt);;
             time_sleep (seconds 1))
            (λ e,
               logger_error [Lit "Error fetching games for "; FStr team_name;
                             Lit ": "; FExc e]))).
End TeamMethods.

(** The state once a turn of the sweep has announced its team. *)
Definition announced (team : Team) (s : State) : State :=
  mkState (self s)
    (emit (LogRecord INFO [Lit "Fetching recent games for "; FStr (t_full_name team);
                           Lit " (ID: "; FInt (t_id team); Lit ")"]) (world s)).

(** One turn of the sweep's loop. *)
Local Abbreviation sweep_step env :=
  (λ team : Team,
     logger_info [Lit "Fetching recent games for "; FStr (t_full_name team);
                  Lit " (ID: "; FInt (t_id team); Lit ")"];;
     try_except_Exception
       (df ← call_method (get_team_game_log env (t_id team) true);
        (if negb (df_empty df) then modify_local (<[t_id team := df]>) else mret tt);;
        time_sleep (seconds 1))
       (λ e,
          logger_error [Lit "Error fetching games for "; FStr (t_full_name team);
                        Lit ": "; FExc e])) (only parsing).

(** ** What a method leaves alone *)

(** Whatever its outcome, [m] takes a state to one related to it by [R]. *)
Definition keeps {S A} (R : relation S) (m : M S A) : Prop :=
  ∀ s, R s (m s).2.

(** The two states look the same through [view]. *)
Definition same {S V} (view : S → V) : relation S :=
  λ s s', view s' = view s.

(** A view of the state that does not see one kind of change. *)
Class LogBlind {V} (view : State → V) : Prop :=
  log_blind : ∀ r s, view (mkState (self s) (emit r (world s))) = view s.
Class CallBlind {V} (view : State → V) : Prop :=
  call_blind : ∀ c s, view (mkState (self s) (note_call c (world s))) = view s.
Class FileBlind {V} (view : State → V) : Prop :=
  file_blind : ∀ p df s, view (mkState (self s) (add_file p df (world s))) = view s.

(** The only exceptions [m] lets out are those [except Exception] misses. *)
Definition lets_out_only_BaseException {S A} (m : M S A) : Prop :=
  ∀ s e s', m s = (Raise e, s') → isinstance_Exception e = false.

Definition attributes (s : State) : NBADataScraper := self s.
Definition files_on_disk (s : State) : gmap path DataFrame := files (world s).
Definition log_on_disk (s : State) : list log_record := log_file (world s).

(** The object once the governor has recorded [t] as the time of the last
    request. *)
Definition stamped (t : Z) (o : NBADataScraper) : NBADataScraper :=
  mkNBADataScraper (season o) (season_type o) (data_dir o) (player_data_dir o)
    (team_data_dir o) (boxscore_data_dir o) (teams_data o) (team_id_to_abbr o)
    t (request_delay o).

(** The governor has been passed once between the two states: the time of
    the last request has moved on by the minimum interval at least, and no
    other attribute has changed. *)
Definition governed : relation State :=
  λ s s', ∃ t, last_request_time (self s) + request_delay (self s) ≤ t ∧
               self s' = stamped t (self s).

(** The directories the constructor looks after, in the order it takes
    them. *)
Definition data_directories : list path :=
  [["nba_data"]; ["nba_data"; "players"]; ["nba_data"; "teams"]; ["nba_data"; "boxscores"]].

Definition created_directory (p : path) : log_record :=
  LogRecord INFO [Lit "Created directory: "; FPath p].

(** What the sweep over all teams depends on between two requests: the
    object, the clock and the trace of calls. *)
Definition marks (s : State) : NBADataScraper * Z * list call :=
  (self s, clock (world s), calls (world s)).

(** The frame a team fetch makes of a non-empty response [raw]. *)
Definition team_frame (team_id : Z) (raw : DataFrame) : DataFrame :=
  df_setitem_scalar "TEAM_ID" (Int team_id) raw.

(** The file a team's game log is saved to. *)
Definition team_file_path (o : NBADataScraper) (team_id : Z) : path :=
  os_path_join (team_data_dir o)
    (default ("Unknown_" +:+ pretty team_id) (team_id_to_abbr o !! team_id) +:+ "_games.csv").

(** The files of the teams of [l]. *)
Definition team_files (o : NBADataScraper) (l : list Team) : list path :=
  (λ t, team_file_path o (t_id t)) <$> l.

(** Between the two states no file has been removed, and none written
    but those at [paths]. *)
Definition writes_within (paths : list path) : relation State :=
  λ s s', ∀ p, p ∉ paths → files (world s') !! p = files (world s) !! p.

(** The trace of calls has grown between the two states. *)
Definition asks_more : relation State :=
  λ s s', ∃ more, calls (world s') = calls (world s) ++ more.

Definition calls_made (s : State) : list call := calls (world s).

(** ** More sample data *)

Definition league : list Team :=
  [mkTeam 1610612747 "Los Angeles Lakers" "LAL" "Lakers";
   mkTeam 1610612738 "Boston Celtics" "BOS" "Celtics";
   mkTeam 1610612746 "Los Angeles Clippers" "LAC" "Clippers"].

(** A static team table searched by exact name; the search by abbreviation
    is given apart. *)
Definition serving_teams (by_abbreviation : string → res (list Team)) : TeamLookups :=
  mkTeamLookups
    (λ n, Ok (filter (λ t, t_full_name t = n) league))
    by_abbreviation
    (λ n, Ok (filter (λ t, t_nickname t = n) league)).

Definition by_exact_abbreviation (n : string) : res (list Team) :=
  Ok (filter (λ t, t_abbreviation t = n) league).

Definition AttributeError : exc :=
  OtherException "AttributeError"
    "module 'nba_api.stats.static.teams' has no attribute 'find_teams_by_abbreviation'".

Definition PermissionError : exc :=
  OtherException "PermissionError" "[Errno 13] Permission denied".

(** A disk on which no directory can be made. *)
Definition read_only_disk : Collaborators :=
  mkCollaborators (Ok []) (λ _, Ok []) (λ _, Ok []) (λ _, Ok []) (λ _, Ok None)
    (λ _ _ _, Ok []) (λ _ _ _, Ok []) (λ _, Ok ([], []))
    (λ _, Some PermissionError) (λ _ _, None).

(** The team table cannot be loaded. *)
Definition teams_unreachable : Collaborators :=
  mkCollaborators (Raise ConnectionError) (λ _, Ok []) (λ _, Ok []) (λ _, Ok [])
    (λ _, Ok None) (λ _ _ _, Ok []) (λ _ _ _, Ok []) (λ _, Ok ([], []))
    (λ _, None) (λ _ _, None).

(** The league's table, and one answer to every request for a team's log. *)
Definition serving_league (r : res (list DataFrame)) : Collaborators :=
  mkCollaborators (Ok league) (λ _, Ok []) (λ _, Ok []) (λ _, Ok []) (λ _, Ok None)
    (λ _ _ _, Ok []) (λ _ _ _, r) (λ _, Ok ([], [])) (λ _, None) (λ _ _, None).

(** A box score whose team table cannot be written. *)
Definition serving_box_score_half (r : res (DataFrame * DataFrame)) : Collaborators :=
  mkCollaborators (Ok []) (λ _, Ok []) (λ _, Ok []) (λ _, Ok []) (λ _, Ok None)
    (λ _ _ _, Ok []) (λ _ _ _, Ok []) (λ _, r) (λ _, None)
    (λ p _, if bool_decide (p = ["nba_data"; "boxscores"; "game_0022400001_team_stats.csv"])
            then Some (OtherException "OSError" "[Errno 28] No space left on device")
            else None).

(** An empty disk at time 0, and a disk with the data directory alone. *)
Definition empty_disk : World := mkWorld 0 [] [] [] ∅ [] [].

Definition data_dir_only : World := mkWorld 0 [] [] [["nba_data"]] ∅ [] [].

(** The object and the world right after the constructor has loaded the
    league's table on an empty disk. *)
Definition league_boot (r : res (list DataFrame)) : State :=
  let run := __init__ (serving_league r) "2024-25" SeasonType_regular empty_disk in
  mkState (returned (self boot) run) run.2.

(** A player table searched by ID, and one answer to every request for a
    player's log. *)
Definition serving_named_player_log (snapshot : list Player) (r : res (list DataFrame))
  : Collaborators :=
  mkCollaborators (Ok []) (λ _, Ok []) (λ _, Ok []) (λ _, Ok [])
    (λ i, Ok (head (filter (λ p, p_id p = i) snapshot)))
    (λ _ _ _, r) (λ _ _ _, Ok []) (λ _, Ok ([], [])) (λ _, None) (λ _ _, None).

(** ** Running methods *)

Lemma mbind_Ok {S A B} (m : M S A) (k : A → M S B) s b s' :
  (m ≫= k) s = (Ok b, s') → ∃ a s1, m s = (Ok a, s1) ∧ k a s1 = (Ok b, s').
Proof.
  unfold mbind, M_bind. destruct (m s) as [[a|e] s1]; [eauto | discriminate].
Qed.

Lemma mbind_run {S A B} (m : M S A) (k : A → M S B) s a s1 :
  m s = (Ok a, s1) → (m ≫= k) s = k a s1.
Proof. unfold mbind, M_bind. by intros ->. Qed.

Lemma lift_res_Ok {S A} (r : res A) (s s' : S) a :
  lift_res r s = (Ok a, s') → r = Ok a ∧ s' = s.
Proof. unfold lift_res. by intros [= -> ->]. Qed.

Lemma ask_Ok {S} `{HasWorld S} {A} c (r : res A) (s s' : S) a :
  ask c r s = (Ok a, s') → r = Ok a ∧ s' = set_world (note_call c (get_world s)) s.
Proof.
  unfold ask, mbind, M_bind, modify_world, lift_res. by intros [= -> <-].
Qed.

Lemma try_except_Exception_Ok {S A} (body : M S A) h (s s' : S) a :
  try_except_Exception body h s = (Ok a, s') →
  body s = (Ok a, s') ∨
  ∃ e s1, body s = (Raise e, s1) ∧ isinstance_Exception e = true ∧ h e s1 = (Ok a, s').
Proof.
  unfold try_except_Exception. destruct (body s) as [[v|e] s1]; [auto|].
  destruct (isinstance_Exception e) eqn:He; [|discriminate]. right. eauto.
Qed.

Lemma logger_log_run {S} `{HasWorld S} l msg (s : S) :
  levelno INFO ≤ levelno l →
  logger_log l msg s = (Ok tt, set_world (emit (LogRecord l msg) (get_world s)) s).
Proof. intros Hl. unfold logger_log. by rewrite bool_decide_eq_true_2. Qed.

Lemma ask_run {S} `{HasWorld S} {A} c (r : res A) (s : S) :
  ask c r s = (r, set_world (note_call c (get_world s)) s).
Proof. reflexivity. Qed.

(** What one pass through the governor does to the state. *)
Lemma rate_limit_run s :
  let current_time := clock (advance 0 (world s)) in
  let elapsed := current_time - last_request_time (self s) in
  ∃ s', _rate_limit_request s = (Ok tt, s') ∧
    calls (world s') = calls (world s) ++
      (if bool_decide (elapsed < request_delay (self s))
       then [time_sleep_call (request_delay (self s) - elapsed)] else []) ∧
    last_request_time (self s') = clock (world s') ∧
    last_request_time (self s) + request_delay (self s) ≤ last_request_time (self s') ∧
    (elapsed < request_delay (self s) →
     current_time + (request_delay (self s) - elapsed) ≤ clock (world s')) ∧
    records (world s') = records (world s) ∧
    files (world s') = files (world s) ∧
    request_delay (self s') = request_delay (self s) ∧
    season (self s') = season (self s) ∧
    season_type (self s') = season_type (self s).
Proof.
  destruct s as [o w]. simpl.
  unfold _rate_limit_request, datetime_now, get_self, mbind, M_bind, mret, M_ret. simpl.
  case_bool_decide as Hlt.
  - unfold logger_debug, logger_log. simpl.
    unfold time_sleep. case_bool_decide as Hneg; [lia|].
    simpl. eexists; split; [reflexivity|]. simpl.
    repeat split; try reflexivity.
    + destruct (drift w) as [|j1 [|j2 [|j3 r]]]; simpl; lia.
    + destruct (drift w) as [|j1 [|j2 [|j3 r]]]; simpl; lia.
  - simpl. eexists; split; [reflexivity|]. simpl.
    rewrite app_nil_r. repeat split; try reflexivity; [|lia].
    destruct (drift w) as [|j1 [|j2 r]]; simpl; lia.
Qed.

Lemma init_request_delay env season season_type w o w' :
  __init__ env season season_type w = (Ok o, w') → request_delay o = seconds 1.
Proof.
  unfold __init__. intros Hrun.
  apply mbind_Ok in Hrun as (? & w1 & _ & Hrun).
  apply mbind_Ok in Hrun as (td & w2 & _ & Hrun).
  apply mbind_Ok in Hrun as (t & w3 & _ & Hrun).
  by injection Hrun as <- _.
Qed.

(** C4. Every call to the rate governor reads the clock, computes the time
    elapsed since the last recorded request and, when that is less than the
    minimum interval, asks to be suspended for exactly the remaining time
    (and is suspended at least that long); suspended or not, it records the
    clock's current reading as the last request time before it returns.  So
    two consecutive calls, with nothing in between, complete at recorded
    times at least the minimum interval apart.  The interval set by the
    constructor is one second. *)
Theorem rate_governor_spacing (s : State) :
  let current_time := clock (advance 0 (world s)) in
  let elapsed := current_time - last_request_time (self s) in
  let remaining := request_delay (self s) - elapsed in
  (∃ s1 s2,
     _rate_limit_request s = (Ok tt, s1) ∧
     _rate_limit_request s1 = (Ok tt, s2) ∧
     calls (world s1) = calls (world s) ++
       (if bool_decide (elapsed < request_delay (self s))
        then [time_sleep_call remaining] else []) ∧
     (if bool_decide (elapsed < request_delay (self s))
      then current_time + remaining ≤ clock (world s1) else True) ∧
     last_request_time (self s1) = clock (world s1) ∧
     last_request_time (self s2) = clock (world s2) ∧
     last_request_time (self s) + request_delay (self s) ≤ last_request_time (self s1) ∧
     last_request_time (self s1) + request_delay (self s) ≤ last_request_time (self s2)) ∧
  (∀ env season season_type w,
     match __init__ env season season_type w with
     | (Ok o, _) => request_delay o = 1000000
     | (Raise _, _) => True
     end).
Proof.
  split.
  - destruct (rate_limit_run s) as (s1 & H1 & Hc1 & Ht1 & Hs1 & Hz1 & _ & _ & Hd1 & _).
    destruct (rate_limit_run s1) as (s2 & H2 & _ & Ht2 & Hs2 & _).
    exists s1, s2. rewrite Hd1 in Hs2.
    repeat split; try done.
    case_bool_decide; auto.
  - intros env season season_type w.
    destruct (__init__ env season season_type w) as [[o|e] w'] eqn:Hinit; [|done].
    by apply init_request_delay in Hinit.
Qed.

(** ** Frames *)

Lemma df_getitem_setitem_eq name s df :
  df_getitem name (df_setitem name s df) = Ok s.
Proof.
  induction df as [|[n c] df IH]; simpl.
  - by rewrite String.eqb_refl.
  - destruct (String.eqb n name) eqn:E; simpl; rewrite E; done.
Qed.

Lemma df_getitem_setitem_ne name name' s df :
  name ≠ name' → df_getitem name (df_setitem name' s df) = df_getitem name df.
Proof.
  intros Hne. induction df as [|[n c] df IH]; simpl.
  - destruct (String.eqb_spec name' name); [congruence | done].
  - destruct (String.eqb_spec n name') as [->|Hn]; simpl.
    + destruct (String.eqb_spec name' name); [congruence | done].
    + destruct (String.eqb_spec n name); [done | apply IH].
Qed.

Lemma df_columns_setitem name s df :
  df_columns (df_setitem name s df) =
  if in_columns name df then df_columns df else df_columns df ++ [name].
Proof.
  unfold in_columns, df_columns. induction df as [|[n c] df IH]; simpl.
  - done.
  - destruct (String.eqb_spec n name) as [->|Hn]; simpl.
    + rewrite bool_decide_eq_true_2; [done | left].
    + rewrite IH. case_bool_decide as H1; case_bool_decide as H2; try done.
      * exfalso. apply H2. by right.
      * exfalso. apply H1. by apply elem_of_cons in H2 as [->|].
Qed.

Lemma in_columns_setitem name name' s df :
  in_columns name (df_setitem name' s df) = in_columns name df || bool_decide (name = name').
Proof.
  apply Bool.eq_iff_eq_true. rewrite orb_true_iff. unfold in_columns at 1.
  rewrite bool_decide_eq_true, df_columns_setitem.
  destruct (in_columns name' df) eqn:E; unfold in_columns in *.
  - rewrite !bool_decide_eq_true. split; [auto|]. intros [H| ->]; [done|].
    by apply bool_decide_eq_true in E.
  - rewrite elem_of_app, list_elem_of_singleton, !bool_decide_eq_true. done.
Qed.

Lemma df_getitem_Ok_in_columns name df s :
  df_getitem name df = Ok s → in_columns name df = true.
Proof.
  unfold in_columns, df_columns. induction df as [|[n c] df IH]; simpl; [done|].
  destruct (String.eqb_spec n name) as [->|Hn]; intros Hs.
  - apply bool_decide_eq_true_2. left.
  - apply bool_decide_eq_true_2. right. specialize (IH Hs). by apply bool_decide_eq_true in IH.
Qed.

Lemma df_getitem_in_columns name df :
  in_columns name df = true → ∃ s, df_getitem name df = Ok s.
Proof.
  unfold in_columns, df_columns. intros H%bool_decide_eq_true.
  induction df as [|[n c] df IH]; simpl in *.
  - by apply elem_of_nil in H.
  - destruct (String.eqb_spec n name) as [->|Hn]; [eauto|].
    apply IH. apply elem_of_cons in H as [->|]; done.
Qed.

Lemma df_getitem_missing name df :
  in_columns name df = false → df_getitem name df = Raise (KeyError name).
Proof.
  intros Hin. destruct (df_getitem name df) as [s|e] eqn:E.
  - apply df_getitem_Ok_in_columns in E. congruence.
  - clear Hin. induction df as [|[n c] df IH]; simpl in *; [done|].
    destruct (String.eqb n name); [done | auto].
Qed.

Lemma df_cell_setitem_ne name name' s df i :
  name ≠ name' → df_cell (df_setitem name' s df) name i = df_cell df name i.
Proof. intros. unfold df_cell. by rewrite df_getitem_setitem_ne. Qed.

Lemma df_cell_setitem_eq name s df i :
  df_cell (df_setitem name s df) name i = s !! i.
Proof. unfold df_cell. by rewrite df_getitem_setitem_eq. Qed.

Lemma res_bind_Ok {A B} (r : res A) (k : A → res B) b :
  res_bind r k = Ok b → ∃ a, r = Ok a ∧ k a = Ok b.
Proof. destruct r; simpl; [eauto | done]. Qed.

Lemma res_mapM_Forall2 {A B} (f : A → res B) l l' :
  res_mapM f l = Ok l' → Forall2 (λ x y, f x = Ok y) l l'.
Proof.
  revert l'. induction l as [|x l IH]; simpl; intros l' H.
  - injection H as <-. constructor.
  - apply res_bind_Ok in H as (y & Hy & H).
    apply res_bind_Ok in H as (ys & Hys & H). injection H as <-.
    constructor; auto.
Qed.

Lemma res_mapM_total {A B} (f : A → res B) l :
  Forall (λ x, ∃ y, f x = Ok y) l → ∃ l', res_mapM f l = Ok l'.
Proof.
  induction 1 as [|x l [y Hy] _ [l' IH]]; simpl; [eauto|].
  rewrite Hy, IH. simpl. eauto.
Qed.

(** The frames a percentage step can produce. *)
Lemma shooting_percentage_Ok pct made att df df' :
  shooting_percentage pct made att df = Ok df' →
  (in_columns pct df = true ∨ in_columns made df = false ∨ in_columns att df = false) ∧ df' = df ∨
  in_columns pct df = false ∧
  ∃ m a q, df_getitem made df = Ok m ∧ df_getitem att df = Ok a ∧
           series_truediv m a = Ok q ∧ df' = df_setitem pct q df.
Proof.
  unfold shooting_percentage.
  destruct (in_columns pct df), (in_columns made df) eqn:Em, (in_columns att df) eqn:Ea;
    simpl; try (intros [= <-]; left; split; auto; fail).
  intros H. right. split; [done|].
  apply res_bind_Ok in H as (m & Hm & H). apply res_bind_Ok in H as (a & Ha & H).
  apply res_bind_Ok in H as (q & Hq & H). injection H as <-. eauto 10.
Qed.

Lemma shooting_percentage_other pct made att df df' name :
  shooting_percentage pct made att df = Ok df' → name ≠ pct →
  df_getitem name df' = df_getitem name df.
Proof.
  intros H Hne. apply shooting_percentage_Ok in H as [[_ ->]|(_ & m & a & q & _ & _ & _ & ->)];
    [done | by apply df_getitem_setitem_ne].
Qed.

Lemma shooting_percentage_in_columns pct made att df df' name :
  shooting_percentage pct made att df = Ok df' → name ≠ pct →
  in_columns name df' = in_columns name df.
Proof.
  intros H Hne. apply shooting_percentage_Ok in H as [[_ ->]|(_ & m & a & q & _ & _ & _ & ->)];
    [done|]. rewrite in_columns_setitem, bool_decide_eq_false_2 by done. apply orb_false_r.
Qed.

(** ** Derived flags *)

Lemma lookup_map {A B} (f : A → B) (l : list A) (i : nat) :
  map f l !! i = f <$> (l !! i).
Proof. apply (list_lookup_fmap f l i). Qed.

Lemma cell_ge_reaches c k b : cell_ge c k = Ok b → b = bool_decide (reaches c k).
Proof.
  destruct c as [z|f|t]; simpl; intros [= <-].
  - destruct (Z.leb_spec k z); symmetry;
      [apply bool_decide_eq_true_2 | apply bool_decide_eq_false_2]; lia.
  - destruct (f64_le (f64_of_int k) f) eqn:E; symmetry;
      [by apply bool_decide_eq_true_2 | apply bool_decide_eq_false_2; congruence].
Qed.

Lemma at_least_10_lookup name df n i c :
  at_least_10 name df = Ok n → df_cell df name i = Some c →
  n !! i = Some (Z.b2z (bool_decide (reaches c 10))).
Proof.
  unfold at_least_10, df_cell. intros H Hc.
  apply res_bind_Ok in H as (s & Hs & H). rewrite Hs in Hc.
  apply res_bind_Ok in H as (b & Hb & H). injection H as <-.
  apply res_mapM_Forall2 in Hb.
  destruct (Forall2_lookup_l _ _ _ _ _ Hb Hc) as (y & Hy & Hge).
  unfold astype_int. rewrite lookup_map, Hy. simpl.
  by rewrite (cell_ge_reaches _ _ _ Hge).
Qed.

Lemma categories_reached_sum pts reb ast stl blk :
  Z.of_nat (categories_reached [pts; reb; ast; stl; blk]) =
  Z.b2z (bool_decide (reaches pts 10)) + Z.b2z (bool_decide (reaches reb 10)) +
  Z.b2z (bool_decide (reaches ast 10)) + Z.b2z (bool_decide (reaches stl 10)) +
  Z.b2z (bool_decide (reaches blk 10)).
Proof.
  unfold categories_reached. rewrite !filter_cons, filter_nil.
  repeat case_decide;
    repeat match goal with
           | |- context [bool_decide (reaches ?c 10)] =>
               first [ rewrite (bool_decide_eq_true_2 (reaches c 10)) by done
                     | rewrite (bool_decide_eq_false_2 (reaches c 10)) by done ]
           end; reflexivity.
Qed.

Lemma categories_lookup df n i pts reb ast stl blk :
  categories_at_least_10 df = Ok n →
  df_cell df "PTS" i = Some pts → df_cell df "REB" i = Some reb →
  df_cell df "AST" i = Some ast → df_cell df "STL" i = Some stl →
  df_cell df "BLK" i = Some blk →
  n !! i = Some (Z.of_nat (categories_reached [pts; reb; ast; stl; blk])).
Proof.
  unfold categories_at_least_10. intros H Hp Hr Ha Hs Hb.
  apply res_bind_Ok in H as (p & Hp' & H). apply res_bind_Ok in H as (r & Hr' & H).
  apply res_bind_Ok in H as (a & Ha' & H). apply res_bind_Ok in H as (s & Hs' & H).
  apply res_bind_Ok in H as (b & Hb' & H). injection H as <-.
  unfold series_add. rewrite !lookup_zip_with.
  rewrite (at_least_10_lookup _ _ _ _ _ Hp' Hp), (at_least_10_lookup _ _ _ _ _ Hr' Hr),
    (at_least_10_lookup _ _ _ _ _ Ha' Ha), (at_least_10_lookup _ _ _ _ _ Hs' Hs),
    (at_least_10_lookup _ _ _ _ _ Hb' Hb).
  simpl. by rewrite categories_reached_sum.
Qed.

Lemma flag_column_lookup df (k : nat) col i pts reb ast stl blk :
  flag_column df (Z.of_nat k) = Ok col →
  df_cell df "PTS" i = Some pts → df_cell df "REB" i = Some reb →
  df_cell df "AST" i = Some ast → df_cell df "STL" i = Some stl →
  df_cell df "BLK" i = Some blk →
  col !! i = Some (Int (flag_spec k pts reb ast stl blk)).
Proof.
  unfold flag_column. intros H Hp Hr Ha Hs Hb.
  apply res_bind_Ok in H as (n & Hn & H). injection H as <-.
  unfold int_series, astype_int, int_series_ge. rewrite !lookup_map.
  rewrite (categories_lookup _ _ _ _ _ _ _ _ Hn Hp Hr Ha Hs Hb). simpl.
  unfold flag_spec. do 2 f_equal.
  destruct (Z.leb_spec (Z.of_nat k) (Z.of_nat (categories_reached [pts; reb; ast; stl; blk]))).
  - rewrite bool_decide_eq_true_2 by lia. done.
  - rewrite bool_decide_eq_false_2 by lia. done.
Qed.

(** Both flags are cut from one and the same count. *)
Lemma flag_columns_same_count df k col :
  flag_column df k = Ok col →
  ∃ n, categories_at_least_10 df = Ok n ∧ col = map (λ z, Int (Z.b2z (k <=? z))) n.
Proof.
  unfold flag_column. intros H. apply res_bind_Ok in H as (n & Hn & H).
  injection H as <-. exists n. split; [done|].
  unfold int_series, astype_int, int_series_ge. by rewrite <- !list_fmap_compose.
Qed.

Lemma at_least_10_setitem name name' s df :
  name ≠ name' → at_least_10 name (df_setitem name' s df) = at_least_10 name df.
Proof. intros. unfold at_least_10. by rewrite df_getitem_setitem_ne. Qed.

Lemma categories_setitem name s df :
  name ∉ ["PTS"; "REB"; "AST"; "STL"; "BLK"] →
  categories_at_least_10 (df_setitem name s df) = categories_at_least_10 df.
Proof.
  intros Hn. unfold categories_at_least_10.
  rewrite !at_least_10_setitem; [done|..]; intros <-; apply Hn; repeat constructor.
Qed.

(** What a player fetch that returns went through: it gave up and
    returned the empty frame, or it derived every column. *)
Lemma get_player_game_log_Ok env player_id save s df s' :
  get_player_game_log env player_id save s = (Ok df, s') →
  df = pd_DataFrame ∨
  ∃ raw rest dd td df3,
    playergamelog_PlayerGameLog env player_id (season (self s)) (season_type (self s))
      = Ok (raw :: rest) ∧
    df_empty raw = false ∧
    let df1 := df_setitem_scalar "PLAYER_ID" (Int player_id) raw in
    flag_column df1 2 = Ok dd ∧
    let df2 := df_setitem "DOUBLE_DOUBLE" dd df1 in
    flag_column df2 3 = Ok td ∧
    shooting_percentage "FG_PCT" "FGM" "FGA" (df_setitem "TRIPLE_DOUBLE" td df2) = Ok df3 ∧
    shooting_percentage "FG3_PCT" "FG3M" "FG3A" df3 = Ok df.
Proof.
  intros Hrun. unfold get_player_game_log in Hrun.
  apply try_except_Exception_Ok in Hrun as [Hrun | (e & s1 & _ & _ & Hh)]; last first.
  { apply mbind_Ok in Hh as (? & ? & _ & Hh). injection Hh as <- _. by left. }
  apply mbind_Ok in Hrun as (o & s1 & Ho & Hrun). injection Ho as <- <-.
  apply mbind_Ok in Hrun as ([] & s1 & _ & Hrun).
  apply mbind_Ok in Hrun as ([] & s2 & _ & Hrun).
  apply mbind_Ok in Hrun as (frames & s3 & Hask & Hrun). apply ask_Ok in Hask as [Hask _].
  apply mbind_Ok in Hrun as (raw & s4 & Hget & Hrun). apply lift_res_Ok in Hget as [Hget ->].
  unfold list_getitem in Hget. destruct frames as [|raw' rest]; [discriminate|].
  simpl in Hget. injection Hget as ->.
  destruct (df_empty raw) eqn:Hraw.
  { apply mbind_Ok in Hrun as (? & ? & _ & Hrun). injection Hrun as <- _. by left. }
  apply mbind_Ok in Hrun as (pname & s5 & _ & Hrun).
  apply mbind_Ok in Hrun as (dd & s6 & Hdd & Hrun). apply lift_res_Ok in Hdd as [Hdd ->].
  apply mbind_Ok in Hrun as (td & s7 & Htd & Hrun). apply lift_res_Ok in Htd as [Htd ->].
  apply mbind_Ok in Hrun as (df3 & s8 & H3 & Hrun). apply lift_res_Ok in H3 as [H3 ->].
  apply mbind_Ok in Hrun as (df4 & s9 & H4 & Hrun). apply lift_res_Ok in H4 as [H4 ->].
  apply mbind_Ok in Hrun as ([] & s10 & _ & Hrun).
  apply mbind_Ok in Hrun as ([] & s11 & _ & Hrun).
  injection Hrun as <- _.
  right. exists raw, rest, dd, td, df3. done.
Qed.

(** The two flag columns of a fetched frame. *)
Lemma get_player_game_log_flags env player_id save s df s' :
  get_player_game_log env player_id save s = (Ok df, s') →
  df = pd_DataFrame ∨
  ∃ raw rest dd td,
    playergamelog_PlayerGameLog env player_id (season (self s)) (season_type (self s))
      = Ok (raw :: rest) ∧
    let df1 := df_setitem_scalar "PLAYER_ID" (Int player_id) raw in
    flag_column df1 2 = Ok dd ∧ flag_column df1 3 = Ok td ∧
    df_getitem "DOUBLE_DOUBLE" df = Ok dd ∧ df_getitem "TRIPLE_DOUBLE" df = Ok td.
Proof.
  intros Hrun.
  destruct (get_player_game_log_Ok _ _ _ _ _ _ Hrun)
    as [->|(raw & rest & dd & td & df3 & Hapi & _ & Hdd & Htd & H3 & H4)]; [by left|].
  right. exists raw, rest, dd, td. simpl in *. split; [done|]. split; [done|]. split.
  - revert Htd. unfold flag_column.
    by rewrite categories_setitem by (apply (bool_decide_unpack _); vm_compute; exact I).
  - rewrite (shooting_percentage_other _ _ _ _ _ _ H4) by done.
    rewrite (shooting_percentage_other _ _ _ _ _ _ H3) by done.
    rewrite df_getitem_setitem_ne by done. rewrite df_getitem_setitem_eq.
    split; [done|].
    rewrite (shooting_percentage_other _ _ _ _ _ _ H4) by done.
    rewrite (shooting_percentage_other _ _ _ _ _ _ H3) by done.
    by rewrite df_getitem_setitem_eq.
Qed.

(** ** Shooting percentages *)

Lemma series_truediv_lookup m a q i x y :
  series_truediv m a = Ok q → m !! i = Some x → a !! i = Some y →
  ∃ c, cell_truediv x y = Ok c ∧ q !! i = Some c.
Proof.
  unfold series_truediv. intros H Hx Hy. apply res_mapM_Forall2 in H.
  assert (Hz : zip m a !! i = Some (x, y)) by (by rewrite lookup_zip_with, Hx, Hy).
  destruct (Forall2_lookup_l _ _ _ _ _ H Hz) as (c & Hc & Hdiv). eauto.
Qed.

Lemma shooting_percentage_cells pct made att df df' i x y :
  shooting_percentage pct made att df = Ok df' →
  in_columns pct df = false → in_columns made df = true → in_columns att df = true →
  df_cell df made i = Some x → df_cell df att i = Some y →
  ∃ c, cell_truediv x y = Ok c ∧ df_cell df' pct i = Some c.
Proof.
  intros H Hp Hm Ha Hx Hy.
  apply shooting_percentage_Ok in H as [[[?|[?|?]] _]|(_ & m & a & q & Hgm & Hga & Hq & ->)];
    try congruence.
  unfold df_cell in Hx, Hy. rewrite Hgm in Hx. rewrite Hga in Hy.
  destruct (series_truediv_lookup _ _ _ _ _ _ Hq Hx Hy) as (c & Hc & Hi).
  exists c. split; [done|]. by rewrite df_cell_setitem_eq.
Qed.

Lemma shooting_percentage_kept pct made att df df' :
  shooting_percentage pct made att df = Ok df' → in_columns pct df = true → df' = df.
Proof.
  intros H Hp. apply shooting_percentage_Ok in H as [[_ ->]|(Hf & _)]; congruence.
Qed.

(** Converting an int other than 0 gives a float of its sign that is not
    a zero: the digits that rounding shifts out are fewer than the digits
    there are. *)
Lemma digits2_pos_le p : 2 ^ (Zpos (digits2_pos p) - 1) <= Zpos p.
Proof.
  induction p as [p IH|p IH|]; simpl digits2_pos.
  - rewrite Pos2Z.inj_succ. replace (Z.succ (Zpos (digits2_pos p)) - 1) with (Z.succ (Zpos (digits2_pos p) - 1)) by lia.
    rewrite Z.pow_succ_r by lia. lia.
  - rewrite Pos2Z.inj_succ. replace (Z.succ (Zpos (digits2_pos p)) - 1) with (Z.succ (Zpos (digits2_pos p) - 1)) by lia.
    rewrite Z.pow_succ_r by lia. lia.
  - simpl. lia.
Qed.

Lemma shr_1_m mrs : 0 <= shr_m mrs → shr_m (shr_1 mrs) = shr_m mrs / 2.
Proof.
  destruct mrs as [m r s]. simpl. intros Hm.
  destruct m as [|[p|p|]|p]; cbn [shr_m]; try lia.
  - done.
  - apply Z.div_unique with 1; lia.
  - apply Z.div_unique with 0; lia.
  - done.
Qed.

Lemma iter_shr_1_m k : ∀ mrs, 0 <= shr_m mrs →
  shr_m (SpecFloat.iter_pos shr_1 k mrs) = shr_m mrs / 2 ^ Zpos k.
Proof.
  induction k as [k IH|k IH|]; intros mrs Hm; simpl SpecFloat.iter_pos.
  - assert (H1 : 0 <= shr_m (shr_1 mrs)) by (rewrite shr_1_m by done; apply Z.div_pos; lia).
    assert (H2 : 0 <= shr_m (SpecFloat.iter_pos shr_1 k (shr_1 mrs)))
      by (rewrite IH by done; apply Z.div_pos; lia).
    rewrite IH, IH, shr_1_m by done.
    rewrite !Z.div_div by lia. f_equal.
    rewrite Pos2Z.inj_xI. rewrite <- Z.pow_add_r, <- (Z.pow_1_r 2) at 1 by lia.
    rewrite <- Z.pow_add_r by lia. f_equal. lia.
  - assert (H2 : 0 <= shr_m (SpecFloat.iter_pos shr_1 k mrs))
      by (rewrite IH by done; apply Z.div_pos; lia).
    rewrite IH, IH by done. rewrite Z.div_div by lia. f_equal.
    rewrite Pos2Z.inj_xO, <- Z.pow_add_r by lia. f_equal. lia.
  - rewrite shr_1_m by done. done.
Qed.

Lemma shr_fexp_pos m e l :
  emin 53 1024 <= e →
  ∃ m' e', shr_m (fst (shr_fexp 53 1024 (Zpos m) e l)) = Zpos m' ∧
           snd (shr_fexp 53 1024 (Zpos m) e l) = e' ∧ emin 53 1024 <= e'.
Proof.
  intros He. unfold shr_fexp, shr.
  assert (Hrec : shr_m (shr_record_of_loc (Zpos m) l) = Zpos m) by (by destruct l as [|[]]).
  simpl Zdigits2.
  destruct (fexp 53 1024 (Zpos (digits2_pos m) + e) - e) as [|k|k] eqn:Hn; simpl fst; simpl snd.
  - eauto.
  - rewrite iter_shr_1_m by (rewrite Hrec; lia). rewrite Hrec.
    assert (Hk : Zpos k <= Zpos (digits2_pos m) - 1).
    { unfold fexp, emin in *. lia. }
    pose proof (digits2_pos_le m) as Hd.
    assert (Hpow : 2 ^ Zpos k <= 2 ^ (Zpos (digits2_pos m) - 1))
      by (apply Z.pow_le_mono_r; lia).
    assert (Hq : 1 <= Zpos m / 2 ^ Zpos k).
    { apply Z.div_le_lower_bound; lia. }
    destruct (Zpos m / 2 ^ Zpos k) as [|q|q] eqn:Eq; try lia.
    exists q, (e + Zpos k). repeat split; lia.
  - eauto.
Qed.

Lemma binary_round_aux_pos s m e l :
  emin 53 1024 <= e →
  (∃ m' e', binary_round_aux 53 1024 s (Zpos m) e l = S754_finite s m' e') ∨
  binary_round_aux 53 1024 s (Zpos m) e l = S754_infinity s.
Proof.
  intros He. unfold binary_round_aux.
  destruct (shr_fexp_pos m e l He) as (m1 & e1 & Hm1 & He1 & Hle1).
  destruct (shr_fexp 53 1024 (Zpos m) e l) as [mrs1 e1']. simpl in Hm1, He1. subst e1'.
  assert (Hr : ∃ m2, round_nearest_even (shr_m mrs1) (loc_of_shr_record mrs1) = Zpos m2).
  { rewrite Hm1. unfold round_nearest_even.
    destruct (loc_of_shr_record mrs1) as [|[]]; try destruct (Z.even (Zpos m1));
      first [by eexists | by exists (m1 + 1)%positive]. }
  destruct Hr as (m2 & ->).
  destruct (shr_fexp_pos m2 e1 loc_Exact Hle1) as (m3 & e3 & Hm3 & He3 & Hle3).
  destruct (shr_fexp 53 1024 (Zpos m2) e1 loc_Exact) as [mrs3 e3']. simpl in Hm3, He3.
  rewrite Hm3. destruct (e3' <=? 1024 - 53); eauto.
Qed.

Lemma binary_round_pos s m :
  (∃ m' e', binary_round 53 1024 s m 0 = S754_finite s m' e') ∨
  binary_round 53 1024 s m 0 = S754_infinity s.
Proof.
  unfold binary_round, shl_align.
  destruct (fexp 53 1024 (Zpos (digits2_pos m) + 0) - 0) eqn:Hf.
  - apply binary_round_aux_pos. unfold emin. lia.
  - apply binary_round_aux_pos. unfold emin. lia.
  - apply binary_round_aux_pos. unfold fexp, emin in *. lia.
Qed.

Lemma f64_of_int_sign z :
  z ≠ 0 →
  (∃ m e, f64_of_int z = S754_finite (z <? 0) m e) ∨ f64_of_int z = S754_infinity (z <? 0).
Proof.
  intros Hz. unfold f64_of_int, binary_normalize. destruct z as [|p|p]; [done|..].
  - apply binary_round_pos.
  - apply binary_round_pos.
Qed.

Lemma is_zero_inv y :
  is_zero y = true → y = Int 0 ∨ ∃ s, y = Float (S754_zero s).
Proof.
  unfold is_zero. destruct y as [z|f|t]; simpl; [| |done].
  - intros ->%Z.eqb_eq. by left.
  - destruct f as [s|s| |s m e]; [right; by eexists|..];
      intros H; try destruct s; by vm_compute in H.
Qed.

(** Division by a numeric zero: never an exception for numbers, and never
    a finite value. *)
Lemma cell_truediv_zero x y c :
  cell_truediv x y = Ok c → is_zero y = true →
  (c = NaN ∨ is_inf c = true) ∧
  (∀ z, x = Int z → z ≠ 0 → c = Inf (xorb (z <? 0) (zero_sign y))) ∧
  (x = Int 0 → c = NaN).
Proof.
  unfold cell_truediv. intros H Hz.
  apply res_bind_Ok in H as (a & Ha & H). apply res_bind_Ok in H as (b & Hb & H).
  injection H as <-.
  assert (Hb' : b = S754_zero (zero_sign y)).
  { apply is_zero_inv in Hz as [->|[s ->]]; simpl in *; by injection Hb as <-. }
  subst b. split; [|split].
  - destruct a; simpl; auto.
  - intros z -> Hnz. simpl in Ha. injection Ha as <-.
    by destruct (f64_of_int_sign z Hnz) as [(m & e & ->)| ->].
  - intros ->. simpl in Ha. by injection Ha as <-.
Qed.

(** The columns a fetch adds before the percentages leave the raw ones
    alone. *)
Lemma flagged_getitem name player_id dd td raw :
  name ∉ ["PLAYER_ID"; "DOUBLE_DOUBLE"; "TRIPLE_DOUBLE"] →
  df_getitem name
    (df_setitem "TRIPLE_DOUBLE" td
       (df_setitem "DOUBLE_DOUBLE" dd (df_setitem_scalar "PLAYER_ID" (Int player_id) raw)))
  = df_getitem name raw.
Proof.
  intros Hn. unfold df_setitem_scalar.
  rewrite !df_getitem_setitem_ne; [done|..]; intros ->; apply Hn; repeat constructor.
Qed.

Lemma flagged_in_columns name player_id dd td raw :
  name ∉ ["PLAYER_ID"; "DOUBLE_DOUBLE"; "TRIPLE_DOUBLE"] →
  in_columns name
    (df_setitem "TRIPLE_DOUBLE" td
       (df_setitem "DOUBLE_DOUBLE" dd (df_setitem_scalar "PLAYER_ID" (Int player_id) raw)))
  = in_columns name raw.
Proof.
  intros Hn. unfold df_setitem_scalar. rewrite !in_columns_setitem.
  rewrite !bool_decide_eq_false_2; [by rewrite !orb_false_r|..];
    intros ->; apply Hn; repeat constructor.
Qed.

Ltac fresh_name := apply (bool_decide_unpack _); vm_compute; exact I.

(** ** Running a fetch forwards *)

Lemma mbind_get_self {B} (k : NBADataScraper → M State B) s :
  (get_self ≫= k) s = k (self s) s.
Proof. reflexivity. Qed.

Lemma mbind_logger {S} `{HasWorld S} {B} l msg (k : unit → M S B) (s : S) :
  levelno INFO ≤ levelno l →
  (logger_log l msg ≫= k) s = k tt (set_world (emit (LogRecord l msg) (get_world s)) s).
Proof. intros Hl. by rewrite (mbind_run _ _ _ _ _ (logger_log_run l msg s Hl)). Qed.

Lemma mbind_ask {S} `{HasWorld S} {A B} c (r : res A) (k : A → M S B) (s : S) :
  (ask c r ≫= k) s =
  match r with
  | Ok a => k a (set_world (note_call c (get_world s)) s)
  | Raise e => (Raise e, set_world (note_call c (get_world s)) s)
  end.
Proof. by destruct r. Qed.

Lemma mbind_lift_res {S A B} (r : res A) (k : A → M S B) (s : S) :
  (lift_res r ≫= k) s =
  match r with
  | Ok a => k a s
  | Raise e => (Raise e, s)
  end.
Proof. by destruct r. Qed.

Lemma mbind_mret {S A B} (a : A) (k : A → M S B) (s : S) : (mret a ≫= k) s = k a s.
Proof. reflexivity. Qed.

Lemma mbind_assoc {S A B C} (m : M S A) (k1 : A → M S B) (k2 : B → M S C) (s : S) :
  ((m ≫= k1) ≫= k2) s = (m ≫= λ a, k1 a ≫= k2) s.
Proof. unfold mbind, M_bind. by destruct (m s) as [[a|e] s1]. Qed.

(** Rewrites the statements at the head of a method body by their effect;
    the pass through the governor leaves a state [s'] of which only the log
    is remembered. *)
Ltac run_governor :=
  match goal with
  | |- context [mbind ?k _rate_limit_request ?s] =>
      let s' := fresh "s" in
      let Hrl := fresh "Hrl" in
      let Hrec := fresh "Hrec" in
      destruct (rate_limit_run s) as (s' & Hrl & _ & _ & _ & _ & Hrec & _ & _ & _ & _);
      rewrite (mbind_run _rate_limit_request k s tt s' Hrl);
      simpl in Hrec; clear Hrl
  end.

Ltac run :=
  unfold logger_info, logger_warning, logger_error;
  repeat first
    [ rewrite mbind_assoc
    | rewrite mbind_get_self
    | rewrite mbind_logger by (simpl; lia)
    | rewrite mbind_ask
    | rewrite mbind_lift_res
    | rewrite mbind_mret
    | run_governor ];
  cbv beta.

Lemma get_box_score_failure env game_id save s e :
  boxscoretraditionalv2_BoxScoreTraditionalV2 env game_id = Raise e →
  isinstance_Exception e = true →
  ∃ s', get_box_score env game_id save s = (Ok (mkBoxScore pd_DataFrame pd_DataFrame), s') ∧
        last (records (world s')) =
          Some (LogRecord ERROR [Lit "Error fetching box score for game ID "; FStr game_id;
                                 Lit ": "; FExc e]).
Proof.
  intros Hapi He. unfold get_box_score, try_except_Exception.
  run. rewrite Hapi, He. run.
  eexists. split; [reflexivity|]. simpl. apply last_snoc.
Qed.

Lemma get_box_score_empty env game_id save s ps ts :
  boxscoretraditionalv2_BoxScoreTraditionalV2 env game_id = Ok (ps, ts) →
  df_empty ps || df_empty ts = true →
  ∃ s', get_box_score env game_id save s = (Ok (mkBoxScore pd_DataFrame pd_DataFrame), s').
Proof.
  intros Hapi He. unfold get_box_score, try_except_Exception.
  run. rewrite Hapi. cbv beta iota zeta delta [fst snd]. rewrite He. run.
  eexists. reflexivity.
Qed.

Lemma get_box_score_full env game_id s ps ts :
  boxscoretraditionalv2_BoxScoreTraditionalV2 env game_id = Ok (ps, ts) →
  df_empty ps = false → df_empty ts = false →
  ∃ s', get_box_score env game_id false s = (Ok (mkBoxScore ps ts), s').
Proof.
  intros Hapi Hp Ht. unfold get_box_score, try_except_Exception.
  run. rewrite Hapi. cbv beta iota zeta delta [fst snd]. rewrite Hp, Ht. simpl orb. cbv iota. run.
  eexists. reflexivity.
Qed.

Lemma get_box_score_saved env game_id s ps ts :
  boxscoretraditionalv2_BoxScoreTraditionalV2 env game_id = Ok (ps, ts) →
  df_empty ps = false → df_empty ts = false →
  (∀ p df, to_csv_error env p df = None) →
  ∃ s', get_box_score env game_id true s = (Ok (mkBoxScore ps ts), s').
Proof.
  intros Hapi Hp Ht Hcsv. unfold get_box_score, try_except_Exception.
  run. rewrite Hapi. cbv beta iota zeta delta [fst snd]. rewrite Hp, Ht. simpl orb. cbv iota.
  unfold to_csv. rewrite !Hcsv. unfold modify_world, mbind, M_bind. simpl.
  eexists. reflexivity.
Qed.

(** A box score that is returned was taken whole or dropped whole. *)
Lemma get_box_score_Ok env game_id save s bs s' :
  get_box_score env game_id save s = (Ok bs, s') →
  bs = mkBoxScore pd_DataFrame pd_DataFrame ∨
  (boxscoretraditionalv2_BoxScoreTraditionalV2 env game_id
     = Ok (player_stats bs, team_stats bs) ∧
   df_empty (player_stats bs) = false ∧ df_empty (team_stats bs) = false).
Proof.
  intros Hrun. unfold get_box_score in Hrun.
  apply try_except_Exception_Ok in Hrun as [Hrun | (e & s1 & _ & _ & Hh)]; last first.
  { apply mbind_Ok in Hh as (? & ? & _ & Hh). injection Hh as <- _. by left. }
  apply mbind_Ok in Hrun as (o & s1 & Ho & Hrun). injection Ho as <- <-.
  apply mbind_Ok in Hrun as ([] & s1 & _ & Hrun).
  apply mbind_Ok in Hrun as ([] & s2 & _ & Hrun).
  apply mbind_Ok in Hrun as ([ps ts] & s3 & Hask & Hrun). apply ask_Ok in Hask as [Hask _].
  simpl in Hrun.
  destruct (df_empty ps) eqn:Hp; simpl in Hrun.
  { apply mbind_Ok in Hrun as (? & ? & _ & Hrun). injection Hrun as <- _. by left. }
  destruct (df_empty ts) eqn:Ht.
  { apply mbind_Ok in Hrun as (? & ? & _ & Hrun). injection Hrun as <- _. by left. }
  apply mbind_Ok in Hrun as ([] & s4 & _ & Hrun).
  apply mbind_Ok in Hrun as ([] & s5 & _ & Hrun).
  injection Hrun as <- _. right. done.
Qed.

Lemma try_except_ask {S} `{HasWorld S} {A B} c (r : res A) (f : A → B) (d : B) (s : S) :
  try_except (x ← ask c r; mret (f x)) (mret d) s =
  (Ok match r with Ok a => f a | Raise _ => d end,
   set_world (note_call c (get_world s)) s).
Proof. by destruct r. Qed.

Lemma get_player_game_log_failure env player_id save s e :
  playergamelog_PlayerGameLog env player_id (season (self s)) (season_type (self s))
    = Raise e →
  isinstance_Exception e = true →
  ∃ s', get_player_game_log env player_id save s = (Ok pd_DataFrame, s') ∧
        last (records (world s')) =
          Some (LogRecord ERROR [Lit "Error fetching game log for player ID ";
                                 FInt player_id; Lit ": "; FExc e]).
Proof.
  intros Hapi He. unfold get_player_game_log, try_except_Exception.
  run. rewrite Hapi, He. run.
  eexists. split; [reflexivity|]. simpl. apply last_snoc.
Qed.

Lemma get_team_game_log_failure env team_id save s e :
  teamgamelog_TeamGameLog env team_id (season (self s)) (season_type (self s)) = Raise e →
  isinstance_Exception e = true →
  ∃ s', get_team_game_log env team_id save s = (Ok pd_DataFrame, s') ∧
        last (records (world s')) =
          Some (LogRecord ERROR [Lit "Error fetching game log for team ID ";
                                 FInt team_id; Lit ": "; FExc e]).
Proof.
  intros Hapi He. unfold get_team_game_log, try_except_Exception.
  run. rewrite Hapi, He. run.
  eexists. split; [reflexivity|]. simpl. apply last_snoc.
Qed.

(** A response without any frame. *)
Lemma get_player_game_log_no_frame env player_id save s :
  playergamelog_PlayerGameLog env player_id (season (self s)) (season_type (self s))
    = Ok [] →
  ∃ s', get_player_game_log env player_id save s = (Ok pd_DataFrame, s') ∧
        last (records (world s')) =
          Some (LogRecord ERROR [Lit "Error fetching game log for player ID ";
                                 FInt player_id; Lit ": ";
                                 FExc (IndexError "list index out of range")]).
Proof.
  intros Hapi. unfold get_player_game_log, try_except_Exception.
  run. rewrite Hapi. run.
  change (list_getitem (@nil (list (string * list cell))) 0)
    with (@Raise (list (string * list cell)) (IndexError "list index out of range")).
  cbv iota. run.
  eexists. split; [reflexivity|]. simpl. apply last_snoc.
Qed.

(** Exceptions of the model's own: all are caught by [except Exception]. *)
Lemma raises_Exception_bind {A B} (r : res A) (k : A → res B) :
  raises_Exception r → (∀ a, raises_Exception (k a)) → raises_Exception (res_bind r k).
Proof. destruct r; simpl; auto. Qed.

Lemma raises_Exception_mapM {A B} (f : A → res B) l :
  (∀ x, raises_Exception (f x)) → raises_Exception (res_mapM f l).
Proof.
  intros Hf. induction l as [|x l IH]; simpl; [done|].
  apply raises_Exception_bind; [apply Hf|]. intros y.
  apply raises_Exception_bind; [exact IH|]. done.
Qed.

Lemma raises_Exception_getitem name df : raises_Exception (df_getitem name df).
Proof. induction df as [|[n c] df IH]; simpl; [done|]. by destruct (String.eqb n name). Qed.

Lemma raises_Exception_as_float c : raises_Exception (as_float c).
Proof. by destruct c. Qed.

Lemma raises_Exception_flag_column df k : raises_Exception (flag_column df k).
Proof.
  assert (H10 : ∀ name, raises_Exception (at_least_10 name df)).
  { intros name. unfold at_least_10.
    apply raises_Exception_bind; [apply raises_Exception_getitem|]. intros s.
    apply raises_Exception_bind; [|done].
    apply raises_Exception_mapM. intros c. by destruct c. }
  unfold flag_column, categories_at_least_10.
  apply raises_Exception_bind; [|done].
  do 5 (apply raises_Exception_bind; [apply H10|]; intros ?). done.
Qed.

Lemma raises_Exception_shooting_percentage pct made att df :
  raises_Exception (shooting_percentage pct made att df).
Proof.
  unfold shooting_percentage. case_match; [|done].
  do 2 (apply raises_Exception_bind; [apply raises_Exception_getitem|]; intros ?).
  apply raises_Exception_bind; [|done].
  apply raises_Exception_mapM. intros [x y]. unfold cell_truediv.
  do 2 (apply raises_Exception_bind; [apply raises_Exception_as_float|]; intros ?). done.
Qed.

Lemma flag_column_missing df k name :
  name ∈ ["PTS"; "REB"; "AST"; "STL"; "BLK"] → in_columns name df = false →
  ∃ e, flag_column df k = Raise e ∧ isinstance_Exception e = true.
Proof.
  intros Hname Hin.
  assert (H10 : at_least_10 name df = Raise (KeyError name)).
  { unfold at_least_10. by rewrite df_getitem_missing. }
  pose proof (raises_Exception_flag_column df k) as Hexc.
  destruct (flag_column df k) as [col|e] eqn:Hflag; [|eauto].
  exfalso. unfold flag_column, categories_at_least_10 in Hflag.
  apply res_bind_Ok in Hflag as (n & Hn & _).
  apply res_bind_Ok in Hn as (? & H1 & Hn). apply res_bind_Ok in Hn as (? & H2 & Hn).
  apply res_bind_Ok in Hn as (? & H3 & Hn). apply res_bind_Ok in Hn as (? & H4 & Hn).
  apply res_bind_Ok in Hn as (? & H5 & Hn).
  rewrite !elem_of_cons in Hname.
  destruct Hname as [->|[->|[->|[->|[->|H%elem_of_nil]]]]]; congruence.
Qed.

(** A frame that lacks one of the five category columns. *)
Lemma get_player_game_log_missing_column env player_id save s raw rest name :
  playergamelog_PlayerGameLog env player_id (season (self s)) (season_type (self s))
    = Ok (raw :: rest) →
  df_empty raw = false →
  name ∈ ["PTS"; "REB"; "AST"; "STL"; "BLK"] → in_columns name raw = false →
  ∃ e s', get_player_game_log env player_id save s = (Ok pd_DataFrame, s') ∧
          last (records (world s')) =
            Some (LogRecord ERROR [Lit "Error fetching game log for player ID ";
                                   FInt player_id; Lit ": "; FExc e]).
Proof.
  intros Hapi Hraw Hname Hin.
  destruct (flag_column_missing (df_setitem_scalar "PLAYER_ID" (Int player_id) raw) 2 name)
    as (e & Hflag & He); [done| |].
  { unfold df_setitem_scalar. rewrite in_columns_setitem, Hin.
    apply bool_decide_eq_false_2. intros ->.
    rewrite !elem_of_cons in Hname. destruct Hname as [|[|[|[|[|H%elem_of_nil]]]]]; done. }
  exists e. unfold get_player_game_log, try_except_Exception.
  run. rewrite Hapi. run.
  change (list_getitem (raw :: rest) 0) with (Ok raw). cbv iota. rewrite Hraw.
  rewrite (mbind_run _ _ _ _ _ (try_except_ask _ _ _ _ _)). cbv beta.
  run. rewrite Hflag, He. run.
  eexists. split; [reflexivity|]. simpl. apply last_snoc.
Qed.

(** ** Nothing gets past [except Exception] *)

Section Catchable.
Context {S : Type} `{HasWorld S}.

Lemma catchable_bind {A B} (m : M S A) (k : A → M S B) :
  catchable m → (∀ a, catchable (k a)) → catchable (m ≫= k).
Proof.
  intros Hm Hk s. unfold mbind, M_bind. specialize (Hm s).
  destruct (m s) as [[a|e] s1]; simpl in *; [apply Hk | exact Hm].
Qed.

Lemma catchable_mret {A} (a : A) : catchable (mret a : M S A).
Proof. by intros s. Qed.

Lemma catchable_lift_res {A} (r : res A) :
  raises_Exception r → catchable (lift_res r : M S A).
Proof. by intros Hr s. Qed.

Lemma catchable_ask {A} c (r : res A) : raises_Exception r → catchable (ask c r : M S A).
Proof. intros Hr s. by rewrite ask_run. Qed.

Lemma catchable_logger l msg : catchable (logger_log l msg : M S unit).
Proof. intros s. unfold logger_log. by case_bool_decide. Qed.

Lemma catchable_to_csv env df p : OnlyExceptions env → catchable (to_csv env df p : M S unit).
Proof.
  intros Henv s. unfold to_csv. destruct (to_csv_error env p df) as [e|] eqn:E; [|done].
  simpl. by apply (oe_to_csv env Henv p df).
Qed.

Lemma catchable_try_except {A} (body handler : M S A) :
  returns handler → catchable (try_except body handler).
Proof.
  intros Hh s. unfold try_except. destruct (body s) as [[a|e] s1]; [done|].
  by destruct (Hh s1) as (a & s2 & ->).
Qed.

Lemma returns_try_except_Exception {A} (body : M S A) handler :
  catchable body → (∀ e, returns (handler e)) → returns (try_except_Exception body handler).
Proof.
  intros Hb Hh s. unfold try_except_Exception. specialize (Hb s).
  destruct (body s) as [[a|e] s1]; simpl in *; [eauto|].
  rewrite Hb. apply Hh.
Qed.

Lemma returns_logger_then {A} l msg (a : A) : returns (logger_log l msg;; mret a : M S A).
Proof.
  intros s. unfold logger_log, mbind, M_bind. case_bool_decide; simpl; eauto.
Qed.
End Catchable.

Lemma catchable_get_self : catchable get_self.
Proof. by intros s. Qed.

Lemma catchable_rate_limit : catchable _rate_limit_request.
Proof. intros s. by destruct (rate_limit_run s) as (s' & -> & _). Qed.

(** Splits a method body into its statements; what is left is that each
    collaborator and each expression raises nothing but exceptions. *)
Ltac catch_step :=
  lazymatch goal with
  | |- catchable (mbind _ _) => apply catchable_bind; [|intros ?]
  | |- catchable (mret _) => apply catchable_mret
  | |- catchable get_self => apply catchable_get_self
  | |- catchable _rate_limit_request => apply catchable_rate_limit
  | |- catchable (logger_log _ _) => apply catchable_logger
  | |- catchable (to_csv _ _ _) => apply catchable_to_csv; assumption
  | |- catchable (try_except _ _) =>
      apply catchable_try_except; intros ?; eexists _, _; reflexivity
  | |- catchable (lift_res _) => apply catchable_lift_res
  | |- catchable (ask _ _) => apply catchable_ask
  | |- catchable (if ?b then _ else _) => destruct b
  end.

Ltac catch :=
  unfold logger_info, logger_warning, logger_error; repeat catch_step.

Lemma get_player_game_log_returns env player_id save :
  OnlyExceptions env → returns (get_player_game_log env player_id save).
Proof.
  intros Henv. unfold get_player_game_log.
  apply returns_try_except_Exception; [|intros e; apply returns_logger_then].
  catch;
    first [ apply (oe_player_log env Henv)
          | apply raises_Exception_flag_column
          | apply raises_Exception_shooting_percentage
          | idtac ].
  unfold list_getitem. by case_match.
Qed.

Lemma get_team_game_log_returns env team_id save :
  OnlyExceptions env → returns (get_team_game_log env team_id save).
Proof.
  intros Henv. unfold get_team_game_log.
  apply returns_try_except_Exception; [|intros e; apply returns_logger_then].
  catch; first [ apply (oe_team_log env Henv) | idtac ].
  unfold list_getitem. by case_match.
Qed.

Lemma get_box_score_returns env game_id save :
  OnlyExceptions env → returns (get_box_score env game_id save).
Proof.
  intros Henv. unfold get_box_score.
  apply returns_try_except_Exception; [|intros e; apply returns_logger_then].
  catch. apply (oe_box_score env Henv).
Qed.

(** ** Team game logs *)

Lemma df_setitem_fresh name s df :
  in_columns name df = false → df_setitem name s df = df ++ [(name, s)].
Proof.
  unfold in_columns, df_columns. intros H%bool_decide_eq_false.
  induction df as [|[n c] df IH]; simpl in *; [done|].
  destruct (String.eqb_spec n name) as [->|Hn].
  - exfalso. apply H. left.
  - f_equal. apply IH. intros Hin. apply H. by right.
Qed.

Lemma get_team_game_log_Ok env team_id save s df s' :
  get_team_game_log env team_id save s = (Ok df, s') →
  df = pd_DataFrame ∨
  ∃ raw rest,
    teamgamelog_TeamGameLog env team_id (season (self s)) (season_type (self s))
      = Ok (raw :: rest) ∧
    df_empty raw = false ∧
    df = df_setitem_scalar "TEAM_ID" (Int team_id) raw.
Proof.
  intros Hrun. unfold get_team_game_log in Hrun.
  apply try_except_Exception_Ok in Hrun as [Hrun | (e & s1 & _ & _ & Hh)]; last first.
  { apply mbind_Ok in Hh as (? & ? & _ & Hh). injection Hh as <- _. by left. }
  apply mbind_Ok in Hrun as (o & s1 & Ho & Hrun). injection Ho as <- <-.
  apply mbind_Ok in Hrun as ([] & s1 & _ & Hrun).
  apply mbind_Ok in Hrun as ([] & s2 & _ & Hrun).
  apply mbind_Ok in Hrun as (frames & s3 & Hask & Hrun). apply ask_Ok in Hask as [Hask _].
  apply mbind_Ok in Hrun as (raw & s4 & Hget & Hrun). apply lift_res_Ok in Hget as [Hget ->].
  unfold list_getitem in Hget. destruct frames as [|raw' rest]; [discriminate|].
  simpl in Hget. injection Hget as ->.
  destruct (df_empty raw) eqn:Hraw.
  { apply mbind_Ok in Hrun as (? & ? & _ & Hrun). injection Hrun as <- _. by left. }
  apply mbind_Ok in Hrun as ([] & s5 & _ & Hrun).
  apply mbind_Ok in Hrun as ([] & s6 & _ & Hrun).
  injection Hrun as <- _. right. eauto.
Qed.

(** ** Box scores *)

(** C6. A box score that is returned has both collections populated or
    both empty; when the source gives one table empty and the other not,
    both come back empty; when it gives both populated and persistence does
    not fail, both come back as given. *)
Theorem box_score_all_or_nothing env game_id save s :
  (∀ bs s', get_box_score env game_id save s = (Ok bs, s') →
     df_empty (player_stats bs) = true ∧ df_empty (team_stats bs) = true ∨
     df_empty (player_stats bs) = false ∧ df_empty (team_stats bs) = false) ∧
  (∀ ps ts, boxscoretraditionalv2_BoxScoreTraditionalV2 env game_id = Ok (ps, ts) →
     df_empty ps = negb (df_empty ts) →
     ∃ s', get_box_score env game_id save s
           = (Ok (mkBoxScore pd_DataFrame pd_DataFrame), s')) ∧
  (∀ ps ts, boxscoretraditionalv2_BoxScoreTraditionalV2 env game_id = Ok (ps, ts) →
     df_empty ps = false → df_empty ts = false →
     save = false ∨ (∀ p df, to_csv_error env p df = None) →
     ∃ s', get_box_score env game_id save s = (Ok (mkBoxScore ps ts), s')).
Proof.
  split; [|split].
  - intros bs s' Hrun.
    destruct (get_box_score_Ok _ _ _ _ _ _ Hrun) as [->|(_ & Hp & Ht)]; auto.
  - intros ps ts Hapi He. apply (get_box_score_empty _ _ _ _ ps ts Hapi).
    rewrite He. by destruct (df_empty ts).
  - intros ps ts Hapi Hp Ht [->|Hcsv].
    + by apply get_box_score_full.
    + destruct save; [by apply get_box_score_saved | by apply get_box_score_full].
Qed.

(** Players without teams are dropped; players with teams are kept. *)
Lemma box_score_all_or_nothing_witness :
  (∃ s', get_box_score (serving_box_score (Ok (players_close, []))) "0022400001" true boot
         = (Ok (mkBoxScore pd_DataFrame pd_DataFrame), s')) ∧
  (∃ s', get_box_score (serving_box_score (Ok (players_close, two_teams))) "0022400001"
           true boot
         = (Ok (mkBoxScore players_close two_teams), s')).
Proof.
  split.
  - exact (proj1 (proj2 (box_score_all_or_nothing
                           (serving_box_score (Ok (players_close, []))) "0022400001" true boot))
             players_close [] eq_refl eq_refl).
  - exact (proj2 (proj2 (box_score_all_or_nothing
                           (serving_box_score (Ok (players_close, two_teams)))
                           "0022400001" true boot))
             players_close two_teams eq_refl eq_refl eq_refl
             (or_intror (λ _ _, eq_refl))).
Defined.

(** ** Failures of the statistics source *)

(** C3. Whatever the statistics source raises that derives from
    [Exception] (a network error, a malformed response, an unknown
    identifier) is caught by the fetch, which returns the empty frame (the
    empty box score) and logs an error carrying the exception; so is a
    response without a frame or without an expected column.  No fetch lets
    an exception out as long as the collaborators raise nothing but
    exceptions. *)
Theorem fetch_failures_are_absorbed env s :
  (∀ player_id save e,
     playergamelog_PlayerGameLog env player_id (season (self s)) (season_type (self s))
       = Raise e →
     isinstance_Exception e = true →
     ∃ s', get_player_game_log env player_id save s = (Ok pd_DataFrame, s') ∧
           last (records (world s')) =
             Some (LogRecord ERROR [Lit "Error fetching game log for player ID ";
                                    FInt player_id; Lit ": "; FExc e])) ∧
  (∀ team_id save e,
     teamgamelog_TeamGameLog env team_id (season (self s)) (season_type (self s)) = Raise e →
     isinstance_Exception e = true →
     ∃ s', get_team_game_log env team_id save s = (Ok pd_DataFrame, s') ∧
           last (records (world s')) =
             Some (LogRecord ERROR [Lit "Error fetching game log for team ID ";
                                    FInt team_id; Lit ": "; FExc e])) ∧
  (∀ game_id save e,
     boxscoretraditionalv2_BoxScoreTraditionalV2 env game_id = Raise e →
     isinstance_Exception e = true →
     ∃ s', get_box_score env game_id save s
           = (Ok (mkBoxScore pd_DataFrame pd_DataFrame), s') ∧
           last (records (world s')) =
             Some (LogRecord ERROR [Lit "Error fetching box score for game ID ";
                                    FStr game_id; Lit ": "; FExc e])) ∧
  (∀ player_id save,
     playergamelog_PlayerGameLog env player_id (season (self s)) (season_type (self s))
       = Ok [] →
     ∃ s', get_player_game_log env player_id save s = (Ok pd_DataFrame, s') ∧
           last (records (world s')) =
             Some (LogRecord ERROR [Lit "Error fetching game log for player ID ";
                                    FInt player_id; Lit ": ";
                                    FExc (IndexError "list index out of range")])) ∧
  (∀ player_id save raw rest name,
     playergamelog_PlayerGameLog env player_id (season (self s)) (season_type (self s))
       = Ok (raw :: rest) →
     df_empty raw = false →
     name ∈ ["PTS"; "REB"; "AST"; "STL"; "BLK"] → in_columns name raw = false →
     ∃ e s', get_player_game_log env player_id save s = (Ok pd_DataFrame, s') ∧
             last (records (world s')) =
               Some (LogRecord ERROR [Lit "Error fetching game log for player ID ";
                                      FInt player_id; Lit ": "; FExc e])) ∧
  (OnlyExceptions env →
     (∀ player_id save, ∃ df s', get_player_game_log env player_id save s = (Ok df, s')) ∧
     (∀ team_id save, ∃ df s', get_team_game_log env team_id save s = (Ok df, s')) ∧
     (∀ game_id save, ∃ bs s', get_box_score env game_id save s = (Ok bs, s'))).
Proof.
  repeat split.
  - intros. by apply get_player_game_log_failure.
  - intros. by apply get_team_game_log_failure.
  - intros. by apply get_box_score_failure.
  - intros. by apply get_player_game_log_no_frame.
  - intros. by apply (get_player_game_log_missing_column _ _ _ _ raw rest name).
  - intros. by apply get_player_game_log_returns.
  - intros. by apply get_team_game_log_returns.
  - intros. by apply get_box_score_returns.
Qed.

(** A refused connection, and a frame without the steals column. *)
Lemma fetch_failures_are_absorbed_witness :
  (∃ s', get_player_game_log (serving_player_log (Raise ConnectionError)) 7 true boot
         = (Ok pd_DataFrame, s') ∧
         last (records (world s')) =
           Some (LogRecord ERROR [Lit "Error fetching game log for player ID ";
                                  FInt 7; Lit ": "; FExc ConnectionError])) ∧
  (∃ e s', get_player_game_log (serving_player_log (Ok [no_steals])) 7 true boot
           = (Ok pd_DataFrame, s') ∧
           last (records (world s')) =
             Some (LogRecord ERROR [Lit "Error fetching game log for player ID ";
                                    FInt 7; Lit ": "; FExc e])).
Proof.
  split.
  - exact (proj1 (fetch_failures_are_absorbed (serving_player_log (Raise ConnectionError)) boot)
             7 true ConnectionError eq_refl eq_refl).
  - refine (proj1 (proj2 (proj2 (proj2 (proj2
             (fetch_failures_are_absorbed (serving_player_log (Ok [no_steals])) boot)))))
             7 true no_steals [] "STL" eq_refl eq_refl _ eq_refl).
    apply (bool_decide_unpack _). vm_compute. exact I.
Defined.

(** ** Resolving a player *)

Lemma split_go_whitespace_only s skip :
  whitespace_go s skip = true → split_go s skip [] = [].
Proof.
  revert skip. induction s as [|c s IH]; intros skip; [done|].
  cbn [whitespace_go split_go]. destruct skip as [|skip]; [|apply IH].
  destruct (space_width (String c s)); [done|apply IH].
Qed.

Lemma split_whitespace_only s : whitespace_only s = true → split s = [].
Proof. apply split_go_whitespace_only. Qed.

Lemma raises_Exception_list_getitem {A} (l : list A) i : raises_Exception (list_getitem l i).
Proof. unfold list_getitem. by case_match. Qed.

Lemma raises_Exception_list_getitem_last {A} (l : list A) :
  raises_Exception (list_getitem_last l).
Proof. unfold list_getitem_last. by case_match. Qed.

Lemma get_player_id_by_name_returns env player_name :
  OnlyExceptions env → returns (get_player_id_by_name env player_name).
Proof.
  intros Henv. unfold get_player_id_by_name.
  apply returns_try_except_Exception; [|intros e; apply returns_logger_then].
  apply catchable_bind; [apply catchable_ask, (oe_full_name env Henv)|].
  intros matches. apply catchable_bind.
  - destruct matches; [|catch].
    apply catchable_bind; [apply catchable_lift_res, raises_Exception_list_getitem|].
    intros first. apply catchable_bind; [apply catchable_ask, (oe_first_name env Henv)|].
    intros matches. destruct matches; [|catch]. case_bool_decide; [|catch].
    apply catchable_bind; [apply catchable_lift_res, raises_Exception_list_getitem_last|].
    intros lst. apply catchable_ask, (oe_last_name env Henv).
  - intros [|p l]; catch.
Qed.

(** The end of a resolution that found [p], possibly among [others]. *)
Lemma select_first_run player_name p others (s : State) :
  ((if bool_decide (1 < length (p :: others))%nat
    then logger_log WARNING [Lit "Multiple players found for '"; FStr player_name;
                             Lit "': "; FStrs (map p_full_name (p :: others))];;
         logger_log WARNING [Lit "Using the first match: "; FStr (p_full_name p)]
    else mret ());;
   logger_log INFO [Lit "Found player ID "; FInt (p_id p); Lit " for '";
                    FStr player_name; Lit "'"];;
   mret (Some (p_id p))) s
  = (Ok (Some (p_id p)),
     mkState (self s)
       (mkWorld (clock (world s)) (drift (world s))
          (records (world s) ++ selection_records player_name p others)
          (dirs (world s)) (files (world s)) (calls (world s))
          (log_file (world s) ++ selection_records player_name p others))).
Proof.
  destruct s as [o w]. destruct others as [|q others]; simpl.
  - run. reflexivity.
  - run. unfold mret, M_ret, emit. simpl. by rewrite <- !app_assoc.
Qed.

(** A single token that is nobody's full name or first name: the last-name
    lookup is not tried. *)
Lemma get_player_id_by_name_single_token env player_name s first :
  players_find_players_by_full_name env player_name = Ok [] →
  split player_name = [first] →
  players_find_players_by_first_name env first = Ok [] →
  ∃ s', get_player_id_by_name env player_name s = (Ok None, s') ∧
        calls (world s') = calls (world s) ++
          [find_players_by_full_name_call player_name;
           find_players_by_first_name_call first].
Proof.
  destruct s as [o w]. intros Hfull Hsplit Hfirst.
  unfold get_player_id_by_name, try_except_Exception.
  run. rewrite Hfull. cbv beta iota. run. rewrite Hsplit.
  change (list_getitem [first] 0) with (Ok first). cbv iota.
  run. rewrite Hfirst. cbv beta iota.
  rewrite bool_decide_eq_false_2 by (simpl; lia).
  run. eexists. split; [reflexivity|]. simpl. by rewrite <- app_assoc.
Qed.

(** C7. Resolution asks for a full-name match first and returns its first
    entry; only when there is none does it ask for a first-name match on
    the first whitespace-delimited token; only when that finds none either,
    and the name has more than one token, does it ask for a last-name match
    on the last token.  Whichever step answers, the first entry of the
    answer is taken, in the order the static table gives it, and a warning
    is logged when there were several. *)
Theorem player_resolution_order env player_name s :
  (∀ p others,
     players_find_players_by_full_name env player_name = Ok (p :: others) →
     ∃ s', get_player_id_by_name env player_name s = (Ok (Some (p_id p)), s') ∧
           calls (world s') = calls (world s) ++
             [find_players_by_full_name_call player_name] ∧
           records (world s') = records (world s) ++
             selection_records player_name p others) ∧
  (∀ first rest p others,
     players_find_players_by_full_name env player_name = Ok [] →
     split player_name = first :: rest →
     players_find_players_by_first_name env first = Ok (p :: others) →
     ∃ s', get_player_id_by_name env player_name s = (Ok (Some (p_id p)), s') ∧
           calls (world s') = calls (world s) ++
             [find_players_by_full_name_call player_name;
              find_players_by_first_name_call first] ∧
           records (world s') = records (world s) ++
             selection_records player_name p others) ∧
  (∀ first second rest lst p others,
     players_find_players_by_full_name env player_name = Ok [] →
     split player_name = first :: second :: rest →
     players_find_players_by_first_name env first = Ok [] →
     last (second :: rest) = Some lst →
     players_find_players_by_last_name env lst = Ok (p :: others) →
     ∃ s', get_player_id_by_name env player_name s = (Ok (Some (p_id p)), s') ∧
           calls (world s') = calls (world s) ++
             [find_players_by_full_name_call player_name;
              find_players_by_first_name_call first;
              find_players_by_last_name_call lst] ∧
           records (world s') = records (world s) ++
             selection_records player_name p others) ∧
  (∀ first,
     players_find_players_by_full_name env player_name = Ok [] →
     split player_name = [first] →
     players_find_players_by_first_name env first = Ok [] →
     ∃ s', get_player_id_by_name env player_name s = (Ok None, s') ∧
           calls (world s') = calls (world s) ++
             [find_players_by_full_name_call player_name;
              find_players_by_first_name_call first]).
Proof.
  destruct s as [o w]. repeat split.
  - intros p others Hfull.
    unfold get_player_id_by_name, try_except_Exception.
    run. rewrite Hfull. cbv beta iota. run. cbv beta iota zeta.
    rewrite select_first_run. eexists. split; [reflexivity|]. by simpl.
  - intros first rest p others Hfull Hsplit Hfirst.
    unfold get_player_id_by_name, try_except_Exception.
    run. rewrite Hfull. cbv beta iota. run. rewrite Hsplit.
    change (list_getitem (first :: rest) 0) with (Ok first). cbv iota.
    run. rewrite Hfirst. cbv beta iota. run. cbv beta iota zeta.
    rewrite select_first_run. eexists. split; [reflexivity|]. simpl.
    by rewrite <- app_assoc.
  - intros first second rest lst p others Hfull Hsplit Hfirst Hlast Hlastname.
    unfold get_player_id_by_name, try_except_Exception.
    run. rewrite Hfull. cbv beta iota. run. rewrite Hsplit.
    change (list_getitem (first :: second :: rest) 0) with (Ok first). cbv iota.
    run. rewrite Hfirst. cbv beta iota.
    rewrite bool_decide_eq_true_2 by (simpl; lia).
    run. unfold list_getitem_last.
    change (last (first :: second :: rest)) with (last (second :: rest)).
    rewrite Hlast. cbv iota. run. rewrite Hlastname. cbv beta iota zeta.
    rewrite select_first_run. eexists. split; [reflexivity|]. simpl.
    by rewrite <- !app_assoc.
  - intros first. apply get_player_id_by_name_single_token.
Qed.

(** A name typed in full, a first name alone, a name whose last token only
    is known (two players share it), and a last name alone. *)
Lemma player_resolution_order_witness :
  let env := serving_players snapshot in
  (∃ s', get_player_id_by_name env "Luka Doncic" boot = (Ok (Some 1629029), s') ∧
         calls (world s') = [find_players_by_full_name_call "Luka Doncic"] ∧
         records (world s') =
           selection_records "Luka Doncic" (mkPlayer 1629029 "Luka Doncic" "Luka" "Doncic") []) ∧
  (∃ s', get_player_id_by_name env "Luka" boot = (Ok (Some 1629029), s') ∧
         calls (world s') = [find_players_by_full_name_call "Luka";
                             find_players_by_first_name_call "Luka"] ∧
         records (world s') =
           selection_records "Luka" (mkPlayer 1629029 "Luka Doncic" "Luka" "Doncic") []) ∧
  (∃ s', get_player_id_by_name env "Wardell Curry" boot = (Ok (Some 201939), s') ∧
         calls (world s') = [find_players_by_full_name_call "Wardell Curry";
                             find_players_by_first_name_call "Wardell";
                             find_players_by_last_name_call "Curry"] ∧
         records (world s') =
           selection_records "Wardell Curry"
             (mkPlayer 201939 "Stephen Curry" "Stephen" "Curry")
             [mkPlayer 203552 "Seth Curry" "Seth" "Curry"]) ∧
  (∃ s', get_player_id_by_name env "Curry" boot = (Ok None, s') ∧
         calls (world s') = [find_players_by_full_name_call "Curry";
                             find_players_by_first_name_call "Curry"]).
Proof.
  intros env. split; [|split; [|split]].
  - exact (proj1 (player_resolution_order env "Luka Doncic" boot)
             (mkPlayer 1629029 "Luka Doncic" "Luka" "Doncic") [] eq_refl).
  - exact (proj1 (proj2 (player_resolution_order env "Luka" boot))
             "Luka" [] (mkPlayer 1629029 "Luka Doncic" "Luka" "Doncic") []
             eq_refl eq_refl eq_refl).
  - exact (proj1 (proj2 (proj2 (player_resolution_order env "Wardell Curry" boot)))
             "Wardell" "Curry" [] "Curry"
             (mkPlayer 201939 "Stephen Curry" "Stephen" "Curry")
             [mkPlayer 203552 "Seth Curry" "Seth" "Curry"]
             eq_refl eq_refl eq_refl eq_refl eq_refl).
  - exact (proj2 (proj2 (proj2 (player_resolution_order env "Curry" boot)))
             "Curry" eq_refl eq_refl eq_refl).
Defined.



(** ** The spot check *)

Lemma lines_inv {L} (line : cell → cell → option L) df rows :
  lines line df = Some rows →
  ∃ ids pts, df_getitem "TEAM_ID" df = Ok ids ∧ df_getitem "PTS" df = Ok pts ∧
             length ids = length pts ∧
             Forall2 (λ p r, line p.1 p.2 = Some r) (zip ids pts) rows.
Proof.
  unfold lines. destruct (df_getitem "TEAM_ID" df) as [ids|]; [|done].
  destruct (df_getitem "PTS" df) as [pts|]; [|done].
  case_bool_decide as Hlen; [|done]. intros H%mapM_Some. eauto 10.
Qed.

Lemma team_line_inv id pts h :
  team_line id pts = Some h →
  id = Int (tl_team h) ∧ pts = tl_points h ∧ is_Str pts = false.
Proof. destruct id, pts; simpl; intros [= <-]; done. Qed.

Lemma player_line_inv id pts r :
  player_line id pts = Some r →
  id = Int (pl_team r) ∧ pts = pl_points r ∧ is_Str pts = false.
Proof. destruct id, pts; simpl; intros [= <-]; done. Qed.

(** The two columns of a frame that reads as typed rows. *)
Lemma lines_columns {L} (line : cell → cell → option L) (team : L → Z) (points : L → cell)
    df rows :
  (∀ id pts r, line id pts = Some r →
               id = Int (team r) ∧ pts = points r ∧ is_Str pts = false) →
  lines line df = Some rows →
  df_getitem "TEAM_ID" df = Ok (map (λ r, Int (team r)) rows) ∧
  df_getitem "PTS" df = Ok (map points rows) ∧
  existsb is_Str (map points rows) = false.
Proof.
  intros Hline (ids & pts & -> & -> & Hlen & Hrows)%lines_inv.
  cut (ids = map (λ r, Int (team r)) rows ∧ pts = map points rows ∧
       existsb is_Str (map points rows) = false).
  { by intros (<- & <- & ?). }
  revert pts rows Hlen Hrows.
  induction ids as [|i ids IH]; intros [|p pts] rows Hlen Hrows;
    simpl in *; try discriminate.
  - by inversion Hrows.
  - inversion Hrows as [|? r ? rows' Hr Hrest]; subst. simpl in Hr.
    apply Hline in Hr as (-> & -> & Hstr).
    destruct (IH pts rows') as (-> & -> & Hrest'); [lia|done|].
    simpl. by rewrite Hstr.
Qed.

Lemma series_values_ids {L} (team : L → Z) (rows : list L) :
  series_values (map (λ r, Int (team r)) rows) = map (λ r, Int (team r)) rows.
Proof.
  unfold series_values, series_dtype.
  assert (H : forallb is_Int (map (λ r, Int (team r)) rows) = true)
    by (by induction rows).
  rewrite H. induction rows as [|r rows IH]; simpl; [done|]. f_equal. apply IH.
  by induction rows.
Qed.

(** Selecting under the team mask is keeping the rows of the team. *)
Lemma series_loc_team {L} (team : L → Z) (f : L → cell) (rows : list L) t :
  series_loc (series_eq (map (λ r, Int (team r)) rows) (Int t)) (map f rows)
  = map f (filter (λ r, team r = t) rows).
Proof.
  induction rows as [|r rows IH]; [done|].
  rewrite filter_cons. cbn [map series_eq series_loc cell_eq].
  change (map (λ x, cell_eq x (Int t)) (map (λ r, Int (team r)) rows))
    with (series_eq (map (λ r, Int (team r)) rows) (Int t)).
  destruct (Z.eqb_spec (team r) t) as [Ht|Ht].
  - rewrite decide_True by done. simpl. by rewrite IH.
  - by rewrite decide_False.
Qed.

Lemma loc_team_pts_lines {L} (line : cell → cell → option L) (team : L → Z)
    (points : L → cell) df rows t :
  (∀ id pts r, line id pts = Some r →
               id = Int (team r) ∧ pts = points r ∧ is_Str pts = false) →
  lines line df = Some rows →
  loc_team_pts df (Int t) =
    Ok (series_dtype (map points rows),
        map (λ r, astype (series_dtype (map points rows)) (points r))
            (filter (λ r, team r = t) rows)).
Proof.
  intros Hline Hrows.
  destruct (lines_columns line team points df rows Hline Hrows) as (Hids & Hpts & _).
  unfold loc_team_pts. rewrite Hids, Hpts. cbn [res_bind].
  rewrite series_values_ids. unfold series_values. rewrite map_map.
  by rewrite (series_loc_team team).
Qed.

(** The first value under the team mask is the points reported for the
    team. *)
Lemma reported_points_run ts teams t :
  lines team_line ts = Some teams →
  res_bind (loc_team_pts ts (Int t)) (λ s, series_iloc s.2 0) =
    match reported_points teams t with
    | Some r => Ok r
    | None => Raise (IndexError "single positional indexer is out-of-bounds")
    end.
Proof.
  intros Hteams.
  rewrite (loc_team_pts_lines team_line tl_team tl_points ts teams t team_line_inv Hteams).
  unfold reported_points. cbn [res_bind snd].
  by destruct (filter (λ l, tl_team l = t) teams).
Qed.

Lemma f64_of_int_not_nan z : f64_of_int z ≠ S754_nan.
Proof.
  destruct (decide (z = 0)) as [->|Hz]; [done|].
  by destruct (f64_of_int_sign z Hz) as [(m & e & ->)| ->].
Qed.

Lemma nan_to_zero_astype c : nan_to_zero (astype dtype_float64 c) = nan_to_zero c.
Proof.
  destruct c as [z|f|t]; [|done..]. simpl.
  pose proof (f64_of_int_not_nan z). by destruct (f64_of_int z).
Qed.

(** Summing the points column under the team mask is summing the points
    of the team's player rows. *)
Lemma players_points_run ps rows t :
  lines player_line ps = Some rows →
  res_bind (loc_team_pts ps (Int t)) (λ s, series_sum s.1 s.2) = Ok (players_points rows t).
Proof.
  intros Hrows.
  rewrite (loc_team_pts_lines player_line pl_team pl_points ps rows t player_line_inv Hrows).
  destruct (lines_columns player_line pl_team pl_points ps rows player_line_inv Hrows)
    as (_ & _ & Hstr).
  cbn [res_bind fst snd]. unfold players_points, series_dtype. rewrite Hstr.
  generalize (filter (λ r, pl_team r = t) rows). intros mine.
  destruct (forallb is_Int (map pl_points rows)); cbn [series_sum].
  - assert (H : foldr (λ c acc, int_value c + acc) 0
                  (map (λ r, astype dtype_int64 (pl_points r)) mine) =
                foldr Z.add 0 (map int_value (map pl_points mine))).
    { induction mine as [|r l IH]; [done|]. simpl. f_equal. exact IH. }
    by rewrite H.
  - assert (H : map nan_to_zero (map (λ r, astype dtype_float64 (pl_points r)) mine) =
                map nan_to_zero (map pl_points mine)).
    { rewrite !map_map. apply map_ext. intros r. apply nan_to_zero_astype. }
    by rewrite H.
Qed.

Lemma reported_points_number teams t r :
  Forall (λ l, is_Str (tl_points l) = false) teams →
  reported_points teams t = Some r → is_Str r = false.
Proof.
  intros Hteams. unfold reported_points.
  destruct (filter (λ l, tl_team l = t) teams) as [|l ls] eqn:Hf; [done|].
  intros [= <-].
  assert (Hl : l ∈ filter (λ l, tl_team l = t) teams) by (rewrite Hf; left).
  apply list_elem_of_filter in Hl as [_ Hl]. rewrite Forall_forall in Hteams.
  specialize (Hteams l Hl). by destruct (series_dtype _), (tl_points l).
Qed.

Lemma lines_team_numbers ts teams :
  lines team_line ts = Some teams → Forall (λ l, is_Str (tl_points l) = false) teams.
Proof.
  intros (ids & pts & _ & _ & _ & Hrows)%lines_inv.
  revert Hrows. generalize (zip ids pts). intros l Hrows.
  induction Hrows as [|p r l rows Hr _ IH]; constructor; [|done].
  by apply team_line_inv in Hr as (_ & <- & ?).
Qed.

Lemma players_points_number rows t : is_Str (players_points rows t) = false.
Proof. unfold players_points. by case_match. Qed.

(** On numbers the comparison raises nothing, and it holds exactly when
    the gap is below the tolerance. *)
Lemma within_tolerance_total a b :
  is_Str a = false → is_Str b = false → ∃ c, within_tolerance a b = Ok c.
Proof. destruct a, b; try done; intros _ _; unfold within_tolerance; simpl; eauto. Qed.

Lemma within_tolerance_consistent teams rows t r :
  reported_points teams t = Some r →
  within_tolerance r (players_points rows t) = Ok true ↔ team_consistent teams rows t.
Proof.
  intros Hr. unfold team_consistent, points_gap, within_tolerance. rewrite Hr.
  destruct (cell_sub r (players_points rows t)) as [d|e]; cbn [res_bind].
  - destruct (cell_abs d) as [g|e]; cbn [res_bind].
    + split; [by eauto|]. by intros (g' & [= <-] & H).
    + split; [done|]. by intros (g' & [=] & _).
  - split; [done|]. by intros (g' & [=] & _).
Qed.

Lemma reported_points_first h teams :
  reported_points (h :: teams) (tl_team h) =
    Some (astype (series_dtype (map tl_points (h :: teams))) (tl_points h)).
Proof. unfold reported_points. rewrite filter_cons, decide_True; done. Qed.

Lemma reported_points_second h a teams :
  reported_points (h :: a :: teams) (tl_team a) =
    Some (astype (series_dtype (map tl_points (h :: a :: teams)))
            (tl_points (if bool_decide (tl_team h = tl_team a) then h else a))).
Proof.
  unfold reported_points. rewrite filter_cons. case_bool_decide as Heq.
  - by rewrite decide_True.
  - rewrite decide_False by done. by rewrite filter_cons, decide_True.
Qed.

Lemma df_getitem_elem name df s : df_getitem name df = Ok s → ∃ n, (n, s) ∈ df.
Proof.
  induction df as [|[n c] df IH]; simpl; [done|].
  destruct (String.eqb n name).
  - intros [= ->]. exists n. left.
  - intros H. destruct (IH H) as [m Hm]. exists m. by right.
Qed.

Lemma df_getitem_wf name df s :
  df_wf df → df_getitem name df = Ok s → length s = df_len df.
Proof.
  intros Hwf H. apply df_getitem_elem in H as [n Hn].
  unfold df_wf in Hwf. rewrite Forall_forall in Hwf. by apply (Hwf (n, s)).
Qed.

Lemma raises_Exception_series_iloc s i : raises_Exception (series_iloc s i).
Proof. unfold series_iloc. by case_match. Qed.

Lemma raises_Exception_py_add a b : raises_Exception (py_add a b).
Proof. by destruct a, b. Qed.

Lemma raises_Exception_series_sum dt s : raises_Exception (series_sum dt s).
Proof.
  destruct dt; [done..|]. unfold series_sum, object_sum.
  destruct (map _ s) as [|c l]; [done|].
  assert (H : ∀ acc : res cell, raises_Exception acc →
              raises_Exception (foldl (λ acc x, res_bind acc (λ a, py_add a x)) acc l)).
  { induction l as [|x l IH]; intros acc Hacc; simpl; [done|].
    apply IH. apply raises_Exception_bind; [done|]. intros a.
    apply raises_Exception_py_add. }
  by apply H.
Qed.

Lemma raises_Exception_loc_team_pts df t : raises_Exception (loc_team_pts df t).
Proof.
  unfold loc_team_pts.
  do 2 (apply raises_Exception_bind; [apply raises_Exception_getitem|]; intros ?). done.
Qed.

Lemma raises_Exception_within_tolerance a b : raises_Exception (within_tolerance a b).
Proof.
  unfold within_tolerance.
  apply raises_Exception_bind; [by destruct a, b|]. intros d.
  apply raises_Exception_bind; [by destruct d|]. intros m. by destruct m.
Qed.

Lemma returns_catchable {S A} (m : M S A) : returns m → catchable m.
Proof. intros Hm s. by destruct (Hm s) as (a & s' & ->). Qed.

Lemma spot_check_game_returns env game_id :
  OnlyExceptions env → returns (spot_check_game env game_id).
Proof.
  intros Henv. unfold spot_check_game.
  apply returns_try_except_Exception; [|intros e; apply returns_logger_then].
  unfold logger_info. apply catchable_bind; [apply catchable_logger|]. intros _.
  apply catchable_bind; [by apply returns_catchable, get_box_score_returns|].
  intros bs. case_match; [|catch].
  repeat (apply catchable_bind;
          [apply catchable_lift_res;
           first [ apply raises_Exception_within_tolerance
                 | apply raises_Exception_bind;
                   [ first [apply raises_Exception_getitem | apply raises_Exception_loc_team_pts]
                   | intros ?;
                     first [apply raises_Exception_series_iloc
                           | apply raises_Exception_series_sum] ] ]
          | intros ?]).
  catch.
Qed.

Ltac run_box_score H :=
  match goal with
  | |- context [mbind ?k (get_box_score ?env ?g ?save) ?s] =>
      let s' := fresh "s" in
      let Hbs := fresh "Hbs" in
      destruct (H s) as (s' & Hbs);
      rewrite (mbind_run (get_box_score env g save) k s _ s' Hbs); cbv beta
  end.

Lemma spot_check_game_checked env game_id s ps ts h a more prows :
  boxscoretraditionalv2_BoxScoreTraditionalV2 env game_id = Ok (ps, ts) →
  df_empty ps = false → df_empty ts = false →
  lines team_line ts = Some (h :: a :: more) → lines player_line ps = Some prows →
  ∃ b s', spot_check_game env game_id s = (Ok b, s') ∧
          (b = true ↔ check_box_score_spec (h :: a :: more) prows).
Proof.
  intros Hapi Hps Hts Hteams Hplayers.
  set (teams := h :: a :: more) in *.
  destruct (lines_columns team_line tl_team tl_points ts teams team_line_inv Hteams)
    as (Htid & _ & _).
  pose proof (lines_team_numbers ts teams Hteams) as Hnum.
  pose proof (reported_points_first h (a :: more)) as Hrh.
  pose proof (reported_points_second h a more) as Hra.
  fold teams in Hrh, Hra.
  destruct (reported_points teams (tl_team h)) as [rh|] eqn:Erh; [clear Hrh|done].
  destruct (reported_points teams (tl_team a)) as [ra|] eqn:Era; [clear Hra|done].
  destruct (within_tolerance_total rh (players_points prows (tl_team h)))
    as (bh & Hbh);
    [by apply (reported_points_number teams (tl_team h)) | apply players_points_number |].
  destruct (within_tolerance_total ra (players_points prows (tl_team a)))
    as (ba & Hba);
    [by apply (reported_points_number teams (tl_team a)) | apply players_points_number |].
  assert (E1 : res_bind (df_getitem "TEAM_ID" ts) (λ s, series_iloc (series_values s) 0)
               = Ok (Int (tl_team h))).
  { rewrite Htid. cbn [res_bind]. by rewrite series_values_ids. }
  assert (E2 : res_bind (df_getitem "TEAM_ID" ts) (λ s, series_iloc (series_values s) 1)
               = Ok (Int (tl_team a))).
  { rewrite Htid. cbn [res_bind]. by rewrite series_values_ids. }
  pose proof (reported_points_run ts teams (tl_team h) Hteams) as E3. rewrite Erh in E3.
  pose proof (reported_points_run ts teams (tl_team a) Hteams) as E4. rewrite Era in E4.
  pose proof (players_points_run ps prows (tl_team h) Hplayers) as E5.
  pose proof (players_points_run ps prows (tl_team a) Hplayers) as E6.
  exists (bh && ba).
  assert (Hspec : bh && ba = true ↔ check_box_score_spec teams prows).
  { unfold check_box_score_spec, teams. fold teams.
    rewrite <- (within_tolerance_consistent teams prows (tl_team h) rh Erh).
    rewrite <- (within_tolerance_consistent teams prows (tl_team a) ra Era).
    rewrite Hbh, Hba, andb_true_iff. split; intros [? ?]; split; congruence. }
  unfold spot_check_game, try_except_Exception. run.
  run_box_score (λ s, get_box_score_full env game_id s ps ts Hapi Hps Hts).
  cbn [player_stats team_stats]. rewrite Hps, Hts. cbn [negb andb].
  run. rewrite E1. cbv beta iota. run. rewrite E2. cbv beta iota.
  run. rewrite E3. cbv beta iota. run. rewrite E4. cbv beta iota.
  run. rewrite E5. cbv beta iota. run. rewrite E6. cbv beta iota.
  run. rewrite Hbh. cbv beta iota. run. rewrite Hba. cbv beta iota.
  destruct (bh && ba); run; eexists; (split; [reflexivity|exact Hspec]).
Qed.

(** A box score with no player row, or with fewer than two team rows. *)
Lemma spot_check_game_degenerate env game_id s ps ts :
  boxscoretraditionalv2_BoxScoreTraditionalV2 env game_id = Ok (ps, ts) →
  df_wf ts → df_empty ps = true ∨ (df_len ts < 2)%nat →
  ∃ s', spot_check_game env game_id s = (Ok false, s').
Proof.
  intros Hapi Hwf Hdeg.
  destruct (df_empty ps || df_empty ts) eqn:Hempty.
  - unfold spot_check_game, try_except_Exception. run.
    run_box_score (λ s, get_box_score_empty env game_id false s ps ts Hapi Hempty).
    cbn [player_stats team_stats]. change (df_empty pd_DataFrame) with true.
    cbn [negb andb]. run. eexists. reflexivity.
  - apply orb_false_iff in Hempty as [Hps Hts].
    destruct Hdeg as [Hdeg|Hlen]; [congruence|].
    unfold spot_check_game, try_except_Exception. run.
    run_box_score (λ s, get_box_score_full env game_id s ps ts Hapi Hps Hts).
    cbn [player_stats team_stats]. rewrite Hps, Hts. cbn [negb andb]. run.
    pose proof (raises_Exception_getitem "TEAM_ID" ts) as Hexc.
    destruct (df_getitem "TEAM_ID" ts) as [ids|e] eqn:Hids.
    + pose proof (df_getitem_wf _ _ _ Hwf Hids) as Hl.
      destruct ids as [|i0 [|i1 ids]]; simpl in Hl; [| |lia]; simpl; run;
        eexists; reflexivity.
    + simpl in Hexc. simpl. rewrite Hexc. run. eexists. reflexivity.
Qed.



(** Against C5 as the specification has it.  Two team rows that carry one
    identifier: the second row reports 5 points, the players of its team
    sum to 100, and the check passes, since the points compared are those
    of the first row both times.  And rounding: 100 points reported against
    players with 50.1 and 50 points, where the numbers the columns hold
    differ by more than one tenth, pass, since the float64 sum rounds
    down. *)
Lemma spot_check_passes_inconsistent_totals :
  ((spot_check_game (serving_box_score (Ok (players_of_one_team, one_team_twice)))
      "0022400001" boot).1 = Ok true ∧
   lines team_line one_team_twice = Some [mkTeamLine 1 (Int 100); mkTeamLine 1 (Int 5)] ∧
   players_points [mkPlayerLine 1 (Int 60); mkPlayerLine 1 (Int 40)] 1 = Int 100 ∧
   within_tolerance (Int 5) (Int 100) = Ok false) ∧
  ((spot_check_game (serving_box_score (Ok (players_off, two_teams)))
      "0022400001" boot).1 = Ok true ∧
   ∃ f q, df_cell players_off "PTS" 0 = Some (Float f) ∧ f64_value f = Some q ∧
          (1 # 10 < Qabs (100 - (q + 50)))%Q).
Proof.
  split.
  - repeat split; vm_compute; reflexivity.
  - split; [vm_compute; reflexivity|].
    eexists _, _. split; [reflexivity|]. split; [reflexivity|]. by vm_compute.
Qed.


(** ** Fetches that go through *)

Lemma series_ge_total col k : Forall is_number col → ∃ b, series_ge col k = Ok b.
Proof.
  intros Hcol. apply res_mapM_total. eapply Forall_impl; [exact Hcol|].
  intros c Hc. destruct c; simpl in *; eauto. done.
Qed.

Lemma at_least_10_total name df :
  in_columns name df = true → numeric_column df name → ∃ n, at_least_10 name df = Ok n.
Proof.
  intros Hin Hnum. destruct (df_getitem_in_columns _ _ Hin) as [col Hcol].
  destruct (series_ge_total col 10 (Hnum col Hcol)) as [b Hb].
  unfold at_least_10. rewrite Hcol. simpl. rewrite Hb. simpl. eauto.
Qed.

Lemma flag_column_total df k :
  (∀ name, name ∈ ["PTS"; "REB"; "AST"; "STL"; "BLK"] →
           in_columns name df = true ∧ numeric_column df name) →
  ∃ col, flag_column df k = Ok col.
Proof.
  intros Hcat.
  assert (H10 : ∀ name, name ∈ ["PTS"; "REB"; "AST"; "STL"; "BLK"] →
                        ∃ n, at_least_10 name df = Ok n).
  { intros name Hname. destruct (Hcat name Hname). by apply at_least_10_total. }
  destruct (H10 "PTS") as [pts Hpts]; [repeat constructor|].
  destruct (H10 "REB") as [reb Hreb]; [repeat constructor|].
  destruct (H10 "AST") as [ast Hast]; [repeat constructor|].
  destruct (H10 "STL") as [stl Hstl]; [repeat constructor|].
  destruct (H10 "BLK") as [blk Hblk]; [repeat constructor|].
  unfold flag_column, categories_at_least_10.
  rewrite Hpts, Hreb, Hast, Hstl, Hblk. simpl. eauto.
Qed.

Lemma series_truediv_total m a :
  Forall is_number m → Forall is_number a → ∃ q, series_truediv m a = Ok q.
Proof.
  intros Hm Ha. apply res_mapM_total.
  revert a Ha. induction Hm as [|x m Hx Hm IH]; intros [|y a] Ha; simpl;
    try constructor.
  - inversion Ha; subst. unfold cell_truediv.
    destruct x, y; simpl in *; try done; eauto.
  - inversion Ha; subst. by apply IH.
Qed.

Lemma shooting_percentage_total pct made att df :
  numeric_column df made → numeric_column df att →
  ∃ df', shooting_percentage pct made att df = Ok df'.
Proof.
  intros Hm Ha. unfold shooting_percentage.
  destruct (in_columns pct df); simpl; [eauto|].
  destruct (in_columns made df) eqn:Em; simpl; [|eauto].
  destruct (in_columns att df) eqn:Ea; simpl; [|eauto].
  destruct (df_getitem_in_columns _ _ Em) as [m Hgm].
  destruct (df_getitem_in_columns _ _ Ea) as [a Hga].
  destruct (series_truediv_total m a (Hm m Hgm) (Ha a Hga)) as [q Hq].
  rewrite Hgm, Hga. simpl. rewrite Hq. simpl. eauto.
Qed.

Lemma numeric_column_setitem df name name' s :
  name ≠ name' → numeric_column df name → numeric_column (df_setitem name' s df) name.
Proof. intros Hne Hnum col. rewrite df_getitem_setitem_ne by done. apply Hnum. Qed.

Lemma numeric_column_shooting_percentage pct made att df df' name :
  shooting_percentage pct made att df = Ok df' → name ≠ pct →
  numeric_column df name → numeric_column df' name.
Proof.
  intros H Hne Hnum col. rewrite (shooting_percentage_other _ _ _ _ _ _ H) by done.
  apply Hnum.
Qed.

(** A non-empty response with the five category columns, numbers in them
    and in the shooting columns, and a file sink that works: the player
    fetch returns the frame with both flag columns. *)
Lemma get_player_game_log_run env player_id save s raw rest :
  playergamelog_PlayerGameLog env player_id (season (self s)) (season_type (self s))
    = Ok (raw :: rest) →
  df_empty raw = false →
  (∀ name, name ∈ ["PTS"; "REB"; "AST"; "STL"; "BLK"] →
           in_columns name raw = true ∧ numeric_column raw name) →
  (∀ name, name ∈ ["FGM"; "FGA"; "FG3M"; "FG3A"] → numeric_column raw name) →
  save = false ∨ (∀ p df, to_csv_error env p df = None) →
  ∃ df s' dd td,
    get_player_game_log env player_id save s = (Ok df, s') ∧
    df_getitem "DOUBLE_DOUBLE" df = Ok dd ∧ df_getitem "TRIPLE_DOUBLE" df = Ok td.
Proof.
  intros Hapi Hraw Hcat Hshoot Hsink.
  set (df1 := df_setitem_scalar "PLAYER_ID" (Int player_id) raw).
  assert (Hcat1 : ∀ dfx name s0,
            name ∈ ["PTS"; "REB"; "AST"; "STL"; "BLK"] →
            in_columns name dfx = true ∧ numeric_column dfx name →
            s0 ∉ ["PTS"; "REB"; "AST"; "STL"; "BLK"] →
            ∀ col, in_columns name (df_setitem s0 col dfx) = true ∧
                   numeric_column (df_setitem s0 col dfx) name).
  { intros dfx name s0 Hname [Hin Hnum] Hs0 col.
    assert (name ≠ s0) by (intros ->; done).
    split; [|by apply numeric_column_setitem].
    by rewrite in_columns_setitem, Hin. }
  destruct (flag_column_total df1 2) as [dd Hdd].
  { intros name Hname. apply Hcat1; [done|by apply Hcat|fresh_name]. }
  set (df2 := df_setitem "DOUBLE_DOUBLE" dd df1).
  destruct (flag_column_total df2 3) as [td Htd].
  { intros name Hname. apply Hcat1; [done| |fresh_name].
    apply Hcat1; [done|by apply Hcat|fresh_name]. }
  set (df3 := df_setitem "TRIPLE_DOUBLE" td df2).
  assert (Hshoot3 : ∀ name, name ∈ ["FGM"; "FGA"; "FG3M"; "FG3A"] → numeric_column df3 name).
  { intros name Hname. unfold df3, df2, df1, df_setitem_scalar.
    assert (name ∉ ["PLAYER_ID"; "DOUBLE_DOUBLE"; "TRIPLE_DOUBLE"]) as Hfresh.
    { rewrite !elem_of_cons in Hname.
      destruct Hname as [->|[->|[->|[->|H%elem_of_nil]]]]; try done; fresh_name. }
    intros col. rewrite !df_getitem_setitem_ne; [by apply Hshoot|..];
      intros ->; apply Hfresh; repeat constructor. }
  destruct (shooting_percentage_total "FG_PCT" "FGM" "FGA" df3) as [df4 H4];
    [apply Hshoot3; repeat constructor..|].
  destruct (shooting_percentage_total "FG3_PCT" "FG3M" "FG3A" df4) as [df5 H5].
  { apply (numeric_column_shooting_percentage _ _ _ _ _ _ H4); [done|].
    apply Hshoot3; repeat constructor. }
  { apply (numeric_column_shooting_percentage _ _ _ _ _ _ H4); [done|].
    apply Hshoot3; repeat constructor. }
  assert (Hout : df_getitem "DOUBLE_DOUBLE" df5 = Ok dd ∧
                 df_getitem "TRIPLE_DOUBLE" df5 = Ok td).
  { rewrite !(shooting_percentage_other _ _ _ _ _ _ H5) by done.
    rewrite !(shooting_percentage_other _ _ _ _ _ _ H4) by done.
    unfold df3. rewrite df_getitem_setitem_ne by done.
    unfold df2. by rewrite !df_getitem_setitem_eq. }
  assert (Hrun : ∃ s', get_player_game_log env player_id save s = (Ok df5, s')).
  { unfold get_player_game_log, try_except_Exception.
    run. rewrite Hapi. run.
    change (list_getitem (raw :: rest) 0) with (Ok raw). cbv iota. rewrite Hraw.
    rewrite (mbind_run _ _ _ _ _ (try_except_ask _ _ _ _ _)). cbv beta.
    run. fold df1. rewrite Hdd. cbv beta iota zeta. run. fold df2. rewrite Htd.
    cbv beta iota zeta. run. fold df3. rewrite H4. cbv beta iota. run. rewrite H5.
    cbv beta iota.
    destruct Hsink as [->|Hcsv].
    - run. eexists. reflexivity.
    - destruct save.
      + unfold to_csv. rewrite Hcsv. unfold modify_world. run.
        unfold mbind, M_bind. simpl. eexists. reflexivity.
      + run. eexists. reflexivity. }
  destruct Hrun as [s' Hrun]. exists df5, s', dd, td. by destruct Hout.
Qed.

Lemma get_team_game_log_run env team_id save s raw rest :
  teamgamelog_TeamGameLog env team_id (season (self s)) (season_type (self s))
    = Ok (raw :: rest) →
  df_empty raw = false →
  save = false ∨ (∀ p df, to_csv_error env p df = None) →
  ∃ s', get_team_game_log env team_id save s
        = (Ok (df_setitem_scalar "TEAM_ID" (Int team_id) raw), s').
Proof.
  intros Hapi Hraw Hsink. unfold get_team_game_log, try_except_Exception.
  run. rewrite Hapi. run.
  change (list_getitem (raw :: rest) 0) with (Ok raw). cbv iota. rewrite Hraw.
  cbv beta iota zeta.
  destruct Hsink as [->|Hcsv].
  - run. eexists. reflexivity.
  - destruct save.
    + unfold to_csv. rewrite Hcsv. unfold modify_world. run.
      unfold mbind, M_bind. simpl. eexists. reflexivity.
    + run. eexists. reflexivity.
Qed.

(** ** The player game log *)

(** C1. For every raw player game-log row, the DOUBLE_DOUBLE flag of the
    fetched frame is 1 exactly when at least two of points, rebounds,
    assists, steals and blocks are individually >= 10, else 0, and the
    TRIPLE_DOUBLE flag is 1 exactly when at least three of them are, else
    0.  The fetch does return such a frame when the response has the five
    columns, holds numbers and the file sink works. *)
Theorem derived_flags_count_categories env player_id save s raw rest :
  playergamelog_PlayerGameLog env player_id (season (self s)) (season_type (self s))
    = Ok (raw :: rest) →
  (∀ df s' i pts reb ast stl blk,
     get_player_game_log env player_id save s = (Ok df, s') →
     df ≠ pd_DataFrame →
     df_cell raw "PTS" i = Some pts → df_cell raw "REB" i = Some reb →
     df_cell raw "AST" i = Some ast → df_cell raw "STL" i = Some stl →
     df_cell raw "BLK" i = Some blk →
     df_cell df "DOUBLE_DOUBLE" i = Some (Int (DOUBLE_DOUBLE_spec pts reb ast stl blk)) ∧
     df_cell df "TRIPLE_DOUBLE" i = Some (Int (TRIPLE_DOUBLE_spec pts reb ast stl blk))) ∧
  (df_empty raw = false →
   (∀ name, name ∈ ["PTS"; "REB"; "AST"; "STL"; "BLK"] →
            in_columns name raw = true ∧ numeric_column raw name) →
   (∀ name, name ∈ ["FGM"; "FGA"; "FG3M"; "FG3A"] → numeric_column raw name) →
   save = false ∨ (∀ p df, to_csv_error env p df = None) →
   ∃ df s', get_player_game_log env player_id save s = (Ok df, s') ∧ df ≠ pd_DataFrame).
Proof.
  intros Hapi. split.
  - intros df s' i pts reb ast stl blk Hrun Hne Hp Hr Ha Hs Hb.
    destruct (get_player_game_log_flags _ _ _ _ _ _ Hrun)
      as [->|(raw' & rest' & dd & td & Hapi' & Hdd & Htd & Hgd & Hgt)]; [done|].
    rewrite Hapi in Hapi'. injection Hapi' as <- <-.
    unfold df_cell at 1 2. rewrite Hgd, Hgt.
    split.
    + apply (flag_column_lookup _ 2 _ _ _ _ _ _ _ Hdd);
        unfold df_setitem_scalar; by rewrite df_cell_setitem_ne.
    + apply (flag_column_lookup _ 3 _ _ _ _ _ _ _ Htd);
        unfold df_setitem_scalar; by rewrite df_cell_setitem_ne.
  - intros Hraw Hcat Hshoot Hsink.
    destruct (get_player_game_log_run env player_id save s raw rest)
      as (df & s' & dd & td & Hrun & Hdd & _); try done.
    exists df, s'. split; [done|]. by intros ->.
Qed.

(** The frame fetched from [two_games], saved or not. *)
Lemma two_games_fetched save :
  let env := serving_player_log (Ok [two_games]) in
  get_player_game_log env 7 save boot
  = (Ok (returned pd_DataFrame (get_player_game_log env 7 save boot)),
     (get_player_game_log env 7 save boot).2).
Proof. destruct save; vm_compute; reflexivity. Defined.

(** The rows of the specification: 10 points, 10 rebounds, 3 assists is a
    double-double only; with 10 assists it is a triple-double too. *)
Lemma derived_flags_count_categories_witness :
  let env := serving_player_log (Ok [two_games]) in
  let df := returned pd_DataFrame (get_player_game_log env 7 true boot) in
  (df_cell df "DOUBLE_DOUBLE" 0 = Some (Int 1) ∧
   df_cell df "TRIPLE_DOUBLE" 0 = Some (Int 0)) ∧
  (df_cell df "DOUBLE_DOUBLE" 1 = Some (Int 1) ∧
   df_cell df "TRIPLE_DOUBLE" 1 = Some (Int 1)) ∧
  (∃ df' s', get_player_game_log env 7 true boot = (Ok df', s') ∧ df' ≠ pd_DataFrame).
Proof.
  intros env df.
  pose proof (derived_flags_count_categories env 7 true boot two_games [] eq_refl)
    as [Hflags Hruns].
  split; [|split].
  - exact (Hflags df _ 0%nat (Int 10) (Int 10) (Int 3) (Int 0) (Int 0)
             (two_games_fetched true) ltac:(done)
             eq_refl eq_refl eq_refl eq_refl eq_refl).
  - exact (Hflags df _ 1%nat (Int 10) (Int 10) (Int 10) (Int 0) (Int 0)
             (two_games_fetched true) ltac:(done)
             eq_refl eq_refl eq_refl eq_refl eq_refl).
  - apply Hruns.
    + reflexivity.
    + intros name Hname. rewrite !elem_of_cons in Hname.
      destruct Hname as [->|[->|[->|[->|[->|H%elem_of_nil]]]]]; try done;
        (split; [reflexivity|]; intros col [= <-]; by repeat constructor).
    + intros name Hname. rewrite !elem_of_cons in Hname.
      destruct Hname as [->|[->|[->|[->|H%elem_of_nil]]]]; try done;
        (intros col [= <-]; by repeat constructor).
    + right. reflexivity.
Defined.

(** C9. In every fetched player game-log row, TRIPLE_DOUBLE = 1 implies
    DOUBLE_DOUBLE = 1, whatever the five underlying values. *)
Theorem triple_double_implies_double_double env player_id save s df s' i :
  get_player_game_log env player_id save s = (Ok df, s') →
  df_cell df "TRIPLE_DOUBLE" i = Some (Int 1) →
  df_cell df "DOUBLE_DOUBLE" i = Some (Int 1).
Proof.
  intros Hrun.
  destruct (get_player_game_log_flags _ _ _ _ _ _ Hrun)
    as [->|(raw & rest & dd & td & _ & Hdd & Htd & Hgd & Hgt)]; [done|].
  unfold df_cell. rewrite Hgd, Hgt.
  apply flag_columns_same_count in Hdd as (n & Hn & ->).
  apply flag_columns_same_count in Htd as (n' & Hn' & ->).
  rewrite Hn in Hn'. injection Hn' as <-.
  rewrite !lookup_map. destruct (n !! i) as [z|]; simpl; [|done].
  intros [= H]. do 2 f_equal.
  destruct (Z.leb_spec 3 z); [|done].
  by rewrite (proj2 (Z.leb_le 2 z)) by lia.
Qed.

Lemma triple_double_implies_double_double_witness :
  let env := serving_player_log (Ok [two_games]) in
  let df := returned pd_DataFrame (get_player_game_log env 7 true boot) in
  df_cell df "DOUBLE_DOUBLE" 1 = Some (Int 1).
Proof.
  intros env df.
  exact (triple_double_implies_double_double env 7 true boot df _ 1
           (two_games_fetched true) eq_refl).
Defined.

(** C2, as the code has it.  When the raw frame has the makes and attempts
    columns but no percentage column, the percentage of every row is the
    float64 quotient makes / attempts, computed whatever the attempts are:
    with zero attempts nothing is raised and the field is an infinity for
    non-zero makes, with the sign of the makes against that of the zero,
    and NaN for zero makes, never a finite number.  A percentage column the
    raw frame already has is left as supplied. *)
Theorem percentage_is_the_plain_quotient
    env player_id save s df s' raw rest pct made att :
  (pct, made, att) = ("FG_PCT", "FGM", "FGA") ∨
  (pct, made, att) = ("FG3_PCT", "FG3M", "FG3A") →
  playergamelog_PlayerGameLog env player_id (season (self s)) (season_type (self s))
    = Ok (raw :: rest) →
  get_player_game_log env player_id save s = (Ok df, s') →
  df ≠ pd_DataFrame →
  (in_columns pct raw = true → df_getitem pct df = df_getitem pct raw) ∧
  (in_columns pct raw = false → in_columns made raw = true → in_columns att raw = true →
   ∀ i x y, df_cell raw made i = Some x → df_cell raw att i = Some y →
     ∃ c, cell_truediv x y = Ok c ∧ df_cell df pct i = Some c ∧
          (is_zero y = true →
           (c = NaN ∨ is_inf c = true) ∧
           (∀ z, x = Int z → z ≠ 0 → c = Inf (xorb (z <? 0) (zero_sign y))) ∧
           (x = Int 0 → c = NaN))).
Proof.
  intros Hwhich Hapi Hrun Hne.
  destruct (get_player_game_log_Ok _ _ _ _ _ _ Hrun)
    as [->|(raw' & rest' & dd & td & df3 & Hapi' & _ & _ & _ & H3 & H4)]; [done|].
  rewrite Hapi in Hapi'. injection Hapi' as <- <-. simpl in H3.
  destruct Hwhich as [[= -> -> ->]|[= -> -> ->]].
  - split.
    + intros Hin.
      rewrite (shooting_percentage_other _ _ _ _ _ _ H4) by done.
      rewrite (shooting_percentage_kept _ _ _ _ _ H3)
        by (by rewrite flagged_in_columns by fresh_name).
      by rewrite flagged_getitem by fresh_name.
    + intros Hp Hm Ha i x y Hx Hy.
      destruct (shooting_percentage_cells _ _ _ _ _ i x y H3) as (c & Hc & Hi);
        try (by rewrite flagged_in_columns by fresh_name);
        try (unfold df_cell; by rewrite flagged_getitem by fresh_name).
      exists c. split; [done|]. split.
      * unfold df_cell. rewrite (shooting_percentage_other _ _ _ _ _ _ H4) by done.
        exact Hi.
      * intros Hz. by apply (cell_truediv_zero x y).
  - split.
    + intros Hin.
      rewrite (shooting_percentage_kept _ _ _ _ _ H4).
      * rewrite (shooting_percentage_other _ _ _ _ _ _ H3) by done.
        by rewrite flagged_getitem by fresh_name.
      * rewrite (shooting_percentage_in_columns _ _ _ _ _ _ H3) by done.
        by rewrite flagged_in_columns by fresh_name.
    + intros Hp Hm Ha i x y Hx Hy.
      destruct (shooting_percentage_cells _ _ _ _ _ i x y H4) as (c & Hc & Hi);
        try (rewrite (shooting_percentage_in_columns _ _ _ _ _ _ H3) by done;
             by rewrite flagged_in_columns by fresh_name);
        try (unfold df_cell; rewrite (shooting_percentage_other _ _ _ _ _ _ H3) by done;
             by rewrite flagged_getitem by fresh_name).
      exists c. split; [done|]. split; [done|].
      intros Hz. by apply (cell_truediv_zero x y).
Qed.

(** Five makes out of zero attempts: the percentage is +inf. *)
Lemma percentage_is_the_plain_quotient_witness :
  let env := serving_player_log (Ok [two_games]) in
  let df := returned pd_DataFrame (get_player_game_log env 7 true boot) in
  ∃ c, cell_truediv (Int 5) (Int 0) = Ok c ∧ df_cell df "FG_PCT" 0 = Some c ∧
       (is_zero (Int 0) = true →
        (c = NaN ∨ is_inf c = true) ∧
        (∀ z, Int 5 = Int z → z ≠ 0 → c = Inf (xorb (z <? 0) (zero_sign (Int 0)))) ∧
        (Int 5 = Int 0 → c = NaN)).
Proof.
  intros env df.
  exact (proj2 (percentage_is_the_plain_quotient env 7 true boot df _ two_games []
                  "FG_PCT" "FGM" "FGA" (or_introl eq_refl) eq_refl
                  (two_games_fetched true) ltac:(done))
               eq_refl eq_refl eq_refl 0%nat (Int 5) (Int 0) eq_refl eq_refl).
Defined.

(** C2 fails as stated: with FGM = 5, FGA = 0 and no FG_PCT column the
    fetched FG_PCT is +inf, an infinity and not a null; with FG3M = 0,
    FG3A = 0 the fetched FG3_PCT is NaN. *)
Lemma zero_attempts_percentage_is_infinite :
  let env := serving_player_log (Ok [two_games]) in
  let df := returned pd_DataFrame (get_player_game_log env 7 true boot) in
  (in_columns "FG_PCT" two_games = false ∧
   df_cell two_games "FGM" 0 = Some (Int 5) ∧ df_cell two_games "FGA" 0 = Some (Int 0) ∧
   df_cell df "FG_PCT" 0 = Some (Inf false) ∧
   is_inf (Inf false) = true ∧ isna (Inf false) = false) ∧
  (in_columns "FG3_PCT" two_games = false ∧
   df_cell two_games "FG3M" 0 = Some (Int 0) ∧ df_cell two_games "FG3A" 0 = Some (Int 0) ∧
   df_cell df "FG3_PCT" 0 = Some NaN).
Proof. vm_compute. repeat split. Qed.

(** ** The team game log *)

(** C10, as the code has it.  Unless persisting it fails, a non-empty team
    game-log response is returned with its TEAM_ID column set to the
    requested identifier in every row: appended as a new last column when
    the response has no such column, put in the place of the raw one when it
    has.  Every other column is the raw one, and no derived column is
    computed. *)
Theorem team_fetch_sets_team_id env team_id save s raw rest :
  teamgamelog_TeamGameLog env team_id (season (self s)) (season_type (self s))
    = Ok (raw :: rest) →
  df_empty raw = false →
  let fetched := df_setitem_scalar "TEAM_ID" (Int team_id) raw in
  (save = false ∨ (∀ p df, to_csv_error env p df = None) →
   ∃ s', get_team_game_log env team_id save s = (Ok fetched, s')) ∧
  (∀ df s', get_team_game_log env team_id save s = (Ok df, s') →
            df ≠ pd_DataFrame → df = fetched) ∧
  df_getitem "TEAM_ID" fetched = Ok (replicate (df_len raw) (Int team_id)) ∧
  (∀ name, name ≠ "TEAM_ID" → df_getitem name fetched = df_getitem name raw) ∧
  (in_columns "TEAM_ID" raw = false →
   fetched = raw ++ [("TEAM_ID", replicate (df_len raw) (Int team_id))]) ∧
  (in_columns "TEAM_ID" raw = true → df_columns fetched = df_columns raw).
Proof.
  intros Hapi Hraw fetched. split; [|split; [|split; [|split; [|split]]]].
  - apply (get_team_game_log_run env team_id save s raw rest Hapi Hraw).
  - intros df s' Hrun Hne.
    destruct (get_team_game_log_Ok _ _ _ _ _ _ Hrun) as [->|(raw' & rest' & Hapi' & _ & ->)];
      [done|].
    rewrite Hapi in Hapi'. by injection Hapi' as <- <-.
  - apply df_getitem_setitem_eq.
  - intros name Hname. by apply df_getitem_setitem_ne.
  - apply df_setitem_fresh.
  - intros Hin. unfold fetched, df_setitem_scalar. by rewrite df_columns_setitem, Hin.
Qed.

(** The endpoint's own labels (Team_ID, Game_ID, PTS): TEAM_ID is added
    last and nothing else changes. *)
Lemma team_fetch_sets_team_id_witness :
  let env := serving_team_log (Ok [team_games]) in
  let fetched := team_games ++ [("TEAM_ID", [Int 7; Int 7])] in
  (∃ s', get_team_game_log env 7 true boot = (Ok fetched, s')) ∧
  (∀ name, name ≠ "TEAM_ID" → df_getitem name fetched = df_getitem name team_games).
Proof.
  intros env fetched.
  pose proof (team_fetch_sets_team_id env 7 true boot team_games [] eq_refl eq_refl)
    as (Hruns & _ & _ & Hother & _).
  split.
  - apply Hruns. right. reflexivity.
  - exact Hother.
Defined.

(** C10 fails as stated: a response that already has a TEAM_ID column comes
    back with no column added and with that raw column overwritten; and a
    response that cannot be saved comes back as the empty frame. *)
Lemma team_id_column_overwritten :
  (let env := serving_team_log (Ok [team_games_with_id]) in
   let df := returned pd_DataFrame (get_team_game_log env 2 false boot) in
   df_empty team_games_with_id = false ∧
   df_cell team_games_with_id "TEAM_ID" 0 = Some (Int 1) ∧
   df_cell df "TEAM_ID" 0 = Some (Int 2) ∧
   df_columns df = df_columns team_games_with_id) ∧
  (let env := serving_team_log_disk_full (Ok [team_games]) in
   df_empty team_games = false ∧
   (get_team_game_log env 7 true boot).1 = Ok pd_DataFrame).
Proof. vm_compute. repeat split. Qed.
(** What [except Exception] does not catch goes through: an interrupt
    raised while the endpoint is called leaves the fetch as it is. *)
Example keyboard_interrupt_escapes :
  (get_player_game_log (serving_player_log (Raise (BaseExceptionOnly "KeyboardInterrupt")))
     7 true boot).1
  = Raise (BaseExceptionOnly "KeyboardInterrupt").
Proof. vm_compute. reflexivity. Qed.

(** Two passes through the governor right after construction, on an ideal
    clock: the first sleeps a second, the second another. *)
Example two_gated_calls :
  ∃ s1 s2, _rate_limit_request boot = (Ok tt, s1) ∧ _rate_limit_request s1 = (Ok tt, s2) ∧
           last_request_time (self s1) = 1000000 ∧ last_request_time (self s2) = 2000000 ∧
           calls (world s2) = [time_sleep_call 1000000; time_sleep_call 1000000].
Proof. eexists _, _. vm_compute. repeat split. Qed.

(** The world [boot] stands for is the one the constructor makes. *)
Example boot_is_constructed :
  let logged :=
    [LogRecord INFO [Lit "Created directory: "; FPath ["nba_data"]];
     LogRecord INFO [Lit "Created directory: "; FPath ["nba_data"; "players"]];
     LogRecord INFO [Lit "Created directory: "; FPath ["nba_data"; "teams"]];
     LogRecord INFO [Lit "Created directory: "; FPath ["nba_data"; "boxscores"]];
     LogRecord INFO [Lit "Successfully loaded data for "; FNat 0; Lit " teams"]] in
  __init__ (serving_players snapshot) "2024-25" SeasonType_regular
    (mkWorld 0 [] [] [] ∅ [] [])
  = (Ok (self boot),
     mkWorld 0 [] logged (dirs (world boot)) ∅ [teams_get_teams_call] logged).
Proof. vm_compute. reflexivity. Qed.

(** ** What a method leaves alone *)

Global Instance same_PreOrder {S V} (view : S → V) : PreOrder (same view).
Proof.
  split; [by intros s|].
  intros s1 s2 s3 H12 H23. unfold same in *. congruence.
Qed.

Global Instance attributes_LogBlind : LogBlind attributes.
Proof. by intros r s. Qed.
Global Instance attributes_CallBlind : CallBlind attributes.
Proof. by intros c s. Qed.
Global Instance attributes_FileBlind : FileBlind attributes.
Proof. by intros p df s. Qed.
Global Instance files_on_disk_LogBlind : LogBlind files_on_disk.
Proof. by intros r s. Qed.
Global Instance files_on_disk_CallBlind : CallBlind files_on_disk.
Proof. by intros c s. Qed.

Section Keeps.
Context {S : Type} (R : relation S) `{!PreOrder R}.

Lemma keeps_mret {A} (a : A) : keeps R (mret a).
Proof. by intros s. Qed.

Lemma keeps_lift_res {A} (r : res A) : keeps R (lift_res r).
Proof. by intros s. Qed.

Lemma keeps_bind {A B} (m : M S A) (k : A → M S B) :
  keeps R m → (∀ a, keeps R (k a)) → keeps R (m ≫= k).
Proof.
  intros Hm Hk s. unfold mbind, M_bind. specialize (Hm s).
  destruct (m s) as [[a|e] s1]; simpl in *; [|done].
  trans s1; [done | apply Hk].
Qed.

Lemma keeps_try_except_Exception {A} (body : M S A) handler :
  keeps R body → (∀ e, keeps R (handler e)) → keeps R (try_except_Exception body handler).
Proof.
  intros Hb Hh s. unfold try_except_Exception. specialize (Hb s).
  destruct (body s) as [[a|e] s1]; simpl in *; [done|].
  destruct (isinstance_Exception e); [|done].
  trans s1; [done | apply Hh].
Qed.

Lemma keeps_try_except {A} (body handler : M S A) :
  keeps R body → keeps R handler → keeps R (try_except body handler).
Proof.
  intros Hb Hh s. unfold try_except. specialize (Hb s).
  destruct (body s) as [[a|e] s1]; simpl in *; [done|].
  trans s1; [done | apply Hh].
Qed.
End Keeps.

Section KeepsView.
Context {V : Type} (view : State → V).

Lemma keeps_get_self : keeps (same view) get_self.
Proof. by intros s. Qed.

Lemma keeps_logger `{!LogBlind view} l msg : keeps (same view) (logger_log l msg).
Proof.
  intros s. unfold logger_log. case_bool_decide; [|done].
  exact (log_blind (LogRecord l msg) s).
Qed.

Lemma keeps_ask `{!CallBlind view} {A} c (r : res A) : keeps (same view) (ask c r).
Proof. intros s. rewrite ask_run. exact (call_blind c s). Qed.

Lemma keeps_to_csv `{!FileBlind view} env df p : keeps (same view) (to_csv env df p).
Proof.
  intros s. unfold to_csv. destruct (to_csv_error env p df); [done|].
  exact (file_blind p df s).
Qed.
End KeepsView.

Lemma keeps_files_rate_limit : keeps (same files_on_disk) _rate_limit_request.
Proof.
  intros s.
  by destruct (rate_limit_run s) as (s' & -> & _ & _ & _ & _ & _ & Hf & _).
Qed.

(** Splits a method body into its statements. *)
Ltac frame_step :=
  lazymatch goal with
  | |- keeps _ (mbind _ _) => apply keeps_bind; [tc_solve| |intros ?]
  | |- keeps _ (mret _) => apply keeps_mret; tc_solve
  | |- keeps _ get_self => apply keeps_get_self
  | |- keeps _ (logger_log _ _) => apply keeps_logger; tc_solve
  | |- keeps _ (to_csv _ _ _) => apply keeps_to_csv; tc_solve
  | |- keeps _ (try_except_Exception _ _) =>
      apply keeps_try_except_Exception; [tc_solve| |intros ?]
  | |- keeps _ (try_except _ _) => apply keeps_try_except; [tc_solve| |]
  | |- keeps _ (lift_res _) => apply keeps_lift_res; tc_solve
  | |- keeps _ (ask _ _) => apply keeps_ask; tc_solve
  | |- keeps _ (if ?b then _ else _) => destruct b
  | |- keeps _ (match ?l with [] => _ | _ :: _ => _ end) => destruct l
  end.

Ltac frame :=
  unfold logger_info, logger_warning, logger_error; cbv zeta; repeat frame_step.

Lemma keeps_files_get_box_score env game_id :
  keeps (same files_on_disk) (get_box_score env game_id false).
Proof. unfold get_box_score. frame. apply keeps_files_rate_limit. Qed.


(** ** Every fetch passes the governor *)

Lemma rate_limit_stamps s :
  let current_time := clock (advance 0 (world s)) in
  let elapsed := current_time - last_request_time (self s) in
  ∃ s', _rate_limit_request s = (Ok tt, s') ∧
    self s' = stamped (clock (world s')) (self s) ∧
    last_request_time (self s) + request_delay (self s) ≤ clock (world s') ∧
    clock (world s) ≤ clock (world s') ∧
    calls (world s') = calls (world s) ++
      (if bool_decide (elapsed < request_delay (self s))
       then [time_sleep_call (request_delay (self s) - elapsed)] else []) ∧
    records (world s') = records (world s) ∧
    files (world s') = files (world s) ∧
    dirs (world s') = dirs (world s).
Proof.
  destruct s as [o w]. simpl.
  unfold _rate_limit_request, datetime_now, get_self, mbind, M_bind, mret, M_ret. simpl.
  case_bool_decide as Hlt.
  - unfold logger_debug, logger_log. simpl.
    unfold time_sleep. case_bool_decide as Hneg; [lia|].
    simpl. eexists; split; [reflexivity|]. simpl.
    repeat split; try reflexivity;
      destruct (drift w) as [|j1 [|j2 [|j3 r]]]; simpl; lia.
  - simpl. eexists; split; [reflexivity|]. simpl.
    rewrite app_nil_r. repeat split; try reflexivity;
      destruct (drift w) as [|j1 [|j2 r]]; simpl; lia.
Qed.

(** The opening of each fetch: the object is read, the fetch is announced,
    the governor is passed; the rest runs in the state the governor left. *)
Lemma fetch_governor {A} (msg : NBADataScraper → list frag)
    (rest : NBADataScraper → M State A) handler s :
  try_except_Exception
    (o ← get_self; logger_info (msg o);; _rate_limit_request;; rest o) handler s =
  try_except_Exception (rest (self s)) handler
    (_rate_limit_request (mkState (self s) (emit (LogRecord INFO (msg (self s))) (world s)))).2.
Proof.
  destruct (rate_limit_stamps
              (mkState (self s) (emit (LogRecord INFO (msg (self s))) (world s))))
    as (s2 & Hrl & _).
  unfold try_except_Exception, mbind, M_bind, get_self, logger_info, logger_log.
  simpl. by rewrite Hrl.
Qed.

Lemma governed_fetch {A} (msg : NBADataScraper → list frag)
    (rest : NBADataScraper → M State A) handler :
  (∀ o, keeps (same attributes) (rest o)) →
  (∀ e, keeps (same attributes) (handler e)) →
  keeps governed
    (try_except_Exception
       (o ← get_self; logger_info (msg o);; _rate_limit_request;; rest o) handler).
Proof.
  intros Hrest Hh s. rewrite fetch_governor.
  destruct (rate_limit_stamps
              (mkState (self s) (emit (LogRecord INFO (msg (self s))) (world s))))
    as (s2 & -> & Hself & Hle & _).
  simpl in *.
  pose proof (keeps_try_except_Exception (same attributes) _ _ (Hrest (self s)) Hh s2) as Hk.
  unfold same, attributes in Hk. exists (clock (world s2)). by rewrite Hk.
Qed.

Lemma keeps_attributes_handler {A} msg (a : A) :
  keeps (same attributes) (logger_error msg;; mret a : M State A).
Proof. frame. Qed.

Lemma governed_get_player_game_log env player_id save :
  keeps governed (get_player_game_log env player_id save).
Proof.
  unfold get_player_game_log.
  apply (governed_fetch
           (λ o, [Lit "Fetching game log for player ID "; FInt player_id;
                  Lit " for season "; FStr (season o)])); intros; frame.
Qed.

Lemma governed_get_team_game_log env team_id save :
  keeps governed (get_team_game_log env team_id save).
Proof.
  unfold get_team_game_log.
  apply (governed_fetch
           (λ o, [Lit "Fetching game log for team ID "; FInt team_id;
                  Lit " for season "; FStr (season o)])); intros; frame.
Qed.

Lemma governed_get_box_score env game_id save :
  keeps governed (get_box_score env game_id save).
Proof.
  unfold get_box_score.
  apply (governed_fetch (λ _, [Lit "Fetching box score for game ID "; FStr game_id]));
    intros; frame.
Qed.

Lemma governed_then_same s1 s2 s3 :
  governed s1 s2 → same attributes s2 s3 → governed s1 s3.
Proof. intros (t & Hle & Hs) H23. exists t. unfold same, attributes in H23. by rewrite H23. Qed.

Lemma same_then_governed s1 s2 s3 :
  same attributes s1 s2 → governed s2 s3 → governed s1 s3.
Proof.
  intros H12 (t & Hle & Hs). unfold same, attributes in H12. exists t. by rewrite <- H12.
Qed.

Lemma governed_spot_check_game env game_id : keeps governed (spot_check_game env game_id).
Proof.
  intros s. unfold spot_check_game, try_except_Exception, logger_info.
  rewrite mbind_logger by (simpl; lia).
  set (s1 := set_world _ s).
  assert (same attributes s s1) as H1 by done.
  pose proof (governed_get_box_score env game_id false s1) as H2.
  unfold mbind at 1, M_bind at 1.
  destruct (get_box_score env game_id false s1) as [[bs|e] s2]; simpl in H2.
  - match goal with
    | |- governed s (match ?k s2 with _ => _ end).2 =>
        assert (keeps (same attributes) k) as Hk by frame;
        pose proof (Hk s2) as H3; destruct (k s2) as [[b|e] s3]
    end; simpl in H3.
    + eauto using same_then_governed, governed_then_same.
    + destruct (isinstance_Exception e); simpl;
        eauto using same_then_governed, governed_then_same.
  - destruct (isinstance_Exception e); simpl;
      eauto using same_then_governed, governed_then_same.
Qed.

(** X2. Every fetch passes the governor, whatever its outcome: after a
    player, team or box-score fetch, and after a spot check, the recorded
    time of the last request has moved on by the minimum interval at least,
    and no other attribute of the object has changed.  The two name lookups
    do not pass it: they leave the object as it is. *)
Theorem every_fetch_passes_the_governor env lookups s :
  (∀ player_id save, governed s (get_player_game_log env player_id save s).2) ∧
  (∀ team_id save, governed s (get_team_game_log env team_id save s).2) ∧
  (∀ game_id save, governed s (get_box_score env game_id save s).2) ∧
  (∀ game_id, governed s (spot_check_game env game_id s).2) ∧
  (∀ name, self (get_player_id_by_name env name s).2 = self s) ∧
  (∀ name, self (get_team_id_by_name lookups name s).2 = self s).
Proof.
  repeat split; intros.
  - apply governed_get_player_game_log.
  - apply governed_get_team_game_log.
  - apply governed_get_box_score.
  - apply governed_spot_check_game.
  - assert (keeps (same attributes) (get_player_id_by_name env name)) as H
      by (unfold get_player_id_by_name; frame).
    apply H.
  - assert (keeps (same attributes) (get_team_id_by_name lookups name)) as H
      by (unfold get_team_id_by_name; frame).
    apply H.
Qed.

(** ** What a method can let out *)

Section OnlyBaseException.
Context {S : Type} `{HasWorld S}.

Lemma returns_logger l msg : returns (logger_log l msg : M S unit).
Proof. intros s. unfold logger_log. case_bool_decide; simpl; eauto. Qed.

Lemma only_BaseException_returns {A} (m : M S A) :
  returns m → lets_out_only_BaseException m.
Proof. intros Hm s e s' Hrun. destruct (Hm s) as (a & s1 & Heq). congruence. Qed.

Lemma only_BaseException_bind {A B} (m : M S A) (k : A → M S B) :
  lets_out_only_BaseException m → (∀ a, lets_out_only_BaseException (k a)) →
  lets_out_only_BaseException (m ≫= k).
Proof.
  intros Hm Hk s e s'. unfold mbind, M_bind.
  destruct (m s) as [[a|e1] s1] eqn:E.
  - apply Hk.
  - intros [= <- <-]. by eapply Hm.
Qed.

Lemma only_BaseException_try_except_Exception {A} (body : M S A) handler :
  (∀ e, returns (handler e)) →
  lets_out_only_BaseException (try_except_Exception body handler).
Proof.
  intros Hh s e s'. unfold try_except_Exception.
  destruct (body s) as [[a|e1] s1]; [done|].
  destruct (isinstance_Exception e1) eqn:E.
  - destruct (Hh e1 s1) as (a & s2 & ->). done.
  - by intros [= <- <-].
Qed.

Lemma only_BaseException_for_each {A} (l : list A) (body : A → M S unit) :
  (∀ x, lets_out_only_BaseException (body x)) →
  lets_out_only_BaseException (for_each l body).
Proof.
  intros Hb. induction l as [|x l IH]; simpl.
  - by intros s e s'.
  - by apply only_BaseException_bind.
Qed.
End OnlyBaseException.

Lemma only_BaseException_return_local {R} (init : R) (m : M (State * R) unit) :
  lets_out_only_BaseException m → lets_out_only_BaseException (return_local init m).
Proof.
  intros Hm s e s'. unfold return_local.
  destruct (m (s, init)) as [[a|e1] s1] eqn:E; simpl; [done|].
  intros [= <- <-]. by eapply Hm.
Qed.

(** X3. No method lets out an exception that derives from [Exception],
    whatever the collaborators raise: what can get out of the two lookups,
    the three fetches, the spot check and the sweep over all teams is only
    what [except Exception] does not catch. *)
Theorem only_BaseException_gets_out env lookups :
  (∀ name, lets_out_only_BaseException (get_player_id_by_name env name)) ∧
  (∀ name, lets_out_only_BaseException (get_team_id_by_name lookups name)) ∧
  (∀ player_id save, lets_out_only_BaseException (get_player_game_log env player_id save)) ∧
  (∀ team_id save, lets_out_only_BaseException (get_team_game_log env team_id save)) ∧
  (∀ game_id save, lets_out_only_BaseException (get_box_score env game_id save)) ∧
  (∀ game_id, lets_out_only_BaseException (spot_check_game env game_id)) ∧
  (∀ days_back, lets_out_only_BaseException (get_recent_games_for_all_teams env days_back)).
Proof.
  repeat split; intros;
    try (apply only_BaseException_try_except_Exception; intros e;
         apply returns_logger_then).
  unfold get_recent_games_for_all_teams.
  apply only_BaseException_bind; [by apply only_BaseException_returns; intros s; eexists _, _|].
  intros o. apply only_BaseException_return_local, only_BaseException_for_each.
  intros team. apply only_BaseException_bind.
  - apply only_BaseException_returns, returns_logger.
  - intros _. apply only_BaseException_try_except_Exception. intros e. apply returns_logger.
Qed.

(** ** Resolving a team *)





(** X6. A search that raises ends the team lookup: when the searches
    before it found nothing and it raises an exception, None is returned
    and one ERROR record carries the exception, even though a later search
    would have found the team. *)
Theorem team_resolution_stops_at_failure lookups team_name s e :
  isinstance_Exception e = true →
  teams_find_teams_by_full_name lookups team_name = Raise e ∨
  (teams_find_teams_by_full_name lookups team_name = Ok [] ∧
   teams_find_teams_by_abbreviation lookups team_name = Raise e) ∨
  (teams_find_teams_by_full_name lookups team_name = Ok [] ∧
   teams_find_teams_by_abbreviation lookups team_name = Ok [] ∧
   teams_find_teams_by_nickname lookups team_name = Raise e) →
  get_team_id_by_name lookups team_name s =
    (Ok None,
     mkState (self s)
       (emit (LogRecord ERROR [Lit "Error finding team ID for '"; FStr team_name;
                               Lit "': "; FExc e]) (world s))).
Proof.
  intros He Hm. unfold get_team_id_by_name, try_except_Exception.
  destruct Hm as [H1 | [(H1 & H2) | (H1 & H2 & H3)]]; run;
    rewrite ?H1; run; rewrite ?H2; run; rewrite ?H3; run;
    unfold lift_res, mbind, M_bind; simpl; rewrite He; run; reflexivity.
Qed.

Lemma team_resolution_stops_at_failure_witness :
  teams_find_teams_by_nickname (serving_teams (λ _, Raise AttributeError)) "Celtics" =
    Ok [mkTeam 1610612738 "Boston Celtics" "BOS" "Celtics"] ∧
  (get_team_id_by_name (serving_teams (λ _, Raise AttributeError)) "Celtics" boot).1 = Ok None.
Proof.
  split; [reflexivity|].
  rewrite (team_resolution_stops_at_failure (serving_teams (λ _, Raise AttributeError))
             "Celtics" boot AttributeError eq_refl).
  - reflexivity.
  - right. left. vm_compute. by split.
Defined.

(** ** The constructor *)

Lemma filter_ext_elem {A} (P Q : A → Prop) `{!∀ x, Decision (P x)} `{!∀ x, Decision (Q x)}
    (l : list A) :
  (∀ x, x ∈ l → P x ↔ Q x) → filter P l = filter Q l.
Proof.
  induction l as [|x l IH]; intros Hl; [done|].
  rewrite !filter_cons.
  assert (filter P l = filter Q l) as -> by (apply IH; intros y Hy; apply Hl; by right).
  pose proof (Hl x ltac:(left)) as Hx.
  destruct (decide (P x)), (decide (Q x)); tauto.
Qed.

Lemma mbind_os_path_exists {S} `{HasWorld S} {B} p (k : bool → M S B) (s : S) :
  (os_path_exists p ≫= k) s = k (bool_decide (p ∈ dirs (get_world s))) s.
Proof. reflexivity. Qed.

Lemma mbind_modify_world {S} `{HasWorld S} {B} f (k : unit → M S B) (s : S) :
  (modify_world f ≫= k) s = k tt (set_world (f (get_world s)) s).
Proof. reflexivity. Qed.

(** The loop over the directories: each one that is missing is created and
    announced, in order; the others are left alone. *)
Lemma make_directories_run env (l : list path) (w : World) :
  NoDup l →
  (∀ p, p ∈ l → p ∉ dirs w → os_makedirs_error env p = None) →
  for_each l
    (λ directory,
       e ← os_path_exists directory;
       if negb e then
         os_makedirs env directory;;
         logger_info [Lit "Created directory: "; FPath directory]
       else mret tt) w =
  (Ok tt,
   mkWorld (clock w) (drift w)
     (records w ++ map created_directory (filter (λ p, p ∉ dirs w) l))
     (dirs w ++ filter (λ p, p ∉ dirs w) l) (files w) (calls w)
     (log_file w ++ map created_directory (filter (λ p, p ∉ dirs w) l))).
Proof.
  intros Hnd. revert w. induction Hnd as [|x l Hx Hnd IH]; intros w Hok.
  - simpl. rewrite !app_nil_r. by destruct w.
  - cbn [for_each]. rewrite mbind_assoc, mbind_os_path_exists.
    rewrite filter_cons. cbn [get_world World_HasWorld].
    case_bool_decide as Hin; cbn [negb].
    + rewrite mbind_mret. rewrite decide_False by tauto.
      apply IH. intros p Hp. apply Hok. by right.
    + rewrite decide_True by done.
      unfold os_makedirs. rewrite (Hok x) by (done || left).
      unfold logger_info. rewrite mbind_assoc, mbind_modify_world.
      rewrite mbind_logger by (simpl; lia).
      cbn [get_world set_world World_HasWorld].
      rewrite IH.
      * simpl.
        rewrite (filter_ext_elem (λ p, p ∉ dirs w ++ [x]) (λ p, p ∉ dirs w) l).
        -- by rewrite <- !app_assoc.
        -- intros p Hp. rewrite elem_of_app, list_elem_of_singleton.
           split; [tauto|]. intros Hn [?| ->]; done.
      * intros p Hp Hn. apply Hok; [by right|].
        simpl in Hn. rewrite elem_of_app in Hn. tauto.
Qed.

Lemma NoDup_data_directories : NoDup data_directories.
Proof. apply (bool_decide_unpack _). vm_compute. exact I. Qed.

(** X7. The constructor creates, in order, exactly those of its four data
    directories that are missing, each announced by an INFO record, and
    leaves the existing ones alone, whatever becomes of the team table
    afterwards. *)
Theorem constructor_creates_missing_directories env season season_type w :
  (∀ p, p ∈ data_directories → p ∉ dirs w → os_makedirs_error env p = None) →
  let missing := filter (λ p, p ∉ dirs w) data_directories in
  let w' := (__init__ env season season_type w).2 in
  dirs w' = dirs w ++ missing ∧
  ∃ more, records w' = records w ++ map created_directory missing ++ more.
Proof.
  intros Hok. cbv zeta.
  cut (∃ r w', __init__ env season season_type w = (r, w') ∧
         dirs w' = dirs w ++ filter (λ p, p ∉ dirs w) data_directories ∧
         ∃ more, records w' = records w ++
                   map created_directory (filter (λ p, p ∉ dirs w) data_directories) ++ more).
  { by intros (r & w' & -> & H). }
  unfold __init__. cbv zeta.
  change [["nba_data"]; os_path_join ["nba_data"] "players";
          os_path_join ["nba_data"] "teams"; os_path_join ["nba_data"] "boxscores"]
    with data_directories.
  unfold mbind at 1, M_bind at 1.
  rewrite (make_directories_run env data_directories w NoDup_data_directories Hok).
  unfold try_except_Exception, datetime_now, logger_info, logger_error.
  unfold mbind at 1, M_bind at 1.
  rewrite mbind_ask.
  destruct (teams_get_teams env) as [td|e].
  - rewrite mbind_logger by (simpl; lia). simpl. eexists _, _. split; [done|].
    simpl. split; [done|]. eexists. by rewrite <- app_assoc.
  - destruct (isinstance_Exception e).
    + rewrite mbind_logger by (simpl; lia). simpl. eexists _, _. split; [done|].
      simpl. split; [done|]. eexists. by rewrite <- app_assoc.
    + simpl. eexists _, _. split; [done|].
      simpl. split; [done|]. exists []. by rewrite app_nil_r.
Qed.

Lemma constructor_creates_missing_directories_witness :
  dirs (__init__ (serving_players []) "2024-25" SeasonType_regular
          (mkWorld 0 [] [] [["nba_data"]; ["nba_data"; "teams"]] ∅ [] [])).2 =
  [["nba_data"]; ["nba_data"; "teams"]; ["nba_data"; "players"]; ["nba_data"; "boxscores"]].
Proof.
  exact (proj1 (constructor_creates_missing_directories (serving_players []) "2024-25"
                  SeasonType_regular
                  (mkWorld 0 [] [] [["nba_data"]; ["nba_data"; "teams"]] ∅ [] [])
                  (λ _ _ _, eq_refl))).
Defined.

Lemma make_directories_failure env (l : list path) (w : World) p rest e :
  filter (λ p, p ∉ dirs w) l = p :: rest →
  os_makedirs_error env p = Some e →
  for_each l
    (λ directory,
       e ← os_path_exists directory;
       if negb e then
         os_makedirs env directory;;
         logger_info [Lit "Created directory: "; FPath directory]
       else mret tt) w = (Raise e, w).
Proof.
  intros Hf He. induction l as [|x l IH]; [done|].
  cbn [for_each]. rewrite mbind_assoc, mbind_os_path_exists.
  rewrite filter_cons in Hf. cbn [get_world World_HasWorld].
  case_bool_decide as Hin; cbn [negb].
  - rewrite mbind_mret. rewrite decide_False in Hf by tauto. by apply IH.
  - rewrite decide_True in Hf by done. injection Hf as -> _.
    unfold os_makedirs. rewrite He. reflexivity.
Qed.

(** X8. Creating the directories is not guarded: when the first missing
    directory cannot be created, the constructor raises that very
    exception, of whatever class, and nothing else has happened. *)
Theorem constructor_directory_failure env season season_type w p rest e :
  filter (λ p, p ∉ dirs w) data_directories = p :: rest →
  os_makedirs_error env p = Some e →
  __init__ env season season_type w = (Raise e, w).
Proof.
  intros Hf He. unfold __init__. cbv zeta.
  change [["nba_data"]; os_path_join ["nba_data"] "players";
          os_path_join ["nba_data"] "teams"; os_path_join ["nba_data"] "boxscores"]
    with data_directories.
  unfold mbind at 1, M_bind at 1.
  by rewrite (make_directories_failure env data_directories w p rest e Hf He).
Qed.

Lemma constructor_directory_failure_witness :
  __init__ read_only_disk "2024-25" SeasonType_regular data_dir_only =
  (Raise PermissionError, data_dir_only).
Proof.
  exact (constructor_directory_failure read_only_disk "2024-25" SeasonType_regular
           data_dir_only ["nba_data"; "players"]
           [["nba_data"; "teams"]; ["nba_data"; "boxscores"]] PermissionError
           eq_refl eq_refl).
Defined.

(** X9. A team table that cannot be loaded does not stop the constructor:
    the exception is logged as an ERROR and the object is built with an
    empty team table and an empty abbreviation table; on that object the
    sweep over all teams asks for nothing and returns the empty
    dictionary. *)
Theorem constructor_absorbs_teams_failure env season season_type w e :
  (∀ p, p ∈ data_directories → p ∉ dirs w → os_makedirs_error env p = None) →
  teams_get_teams env = Raise e →
  isinstance_Exception e = true →
  ∃ w',
    let o := mkNBADataScraper season season_type ["nba_data"] ["nba_data"; "players"]
               ["nba_data"; "teams"] ["nba_data"; "boxscores"] [] ∅
               (clock w') (seconds 1) in
    __init__ env season season_type w = (Ok o, w') ∧
    last (records w') = Some (LogRecord ERROR [Lit "Failed to load teams data: "; FExc e]) ∧
    ∀ days_back,
      get_recent_games_for_all_teams env days_back (mkState o w') = (Ok ∅, mkState o w').
Proof.
  intros Hok Hteams He. unfold __init__. cbv zeta.
  change [["nba_data"]; os_path_join ["nba_data"] "players";
          os_path_join ["nba_data"] "teams"; os_path_join ["nba_data"] "boxscores"]
    with data_directories.
  unfold mbind at 1, M_bind at 1.
  rewrite (make_directories_run env data_directories w NoDup_data_directories Hok).
  unfold try_except_Exception, datetime_now, logger_info, logger_error.
  unfold mbind at 1, M_bind at 1.
  rewrite mbind_ask, Hteams, He.
  rewrite mbind_logger by (simpl; lia). simpl.
  eexists (mkWorld _ _ _ _ _ _ _). split; [reflexivity|]. simpl. by rewrite last_snoc.
Qed.

Lemma constructor_absorbs_teams_failure_witness :
  ∃ o w', __init__ teams_unreachable "2024-25" SeasonType_regular empty_disk = (Ok o, w') ∧
          teams_data o = [] ∧
          get_recent_games_for_all_teams teams_unreachable 30 (mkState o w') =
            (Ok ∅, mkState o w').
Proof.
  destruct (constructor_absorbs_teams_failure teams_unreachable "2024-25" SeasonType_regular
              empty_disk ConnectionError (λ _ _ _, eq_refl) eq_refl eq_refl)
    as (w' & Hinit & _ & Hsweep).
  eexists _, w'. split; [exact Hinit|]. split; [reflexivity|]. apply Hsweep.
Defined.

Lemma abbreviation_table_lookup (l : list Team) (d : gmap Z string) (k : Z) :
  foldl (λ (d : gmap Z string) team, <[t_id team := t_abbreviation team]> d) d l !! k =
  match last (filter (λ t, t_id t = k) l) with
  | Some t => Some (t_abbreviation t)
  | None => d !! k
  end.
Proof.
  revert d. induction l as [|t l IH]; intros d; [done|].
  cbn [foldl]. rewrite IH, filter_cons.
  destruct (decide (t_id t = k)) as [Hk|Hk].
  - destruct (filter _ l) as [|t' l'] eqn:E.
    + simpl. subst k. by simplify_map_eq.
    + rewrite last_cons_cons. destruct (last (t' :: l')) eqn:EL; [done|].
      by apply last_None in EL.
  - destruct (last (filter _ l)); [done|].
    by simplify_map_eq.
Qed.

(** X10. On a constructed object the abbreviation table is read off the
    team table: an ID maps to the abbreviation of the last team of the
    table that has it, and to nothing when no team has it. *)
Theorem constructor_abbreviation_table env season season_type w o w' :
  __init__ env season season_type w = (Ok o, w') →
  ∀ team_id,
    team_id_to_abbr o !! team_id =
    t_abbreviation <$> last (filter (λ t, t_id t = team_id) (teams_data o)).
Proof.
  unfold __init__. intros Hrun team_id.
  apply mbind_Ok in Hrun as (? & w1 & _ & Hrun).
  apply mbind_Ok in Hrun as (td & w2 & _ & Hrun).
  apply mbind_Ok in Hrun as (t & w3 & _ & Hrun).
  injection Hrun as <- _. simpl.
  rewrite abbreviation_table_lookup.
  by destruct (last _).
Qed.

Lemma league_is_constructed r :
  __init__ (serving_league r) "2024-25" SeasonType_regular empty_disk =
  (Ok (self (league_boot r)), world (league_boot r)).
Proof. vm_compute. reflexivity. Defined.

Lemma constructor_abbreviation_table_witness :
  team_id_to_abbr (self (league_boot (Ok []))) !! 1610612738 = Some "BOS".
Proof.
  exact (constructor_abbreviation_table (serving_league (Ok [])) "2024-25"
           SeasonType_regular empty_disk _ _ (league_is_constructed (Ok [])) 1610612738).
Defined.

(** ** What a fetch leaves on disk *)

Lemma logger_log_Ok {S} `{HasWorld S} l msg (s s' : S) u :
  levelno INFO ≤ levelno l →
  logger_log l msg s = (Ok u, s') → s' = set_world (emit (LogRecord l msg) (get_world s)) s.
Proof. intros Hl. rewrite (logger_log_run l msg s Hl). by intros [= _ <-]. Qed.

Lemma to_csv_Ok {S} `{HasWorld S} env df p (s s' : S) u :
  to_csv env df p s = (Ok u, s') →
  to_csv_error env p df = None ∧ s' = set_world (add_file p df (get_world s)) s.
Proof.
  unfold to_csv. destruct (to_csv_error env p df); [discriminate|].
  by intros [= _ <-].
Qed.

(** The state in which the rest of a fetch starts. *)
Lemma fetch_start (msg : list frag) s :
  ∃ s2, _rate_limit_request (mkState (self s) (emit (LogRecord INFO msg) (world s)))
          = (Ok tt, s2) ∧
        files (world s2) = files (world s).
Proof.
  destruct (rate_limit_stamps (mkState (self s) (emit (LogRecord INFO msg) (world s))))
    as (s2 & Hrl & _ & _ & _ & _ & _ & Hf & _).
  eauto.
Qed.

Lemma replace_drops (old new : ascii) (s : string) :
  old ≠ new → old ∉ list_ascii_of_string (replace old new s).
Proof.
  intros Hne. induction s as [|c s IH]; simpl; [apply not_elem_of_nil|].
  apply not_elem_of_cons. split; [|done].
  destruct (Ascii.eqb c old) eqn:E; [done|].
  intros ->. by rewrite Ascii.eqb_refl in E.
Qed.

Lemma list_ascii_of_string_app (a b : string) :
  list_ascii_of_string (a +:+ b) = list_ascii_of_string a ++ list_ascii_of_string b.
Proof. induction a as [|c a IH]; simpl; [done|]. by rewrite IH. Qed.

Lemma file_name_has_no_space (name : string) :
  " "%char ∉ list_ascii_of_string (replace " " "_" name +:+ "_games.csv").
Proof.
  rewrite list_ascii_of_string_app, elem_of_app. intros [H|H].
  - by apply replace_drops in H.
  - revert H. apply (bool_decide_unpack _). vm_compute. exact I.
Qed.

(** X11. A player fetch with [save=True] that returns a non-empty frame
    has written exactly one file: that very frame, in the player directory,
    named after the player's full name with every space replaced by an
    underscore, so that the file name has no space; what the file held
    before is replaced, and every other file is as it was.  When the name
    lookup finds nobody, or raises anything at all, the name is
    Unknown_<id>. *)
Theorem saved_player_log_is_the_returned_frame env player_id s df s' :
  get_player_game_log env player_id true s = (Ok df, s') →
  df ≠ pd_DataFrame →
  let player_name :=
    match players_find_player_by_id env player_id with
    | Ok (Some p) => p_full_name p
    | _ => "Unknown_" +:+ pretty player_id
    end in
  let file_name := replace " " "_" player_name +:+ "_games.csv" in
  files (world s') = <[player_data_dir (self s) ++ [file_name] := df]> (files (world s)) ∧
  " "%char ∉ list_ascii_of_string file_name.
Proof.
  intros Hrun Hdf. cbv zeta. split; [|by apply file_name_has_no_space].
  unfold get_player_game_log in Hrun.
  rewrite fetch_governor in Hrun.
  match type of Hrun with
  | context [emit (LogRecord INFO ?msg) (world s)] =>
      destruct (fetch_start msg s) as (s2 & Hrl & Hfiles)
  end.
  rewrite Hrl in Hrun. cbn [snd] in Hrun.
  apply try_except_Exception_Ok in Hrun as [Hrun | (e & s1 & _ & _ & Hh)]; last first.
  { apply mbind_Ok in Hh as (? & ? & _ & Hh). by injection Hh as <- _. }
  apply mbind_Ok in Hrun as (frames & s3 & Hask & Hrun). apply ask_Ok in Hask as [_ ->].
  apply mbind_Ok in Hrun as (raw & s4 & Hget & Hrun). apply lift_res_Ok in Hget as [_ ->].
  destruct (df_empty raw).
  { apply mbind_Ok in Hrun as (? & ? & _ & Hrun). by injection Hrun as <- _. }
  rewrite (mbind_run _ _ _ _ _ (try_except_ask _ _ _ _ _)) in Hrun.
  apply mbind_Ok in Hrun as (dd & s6 & Hdd & Hrun). apply lift_res_Ok in Hdd as [_ ->].
  apply mbind_Ok in Hrun as (td & s7 & Htd & Hrun). apply lift_res_Ok in Htd as [_ ->].
  apply mbind_Ok in Hrun as (df3 & s8 & H3 & Hrun). apply lift_res_Ok in H3 as [_ ->].
  apply mbind_Ok in Hrun as (df4 & s9 & H4 & Hrun). apply lift_res_Ok in H4 as [_ ->].
  apply mbind_Ok in Hrun as ([] & s10 & Hsave & Hrun).
  apply mbind_Ok in Hsave as ([] & s11 & Hcsv & Hlog).
  apply to_csv_Ok in Hcsv as [_ ->].
  apply logger_log_Ok in Hlog as ->; [|simpl; lia].
  apply mbind_Ok in Hrun as ([] & s12 & Hlog & Hrun).
  apply logger_log_Ok in Hlog as ->; [|simpl; lia].
  injection Hrun as <- <-. simpl. rewrite Hfiles.
  by destruct (players_find_player_by_id env player_id) as [[p|]|].
Qed.

Lemma named_player_fetched :
  let run := get_player_game_log (serving_named_player_log snapshot (Ok [two_games]))
               2544 true boot in
  run = (Ok (returned pd_DataFrame run), run.2).
Proof. vm_compute. reflexivity. Defined.

Lemma saved_player_log_is_the_returned_frame_witness :
  let run := get_player_game_log (serving_named_player_log snapshot (Ok [two_games]))
               2544 true boot in
  files (world run.2) =
  <[["nba_data"; "players"; "LeBron_James_games.csv"] := returned pd_DataFrame run]> ∅.
Proof.
  exact (proj1 (saved_player_log_is_the_returned_frame
                  (serving_named_player_log snapshot (Ok [two_games])) 2544
                  boot _ _ named_player_fetched ltac:(done))).
Defined.

Lemma saved_team_log_file env team_id save s df s' :
  get_team_game_log env team_id save s = (Ok df, s') →
  df ≠ pd_DataFrame →
  let team_abbr :=
    match team_id_to_abbr (self s) !! team_id with
    | Some abbr => abbr
    | None => "Unknown_" +:+ pretty team_id
    end in
  files (world s') =
    if save then <[team_data_dir (self s) ++ [team_abbr +:+ "_games.csv"] := df]>
                   (files (world s))
    else files (world s).
Proof.
  intros Hrun Hdf. cbv zeta. unfold get_team_game_log in Hrun.
  rewrite fetch_governor in Hrun.
  match type of Hrun with
  | context [emit (LogRecord INFO ?msg) (world s)] =>
      destruct (fetch_start msg s) as (s2 & Hrl & Hfiles)
  end.
  rewrite Hrl in Hrun. cbn [snd] in Hrun.
  apply try_except_Exception_Ok in Hrun as [Hrun | (e & s1 & _ & _ & Hh)]; last first.
  { apply mbind_Ok in Hh as (? & ? & _ & Hh). by injection Hh as <- _. }
  apply mbind_Ok in Hrun as (frames & s3 & Hask & Hrun). apply ask_Ok in Hask as [_ ->].
  apply mbind_Ok in Hrun as (raw & s4 & Hget & Hrun). apply lift_res_Ok in Hget as [_ ->].
  destruct (df_empty raw).
  { apply mbind_Ok in Hrun as (? & ? & _ & Hrun). by injection Hrun as <- _. }
  cbv zeta in Hrun.
  apply mbind_Ok in Hrun as ([] & s10 & Hsave & Hrun).
  apply mbind_Ok in Hrun as ([] & s12 & Hlog & Hrun).
  apply logger_log_Ok in Hlog as ->; [|simpl; lia].
  injection Hrun as <- <-.
  destruct save.
  - apply mbind_Ok in Hsave as ([] & s11 & Hcsv & Hlog).
    apply to_csv_Ok in Hcsv as [_ ->].
    apply logger_log_Ok in Hlog as ->; [|simpl; lia].
    simpl. rewrite Hfiles.
    by destruct (team_id_to_abbr (self s) !! team_id).
  - injection Hsave as <-. simpl. by rewrite Hfiles.
Qed.

(** X12. A team fetch with [save=True] that returns a non-empty frame has
    written exactly one file: that very frame, in the team directory, named
    after the abbreviation the object's table gives for the ID, and
    Unknown_<id> when the table has none; what the file held before is
    replaced, and every other file is as it was. *)
Theorem saved_team_log_is_the_returned_frame env team_id s df s' :
  get_team_game_log env team_id true s = (Ok df, s') →
  df ≠ pd_DataFrame →
  let team_abbr :=
    match team_id_to_abbr (self s) !! team_id with
    | Some abbr => abbr
    | None => "Unknown_" +:+ pretty team_id
    end in
  files (world s') =
    <[team_data_dir (self s) ++ [team_abbr +:+ "_games.csv"] := df]> (files (world s)).
Proof. apply (saved_team_log_file env team_id true). Qed.

Lemma league_team_fetched :
  let run := get_team_game_log (serving_league (Ok [team_games])) 1610612738 true
               (league_boot (Ok [team_games])) in
  run = (Ok (returned pd_DataFrame run), run.2).
Proof. vm_compute. reflexivity. Defined.

Lemma saved_team_log_is_the_returned_frame_witness :
  let run := get_team_game_log (serving_league (Ok [team_games])) 1610612738 true
               (league_boot (Ok [team_games])) in
  files (world run.2) =
  <[["nba_data"; "teams"; "BOS_games.csv"] := returned pd_DataFrame run]> ∅.
Proof.
  exact (saved_team_log_is_the_returned_frame (serving_league (Ok [team_games])) 1610612738
           (league_boot (Ok [team_games])) _ _ league_team_fetched ltac:(done)).
Defined.

(** X13. A box-score fetch with [save=True] that returns a populated box
    score has written exactly two files, in the box-score directory: the
    player table and then the team table, as returned; what the two files
    held before is replaced, and every other file is as it was. *)
Theorem saved_box_score_is_the_returned_pair env game_id s bs s' :
  get_box_score env game_id true s = (Ok bs, s') →
  bs ≠ mkBoxScore pd_DataFrame pd_DataFrame →
  files (world s') =
    <[boxscore_data_dir (self s) ++ ["game_" +:+ game_id +:+ "_team_stats.csv"] :=
        team_stats bs]>
      (<[boxscore_data_dir (self s) ++ ["game_" +:+ game_id +:+ "_player_stats.csv"] :=
           player_stats bs]> (files (world s))).
Proof.
  intros Hrun Hbs. unfold get_box_score in Hrun.
  rewrite (fetch_governor (λ _, [Lit "Fetching box score for game ID "; FStr game_id]))
    in Hrun.
  destruct (fetch_start [Lit "Fetching box score for game ID "; FStr game_id] s)
    as (s2 & Hrl & Hfiles).
  rewrite Hrl in Hrun. cbn [snd] in Hrun.
  apply try_except_Exception_Ok in Hrun as [Hrun | (e & s1 & _ & _ & Hh)]; last first.
  { apply mbind_Ok in Hh as (? & ? & _ & Hh). by injection Hh as <- _. }
  apply mbind_Ok in Hrun as ([ps ts] & s3 & Hask & Hrun). apply ask_Ok in Hask as [_ ->].
  simpl in Hrun.
  destruct (df_empty ps || df_empty ts).
  { apply mbind_Ok in Hrun as (? & ? & _ & Hrun). by injection Hrun as <- _. }
  apply mbind_Ok in Hrun as ([] & s10 & Hsave & Hrun).
  apply mbind_Ok in Hsave as ([] & s11 & Hcsv1 & Hsave).
  apply to_csv_Ok in Hcsv1 as [_ ->].
  apply mbind_Ok in Hsave as ([] & s12 & Hcsv2 & Hsave).
  apply to_csv_Ok in Hcsv2 as [_ ->].
  apply mbind_Ok in Hsave as ([] & s13 & Hlog1 & Hlog2).
  apply logger_log_Ok in Hlog1 as ->; [|simpl; lia].
  apply logger_log_Ok in Hlog2 as ->; [|simpl; lia].
  apply mbind_Ok in Hrun as ([] & s14 & Hlog & Hrun).
  apply logger_log_Ok in Hlog as ->; [|simpl; lia].
  injection Hrun as <- <-. simpl. by rewrite Hfiles.
Qed.

Lemma saved_box_score_is_the_returned_pair_witness :
  let run := get_box_score (serving_box_score (Ok (players_close, two_teams)))
               "0022400001" true boot in
  files (world run.2) =
  <[["nba_data"; "boxscores"; "game_0022400001_team_stats.csv"] := two_teams]>
    (<[["nba_data"; "boxscores"; "game_0022400001_player_stats.csv"] := players_close]> ∅).
Proof.
  exact (saved_box_score_is_the_returned_pair
           (serving_box_score (Ok (players_close, two_teams))) "0022400001" boot
           (mkBoxScore players_close two_teams) _ eq_refl ltac:(done)).
Defined.

(** ** Fetching what was fetched *)

Lemma df_setitem_same name s df : df_getitem name df = Ok s → df_setitem name s df = df.
Proof.
  induction df as [|[n c] df IH]; simpl; [done|].
  destruct (String.eqb n name) eqn:E.
  - by intros [= ->].
  - intros H. by rewrite IH.
Qed.

Lemma categories_ext df df' :
  (∀ name, name ∈ ["PTS"; "REB"; "AST"; "STL"; "BLK"] →
           df_getitem name df = df_getitem name df') →
  categories_at_least_10 df = categories_at_least_10 df'.
Proof.
  intros H. unfold categories_at_least_10, at_least_10.
  by rewrite !H by repeat constructor.
Qed.

(** A percentage step that went through once goes through again, and
    changes nothing, on any frame with the same three columns present. *)
Lemma shooting_percentage_again pct made att df0 df1 df :
  shooting_percentage pct made att df0 = Ok df1 →
  (∀ name, name ∈ [pct; made; att] → in_columns name df = in_columns name df1) →
  shooting_percentage pct made att df = Ok df.
Proof.
  intros H0 Hcols. unfold shooting_percentage.
  rewrite !Hcols by repeat constructor.
  apply shooting_percentage_Ok in H0 as [[Hc ->] | (Hp & m & a & q & _ & _ & _ & ->)].
  - by destruct Hc as [-> | [-> | ->]]; rewrite ?andb_false_r.
  - rewrite in_columns_setitem, bool_decide_eq_true_2 by done.
    by rewrite orb_true_r.
Qed.

(** X14. Normalisation is idempotent: a rectangular frame that a player
    fetch has returned, served again as the response for the same player,
    is returned unchanged. *)
Theorem normalisation_is_idempotent env env' player_id save save' s s1 df
    (s' : State) rest :
  get_player_game_log env player_id save s = (Ok df, s1) →
  df ≠ pd_DataFrame →
  df_wf df →
  playergamelog_PlayerGameLog env' player_id (season (self s')) (season_type (self s'))
    = Ok (df :: rest) →
  save' = false ∨ (∀ p d, to_csv_error env' p d = None) →
  ∃ s'', get_player_game_log env' player_id save' s' = (Ok df, s'').
Proof.
  intros Hrun Hne Hwf Hapi Hsink.
  apply get_player_game_log_Ok in Hrun
    as [->|(raw & rest0 & dd & td & df3 & _ & Hraw & Hdd & Htd & H3 & H4)]; [done|].
  cbv zeta in Htd, H3.
  set (df1 := df_setitem_scalar "PLAYER_ID" (Int player_id) raw) in *.
  set (df2 := df_setitem "DOUBLE_DOUBLE" dd df1) in *.
  set (dfT := df_setitem "TRIPLE_DOUBLE" td df2) in *.
  assert (Hother : ∀ name, name ∉ ["FG_PCT"; "FG3_PCT"] →
                           df_getitem name df = df_getitem name dfT).
  { intros name Hn.
    rewrite (shooting_percentage_other _ _ _ _ _ _ H4)
      by (intros ->; apply Hn; repeat constructor).
    by rewrite (shooting_percentage_other _ _ _ _ _ _ H3)
      by (intros ->; apply Hn; repeat constructor). }
  assert (Hid : df_getitem "PLAYER_ID" df = Ok (replicate (df_len raw) (Int player_id))).
  { rewrite Hother by fresh_name. unfold dfT, df2, df1, df_setitem_scalar.
    by rewrite !df_getitem_setitem_ne, df_getitem_setitem_eq by done. }
  assert (Hgdd : df_getitem "DOUBLE_DOUBLE" df = Ok dd).
  { rewrite Hother by fresh_name. unfold dfT, df2.
    by rewrite df_getitem_setitem_ne, df_getitem_setitem_eq by done. }
  assert (Hgtd : df_getitem "TRIPLE_DOUBLE" df = Ok td).
  { rewrite Hother by fresh_name. unfold dfT. by rewrite df_getitem_setitem_eq. }
  assert (Hlen : df_len df = df_len raw).
  { rewrite <- (df_getitem_wf _ _ _ Hwf Hid). by rewrite length_replicate. }
  assert (Hcat : categories_at_least_10 df = categories_at_least_10 df1).
  { apply categories_ext. intros name Hname.
    assert (name ∉ ["PLAYER_ID"; "DOUBLE_DOUBLE"; "TRIPLE_DOUBLE"; "FG_PCT"; "FG3_PCT"])
      as Hfresh.
    { rewrite !elem_of_cons in Hname.
      destruct Hname as [->|[->|[->|[->|[->|H%elem_of_nil]]]]]; try done; fresh_name. }
    rewrite Hother
      by (intros Hin; apply Hfresh; revert Hin; rewrite !elem_of_cons; tauto).
    unfold dfT, df2.
    rewrite !df_getitem_setitem_ne; [done|..]; intros ->; apply Hfresh; repeat constructor. }
  assert (Hcat2 : categories_at_least_10 df2 = categories_at_least_10 df1).
  { unfold df2. apply categories_setitem. fresh_name. }
  assert (Hdd' : flag_column df 2 = Ok dd) by (unfold flag_column in *; by rewrite Hcat).
  assert (Htd' : flag_column df 3 = Ok td).
  { unfold flag_column in *. by rewrite Hcat, <- Hcat2. }
  assert (H3' : shooting_percentage "FG_PCT" "FGM" "FGA" df = Ok df).
  { apply (shooting_percentage_again _ _ _ _ _ _ H3). intros name Hname.
    apply (shooting_percentage_in_columns _ _ _ _ _ _ H4).
    rewrite !elem_of_cons in Hname.
    by destruct Hname as [->|[->|[->|H%elem_of_nil]]]. }
  assert (H4' : shooting_percentage "FG3_PCT" "FG3M" "FG3A" df = Ok df).
  { by apply (shooting_percentage_again _ _ _ _ _ _ H4). }
  assert (Hempty : df_empty df = false).
  { unfold df_empty in *. by rewrite Hlen. }
  assert (Hset : df_setitem_scalar "PLAYER_ID" (Int player_id) df = df).
  { unfold df_setitem_scalar. apply df_setitem_same. by rewrite Hlen. }
  unfold get_player_game_log, try_except_Exception.
  run. rewrite Hapi. run.
  change (list_getitem (df :: rest) 0) with (Ok df). cbv iota. rewrite Hempty.
  cbv beta iota zeta. rewrite Hset.
  rewrite (mbind_run _ _ _ _ _ (try_except_ask _ _ _ _ _)).
  run. rewrite Hdd'. run. rewrite (df_setitem_same _ _ _ Hgdd).
  rewrite Htd'. run. rewrite (df_setitem_same _ _ _ Hgtd).
  rewrite H3'. run. rewrite H4'. run.
  destruct Hsink as [->|Hcsv].
  - run. eexists. reflexivity.
  - destruct save'.
    + unfold to_csv. rewrite Hcsv. unfold modify_world. run.
      unfold mbind, M_bind. simpl. eexists. reflexivity.
    + run. eexists. reflexivity.
Qed.

Lemma normalisation_is_idempotent_witness :
  let df := returned pd_DataFrame
              (get_player_game_log (serving_player_log (Ok [two_games])) 7 true boot) in
  ∃ s'', get_player_game_log (serving_player_log (Ok [df])) 7 true boot = (Ok df, s'').
Proof.
  intros df.
  apply (normalisation_is_idempotent (serving_player_log (Ok [two_games]))
           (serving_player_log (Ok [df])) 7 true true boot _ df boot []
           (two_games_fetched true)).
  - done.
  - apply (bool_decide_unpack _). vm_compute. exact I.
  - reflexivity.
  - right. reflexivity.
Defined.

(** ** The sweep over all teams *)

Global Instance marks_LogBlind : LogBlind marks.
Proof. by intros r s. Qed.
Global Instance marks_FileBlind : FileBlind marks.
Proof. by intros p df s. Qed.

(** A request followed by statements that ask for nothing more. *)
Lemma marks_after_ask {A B} c (r : res A) (k : A → M State B) handler s :
  (∀ a, keeps (same marks) (k a)) →
  (∀ e, keeps (same marks) (handler e)) →
  marks (try_except_Exception (ask c r ≫= k) handler s).2 =
  (self s, clock (world s), calls (world s) ++ [c]).
Proof.
  intros Hk Hh.
  pose proof (keeps_try_except_Exception (same marks) (lift_res r ≫= k) handler
                ltac:(apply keeps_bind; [tc_solve|apply keeps_lift_res; tc_solve|done]) Hh
                (mkState (self s) (note_call c (world s)))) as H.
  unfold try_except_Exception in *. rewrite mbind_ask. rewrite mbind_lift_res in H.
  by destruct r.
Qed.

(** What a team fetch does to the object, the clock and the trace, whatever
    its outcome: the governor is passed, then the one request is made. *)
Lemma team_fetch_marks env team_id save s :
  let current_time := clock (advance 0 (world s)) in
  let elapsed := current_time - last_request_time (self s) in
  ∃ t,
    marks (get_team_game_log env team_id save s).2 =
      (stamped t (self s), t,
       calls (world s) ++
       (if bool_decide (elapsed < request_delay (self s))
        then [time_sleep_call (request_delay (self s) - elapsed)] else []) ++
       [TeamGameLog_call team_id (season (self s)) (season_type (self s))]) ∧
    last_request_time (self s) + request_delay (self s) ≤ t ∧
    clock (world s) ≤ t.
Proof.
  cbv zeta. unfold get_team_game_log. rewrite fetch_governor.
  match goal with
  | |- context [emit (LogRecord INFO ?msg) (world s)] =>
      destruct (rate_limit_stamps (mkState (self s) (emit (LogRecord INFO msg) (world s))))
        as (s2 & Hrl & Hself & Hle & Hclock & Hcalls & _)
  end.
  rewrite Hrl. cbn [snd]. simpl in Hself, Hle, Hclock, Hcalls.
  exists (clock (world s2)). split; [|done].
  rewrite marks_after_ask; [|intros; frame..].
  by rewrite Hself, Hcalls, <- app_assoc.
Qed.

Lemma only_BaseException_call_method {R A} (m : M State A) :
  lets_out_only_BaseException m →
  lets_out_only_BaseException (call_method m : M (State * R) A).
Proof.
  intros Hm [s r] e s'. unfold call_method. simpl.
  destruct (m s) as [[a|e1] s1] eqn:E; simpl; [done|].
  intros [= <- <-]. by eapply Hm.
Qed.

Lemma time_sleep_run {S} `{HasWorld S} d (s : S) :
  0 ≤ d →
  time_sleep d s =
  (Ok tt, set_world (advance d (note_call (time_sleep_call d) (get_world s))) s).
Proof. intros Hd. unfold time_sleep. by rewrite bool_decide_eq_false_2 by lia. Qed.

(** A turn that completes fetched the team's log, kept it if it was not
    empty, and slept a second; the loop's own handler never runs. *)
Lemma sweep_step_Ok env team (s : State) (r : gmap Z DataFrame) s1 r1 u :
  sweep_step env team (s, r) = (Ok u, (s1, r1)) →
  ∃ df s0,
    get_team_game_log env (t_id team) true (announced team s) = (Ok df, s0) ∧
    r1 = (if negb (df_empty df) then <[t_id team := df]> r else r) ∧
    s1 = mkState (self s0)
           (advance (seconds 1) (note_call (time_sleep_call (seconds 1)) (world s0))).
Proof.
  intros H. unfold logger_info, logger_error in H.
  rewrite mbind_logger in H by (simpl; lia).
  change (set_world _ (s, r)) with (announced team s, r) in H.
  apply try_except_Exception_Ok in H as [H | (e & s2 & Hb & He & _)].
  - apply mbind_Ok in H as (df & [s0 r0] & Hcall & H).
    unfold call_method in Hcall. simpl in Hcall.
    destruct (get_team_game_log env (t_id team) true (announced team s)) as [[df'|?] s0']
      eqn:Hfetch; [|discriminate].
    injection Hcall as -> -> ->.
    exists df, s0. split; [done|].
    apply mbind_Ok in H as ([] & [s3 r3] & Hif & H).
    rewrite time_sleep_run in H by (vm_compute; discriminate).
    injection H as <- <-.
    destruct (df_empty df); simpl in Hif; by injection Hif as <- <-.
  - exfalso.
    assert (isinstance_Exception e = false); [|congruence].
    revert Hb. apply only_BaseException_bind.
    + apply only_BaseException_call_method.
      apply only_BaseException_try_except_Exception. intros e'. apply returns_logger_then.
    + intros df. apply only_BaseException_returns. intros s'.
      unfold mbind, M_bind.
      destruct (df_empty df); simpl; rewrite time_sleep_run by (vm_compute; discriminate);
        eauto.
Qed.

(** The trace and the clock over one turn. *)
Lemma sweep_step_marks env team (s : State) (r : gmap Z DataFrame) s1 r1 u :
  sweep_step env team (s, r) = (Ok u, (s1, r1)) →
  let current_time := clock (advance 0 (world s)) in
  let elapsed := current_time - last_request_time (self s) in
  ∃ t,
    self s1 = stamped t (self s) ∧
    calls (world s1) = calls (world s) ++
      (if bool_decide (elapsed < request_delay (self s))
       then [time_sleep_call (request_delay (self s) - elapsed)] else []) ++
      [TeamGameLog_call (t_id team) (season (self s)) (season_type (self s));
       time_sleep_call (seconds 1)] ∧
    t + seconds 1 ≤ clock (world s1) ∧
    clock (world s) ≤ t.
Proof.
  intros H. destruct (sweep_step_Ok env team s r s1 r1 u H) as (df & s0 & Hfetch & _ & ->).
  pose proof (team_fetch_marks env (t_id team) true (announced team s)) as Hm.
  cbv zeta in Hm. rewrite Hfetch in Hm. cbn [snd] in Hm.
  destruct Hm as (t & Hm & _ & Hclock). unfold marks in Hm.
  injection Hm as Hself Ht Hcalls.
  exists t. simpl in *. rewrite Hself, Hcalls, Ht.
  repeat split; [by rewrite <- !app_assoc| |done].
  destruct (drift (world s0)); lia.
Qed.

Lemma sweep_step_returns env team :
  OnlyExceptions env →
  returns (sweep_step env team : M (State * gmap Z DataFrame) unit).
Proof.
  intros Henv [s r]. unfold logger_info.
  rewrite mbind_logger by (simpl; lia).
  change (set_world _ (s, r)) with (announced team s, r).
  destruct (get_team_game_log_returns env (t_id team) true Henv (announced team s))
    as (df & s0 & Hfetch).
  unfold try_except_Exception, mbind, M_bind, call_method. cbn [fst snd].
  rewrite Hfetch. cbn [fst snd].
  destruct (df_empty df); cbn [negb]; unfold modify_local, mret, M_ret; cbn [fst snd];
    rewrite time_sleep_run by (vm_compute; discriminate); eauto.
Qed.

Lemma for_each_returns {S A} (l : list A) (body : A → M S unit) :
  (∀ x, returns (body x)) → returns (for_each l body).
Proof.
  intros Hb. induction l as [|x l IH]; intros s; simpl; [by eexists _, _|].
  destruct (Hb x s) as ([] & s1 & Hx). rewrite (mbind_run _ _ _ _ _ Hx). apply IH.
Qed.

Lemma df_empty_team_frame team_id raw :
  df_empty raw = false → df_empty (team_frame team_id raw) = false.
Proof.
  unfold team_frame, df_setitem_scalar, df_empty. destruct raw as [|[n c] raw]; [done|].
  simpl. destruct (String.eqb n "TEAM_ID"); simpl; by rewrite ?length_replicate.
Qed.

(** Every entry of the dictionary was put there by a turn of the loop. *)
Lemma sweep_loop_entries env l (s : State) (r : gmap Z DataFrame) s' r' u :
  for_each l (sweep_step env) (s, r) = (Ok u, (s', r')) →
  ∀ k df, r' !! k = Some df →
    r !! k = Some df ∨
    (∃ team, team ∈ l ∧ t_id team = k) ∧ df_empty df = false ∧
    ∃ raw rest,
      teamgamelog_TeamGameLog env k (season (self s)) (season_type (self s))
        = Ok (raw :: rest) ∧
      df = team_frame k raw.
Proof.
  revert s r u. induction l as [|x l IH]; intros s r u H k df Hk.
  - injection H as _ _ <-. by left.
  - cbn [for_each] in H. apply mbind_Ok in H as (u1 & [s1 r1] & Hstep & H).
    destruct (sweep_step_Ok env x s r s1 r1 u1 Hstep) as (df0 & s0 & Hfetch & Hr & Hs).
    destruct (governed_get_team_game_log env (t_id x) true (announced x s))
      as (t & _ & Hself).
    rewrite Hfetch in Hself. cbn [snd] in Hself.
    destruct (IH s1 r1 u H k df Hk) as [Hr1 | ((team & Hteam & Hid) & He & Hraw)].
    + rewrite Hr in Hr1.
      destruct (df_empty df0) eqn:Hempty; [by left|]. cbn [negb] in Hr1.
      destruct (decide (t_id x = k)) as [<- | Hne].
      * rewrite lookup_insert_eq in Hr1. injection Hr1 as ->.
        right. split; [exists x; split; [left|done]|]. split; [done|].
        destruct (get_team_game_log_Ok _ _ _ _ _ _ Hfetch)
          as [-> | (raw & rest & Hapi & _ & ->)]; [done|].
        by exists raw, rest.
      * rewrite lookup_insert_ne in Hr1 by done. by left.
    + right. split; [exists team; split; [by right|done]|]. split; [done|].
      rewrite Hs in Hraw. simpl in Hraw. by rewrite Hself in Hraw.
Qed.

(** With a file sink that works, a team whose response is not empty has
    its frame in the dictionary. *)
Lemma sweep_loop_holds env l (s : State) (r : gmap Z DataFrame) s' r' u k raw rest :
  (∀ p d, to_csv_error env p d = None) →
  teamgamelog_TeamGameLog env k (season (self s)) (season_type (self s)) = Ok (raw :: rest) →
  df_empty raw = false →
  for_each l (sweep_step env) (s, r) = (Ok u, (s', r')) →
  r !! k = Some (team_frame k raw) ∨ (∃ team, team ∈ l ∧ t_id team = k) →
  r' !! k = Some (team_frame k raw).
Proof.
  intros Hsink Hapi Hraw. revert s r u Hapi.
  induction l as [|x l IH]; intros s r u Hapi H Hk.
  - injection H as _ _ <-. destruct Hk as [Hk | (team & Hteam & _)]; [done|].
    by apply elem_of_nil in Hteam.
  - cbn [for_each] in H. apply mbind_Ok in H as (u1 & [s1 r1] & Hstep & H).
    destruct (sweep_step_Ok env x s r s1 r1 u1 Hstep) as (df0 & s0 & Hfetch & Hr & Hs).
    destruct (governed_get_team_game_log env (t_id x) true (announced x s))
      as (t & _ & Hself).
    rewrite Hfetch in Hself. cbn [snd] in Hself.
    apply (IH s1 r1 u); [rewrite Hs; simpl; by rewrite Hself|done|].
    rewrite Hr.
    destruct (decide (t_id x = k)) as [<- | Hne].
    + left.
      destruct (get_team_game_log_run env (t_id x) true (announced x s) raw rest
                  Hapi Hraw ltac:(by right)) as (s0' & Hrun).
      rewrite Hrun in Hfetch. injection Hfetch as <- _.
      fold (team_frame (t_id x) raw). rewrite df_empty_team_frame by done. cbn [negb]. by rewrite lookup_insert_eq.
    + destruct Hk as [Hk | (team & Hteam & Hid)].
      * left. destruct (df_empty df0); cbn [negb]; [done|].
        by rewrite lookup_insert_ne.
      * right. exists team. split; [|done].
        apply elem_of_cons in Hteam as [-> | Hteam]; done.
Qed.

(** X15. The sweep over all teams returns whenever the collaborators raise
    nothing but exceptions.  Every entry of the dictionary it returns
    belongs to a team of the object's table and is the non-empty frame the
    team fetch makes of that team's response; and with a file sink that
    works, every team of the table whose response is not empty has its
    entry.  The argument [days_back] plays no part. *)
Theorem sweep_collects_the_non_empty_logs env days_back s :
  (OnlyExceptions env →
   ∃ result s', get_recent_games_for_all_teams env days_back s = (Ok result, s')) ∧
  ∀ result s',
    get_recent_games_for_all_teams env days_back s = (Ok result, s') →
    (∀ team_id df, result !! team_id = Some df →
       (∃ team, team ∈ teams_data (self s) ∧ t_id team = team_id) ∧
       df_empty df = false ∧
       ∃ raw rest,
         teamgamelog_TeamGameLog env team_id (season (self s)) (season_type (self s))
           = Ok (raw :: rest) ∧
         df = team_frame team_id raw) ∧
    ((∀ p d, to_csv_error env p d = None) →
     ∀ team raw rest,
       team ∈ teams_data (self s) →
       teamgamelog_TeamGameLog env (t_id team) (season (self s)) (season_type (self s))
         = Ok (raw :: rest) →
       df_empty raw = false →
       result !! t_id team = Some (team_frame (t_id team) raw)).
Proof.
  unfold get_recent_games_for_all_teams. rewrite mbind_get_self. unfold return_local.
  split.
  - intros Henv.
    destruct (for_each_returns (teams_data (self s)) (sweep_step env)
                (λ team, sweep_step_returns env team Henv) (s, ∅)) as ([] & [s' r'] & Hloop).
    exists r', s'. cbv zeta. by rewrite Hloop.
  - intros result s' Hrun. cbv zeta in Hrun.
    destruct (for_each (teams_data (self s)) _ (s, ∅)) as [[u|e] [s1 r1]] eqn:Hloop;
      [|discriminate].
    simpl in Hrun. injection Hrun as <- <-. split.
    + intros team_id df Hk.
      destruct (sweep_loop_entries env _ _ _ _ _ _ Hloop team_id df Hk) as [Hk0|H]; [|done].
      by rewrite lookup_empty in Hk0.
    + intros Hsink team raw rest Hteam Hapi Hraw.
      apply (sweep_loop_holds env _ _ _ _ _ _ _ raw rest Hsink Hapi Hraw Hloop).
      right. by exists team.
Qed.

Lemma league_swept :
  let run := get_recent_games_for_all_teams (serving_league (Ok [team_games])) 30
               (league_boot (Ok [team_games])) in
  run = (Ok (returned ∅ run), run.2).
Proof. vm_compute. reflexivity. Defined.

Lemma sweep_collects_the_non_empty_logs_witness :
  let run := get_recent_games_for_all_teams (serving_league (Ok [team_games])) 30
               (league_boot (Ok [team_games])) in
  returned ∅ run !! 1610612738 =
  Some (team_games ++ [("TEAM_ID", [Int 1610612738; Int 1610612738])]).
Proof.
  exact (proj2 (proj2 (sweep_collects_the_non_empty_logs
                         (serving_league (Ok [team_games])) 30
                         (league_boot (Ok [team_games]))) _ _ league_swept)
           (λ _ _, eq_refl) (mkTeam 1610612738 "Boston Celtics" "BOS" "Celtics")
           team_games [] ltac:(apply (bool_decide_unpack _); vm_compute; exact I)
           eq_refl eq_refl).
Defined.

(** Once rested (the minimum interval has run out) the sweep stays rested
    from turn to turn: the governor has nothing to add to the loop's own
    second of sleep. *)
Lemma sweep_loop_marks env l (s : State) (r : gmap Z DataFrame) s' r' u :
  for_each l (sweep_step env) (s, r) = (Ok u, (s', r')) →
  request_delay (self s) ≤ seconds 1 →
  last_request_time (self s) + request_delay (self s) ≤ clock (world s) →
  calls (world s') = calls (world s) ++
    flat_map (λ t, [TeamGameLog_call (t_id t) (season (self s)) (season_type (self s));
                    time_sleep_call (seconds 1)]) l ∧
  clock (world s) + seconds (Z.of_nat (length l)) ≤ clock (world s').
Proof.
  revert s r u. induction l as [|x l IH]; intros s r u H Hdelay Hrested.
  - injection H as _ <- _. simpl. rewrite app_nil_r. split; [done|]. unfold seconds. lia.
  - cbn [for_each] in H. apply mbind_Ok in H as (u1 & [s1 r1] & Hstep & H).
    destruct (sweep_step_marks env x s r s1 r1 u1 Hstep) as (t & Hself & Hcalls & Ht & Hs).
    rewrite bool_decide_eq_false_2 in Hcalls; last first.
    { simpl. destruct (drift (world s)); lia. }
    destruct (IH s1 r1 u H) as [Hcalls' Hclock'].
    { by rewrite Hself. }
    { rewrite Hself. simpl. lia. }
    rewrite Hcalls', Hcalls, Hself. simpl. rewrite <- !app_assoc. split; [done|].
    unfold seconds in *. lia.
Qed.

(** X16. A sweep that returns has made exactly one game-log request per
    team, in the table's order, each followed by the loop's own sleep of
    one second; when the minimum interval is at most a second the governor
    asks for a sleep before the first request at most, never later; and
    the clock has moved on by a second per team at least. *)
Theorem sweep_makes_one_request_per_team env days_back s result s' :
  get_recent_games_for_all_teams env days_back s = (Ok result, s') →
  request_delay (self s) ≤ seconds 1 →
  ∃ governor,
    (governor = [] ∨ ∃ d, governor = [time_sleep_call d]) ∧
    calls (world s') = calls (world s) ++ governor ++
      flat_map (λ t, [TeamGameLog_call (t_id t) (season (self s)) (season_type (self s));
                      time_sleep_call (seconds 1)]) (teams_data (self s)) ∧
    clock (world s) + seconds (Z.of_nat (length (teams_data (self s)))) ≤ clock (world s').
Proof.
  unfold get_recent_games_for_all_teams. rewrite mbind_get_self. unfold return_local.
  intros Hrun Hdelay. cbv zeta in Hrun.
  destruct (for_each (teams_data (self s)) _ (s, ∅)) as [[u|e] [s1 r1]] eqn:Hloop;
    [|discriminate].
  simpl in Hrun. injection Hrun as _ <-.
  destruct (teams_data (self s)) as [|x l].
  - injection Hloop as _ <- _. exists []. simpl. rewrite app_nil_r.
    split; [by left|]. split; [done|]. unfold seconds. lia.
  - cbn [for_each] in Hloop. apply mbind_Ok in Hloop as (u1 & [s2 r2] & Hstep & Hloop).
    destruct (sweep_step_marks env x s ∅ s2 r2 u1 Hstep) as (t & Hself & Hcalls & Ht & Hs).
    destruct (sweep_loop_marks env l s2 r2 s1 r1 u Hloop) as [Hcalls' Hclock'].
    { by rewrite Hself. }
    { rewrite Hself. simpl. lia. }
    match type of Hcalls with _ = _ ++ ?g ++ _ => exists g end.
    split; [case_bool_decide; eauto|]. split.
    + rewrite Hcalls', Hcalls, Hself. simpl. by rewrite <- !app_assoc.
    + unfold seconds in *. simpl length. lia.
Qed.

Lemma sweep_makes_one_request_per_team_witness :
  let run := get_recent_games_for_all_teams (serving_league (Ok [team_games])) 30
               (league_boot (Ok [team_games])) in
  ∃ governor,
    calls (world run.2) =
    [teams_get_teams_call] ++ governor ++
    [TeamGameLog_call 1610612747 "2024-25" "Regular Season"; time_sleep_call 1000000;
     TeamGameLog_call 1610612738 "2024-25" "Regular Season"; time_sleep_call 1000000;
     TeamGameLog_call 1610612746 "2024-25" "Regular Season"; time_sleep_call 1000000].
Proof.
  destruct (sweep_makes_one_request_per_team (serving_league (Ok [team_games])) 30
              (league_boot (Ok [team_games])) _ _ league_swept ltac:(vm_compute; discriminate))
    as (governor & _ & Hcalls & _).
  exists governor. exact Hcalls.
Defined.

(** X17. All-or-nothing holds for the value returned, not for the disk:
    when the player table is written and writing the team table fails, the
    box-score fetch returns the empty box score and the player file stays
    on disk. *)
Theorem box_score_half_saved env game_id s ps ts e :
  boxscoretraditionalv2_BoxScoreTraditionalV2 env game_id = Ok (ps, ts) →
  df_empty ps = false → df_empty ts = false →
  let player_file_path :=
    boxscore_data_dir (self s) ++ ["game_" +:+ game_id +:+ "_player_stats.csv"] in
  let team_file_path :=
    boxscore_data_dir (self s) ++ ["game_" +:+ game_id +:+ "_team_stats.csv"] in
  to_csv_error env player_file_path ps = None →
  to_csv_error env team_file_path ts = Some e →
  isinstance_Exception e = true →
  ∃ s', get_box_score env game_id true s = (Ok (mkBoxScore pd_DataFrame pd_DataFrame), s') ∧
        files (world s') = <[player_file_path := ps]> (files (world s)).
Proof.
  intros Hapi Hp Ht pf tf Hpf Htf He. unfold get_box_score.
  rewrite (fetch_governor (λ _, [Lit "Fetching box score for game ID "; FStr game_id])).
  destruct (fetch_start [Lit "Fetching box score for game ID "; FStr game_id] s)
    as (s2 & Hrl & Hfiles).
  rewrite Hrl. cbn [snd]. unfold try_except_Exception.
  rewrite mbind_ask, Hapi. cbv beta iota zeta delta [fst snd]. rewrite Hp, Ht.
  simpl orb. cbv iota. unfold os_path_join.
  fold pf tf. unfold to_csv. rewrite Hpf, Htf.
  unfold modify_world, raise, mbind, M_bind. simpl. rewrite He.
  unfold logger_error, logger_log. simpl.
  eexists. split; [reflexivity|]. simpl. by rewrite Hfiles.
Qed.

Lemma box_score_half_saved_witness :
  let run := get_box_score (serving_box_score_half (Ok (players_close, two_teams)))
               "0022400001" true boot in
  run.1 = Ok (mkBoxScore pd_DataFrame pd_DataFrame) ∧
  files (world run.2) =
  <[["nba_data"; "boxscores"; "game_0022400001_player_stats.csv"] := players_close]> ∅.
Proof.
  destruct (box_score_half_saved (serving_box_score_half (Ok (players_close, two_teams)))
              "0022400001" boot players_close two_teams
              (OtherException "OSError" "[Errno 28] No space left on device")
              eq_refl eq_refl eq_refl eq_refl eq_refl eq_refl) as (s' & Hrun & Hfiles).
  intros run. unfold run. rewrite Hrun. split; [reflexivity | exact Hfiles].
Defined.

(** X18. A non-empty frame returned by a player fetch comes from a
    non-empty response: its PLAYER_ID column holds the requested ID in
    every row, every column of the response other than PLAYER_ID, the two
    flags and the two percentages is the raw one, and no column of the
    response is dropped. *)
Theorem player_fetch_keeps_the_raw_columns env player_id save s df s' :
  get_player_game_log env player_id save s = (Ok df, s') →
  df ≠ pd_DataFrame →
  ∃ raw rest,
    playergamelog_PlayerGameLog env player_id (season (self s)) (season_type (self s))
      = Ok (raw :: rest) ∧
    df_empty raw = false ∧
    df_getitem "PLAYER_ID" df = Ok (replicate (df_len raw) (Int player_id)) ∧
    (∀ name,
       name ∉ ["PLAYER_ID"; "DOUBLE_DOUBLE"; "TRIPLE_DOUBLE"; "FG_PCT"; "FG3_PCT"] →
       df_getitem name df = df_getitem name raw) ∧
    (∀ name, in_columns name raw = true → in_columns name df = true).
Proof.
  intros Hrun Hne.
  apply get_player_game_log_Ok in Hrun
    as [->|(raw & rest0 & dd & td & df3 & Hapi & Hraw & Hdd & Htd & H3 & H4)]; [done|].
  cbv zeta in Htd, H3.
  exists raw, rest0. split; [done|]. split; [done|].
  assert (Hother : ∀ name, name ∉ ["FG_PCT"; "FG3_PCT"] →
            df_getitem name df =
            df_getitem name
              (df_setitem "TRIPLE_DOUBLE" td
                 (df_setitem "DOUBLE_DOUBLE" dd
                    (df_setitem_scalar "PLAYER_ID" (Int player_id) raw)))).
  { intros name Hn.
    rewrite (shooting_percentage_other _ _ _ _ _ _ H4)
      by (intros ->; apply Hn; repeat constructor).
    by rewrite (shooting_percentage_other _ _ _ _ _ _ H3)
      by (intros ->; apply Hn; repeat constructor). }
  split; [|split].
  - rewrite Hother by fresh_name. unfold df_setitem_scalar.
    by rewrite !df_getitem_setitem_ne, df_getitem_setitem_eq by done.
  - intros name Hname.
    rewrite Hother by (intros Hin; apply Hname; revert Hin; rewrite !elem_of_cons; tauto).
    apply flagged_getitem.
    intros Hin; apply Hname; revert Hin; rewrite !elem_of_cons; tauto.
  - intros name Hin.
    assert (∀ pct made att d d', shooting_percentage pct made att d = Ok d' →
              in_columns name d = true → in_columns name d' = true) as Hstep.
    { intros pct made att d d' Hs Hd.
      apply shooting_percentage_Ok in Hs as [[_ ->] | (_ & m & a & q & _ & _ & _ & ->)];
        [done|].
      by rewrite in_columns_setitem, Hd. }
    apply (Hstep _ _ _ _ _ H4), (Hstep _ _ _ _ _ H3).
    unfold df_setitem_scalar. by rewrite !in_columns_setitem, Hin.
Qed.

Lemma player_fetch_keeps_the_raw_columns_witness :
  let df := returned pd_DataFrame
              (get_player_game_log (serving_player_log (Ok [two_games])) 7 true boot) in
  df_getitem "PLAYER_ID" df = Ok [Int 7; Int 7] ∧
  df_getitem "Game_ID" df = df_getitem "Game_ID" two_games.
Proof.
  intros df.
  destruct (player_fetch_keeps_the_raw_columns (serving_player_log (Ok [two_games])) 7 true
              boot df _ (two_games_fetched true) ltac:(done))
    as (raw & rest & Hapi & _ & Hid & Hother & _).
  injection Hapi as <- <-. split; [exact Hid|].
  apply Hother. fresh_name.
Defined.

Lemma filter_id_absent (l : list Team) (k : Z) :
  k ∉ t_id <$> l → filter (λ t, t_id t = k) l = [].
Proof.
  induction l as [|x l IH]; [done|].
  rewrite fmap_cons, not_elem_of_cons. intros [Hne Hk].
  rewrite filter_cons, decide_False by done. by apply IH.
Qed.

Lemma last_filter_NoDup (l : list Team) team :
  NoDup (t_id <$> l) → team ∈ l →
  last (filter (λ t, t_id t = t_id team) l) = Some team.
Proof.
  induction l as [|x l IH]; intros Hnd Hin; [by apply elem_of_nil in Hin|].
  rewrite fmap_cons in Hnd. apply NoDup_cons in Hnd as [Hx Hnd].
  rewrite filter_cons. apply elem_of_cons in Hin as [-> | Hin].
  - rewrite decide_True by done. by rewrite filter_id_absent.
  - rewrite decide_False.
    + by apply IH.
    + intros Heq. apply Hx. rewrite Heq. by apply list_elem_of_fmap_2.
Qed.

(** X19. On an object built by the constructor from a team table without
    repeated IDs, the log of a team of the table is saved as
    nba_data/teams/<the team's abbreviation>_games.csv. *)
Theorem constructed_object_names_the_team_file env season season_type w o w' env' s team df s' :
  __init__ env season season_type w = (Ok o, w') →
  NoDup (t_id <$> teams_data o) →
  team ∈ teams_data o →
  team_id_to_abbr (self s) = team_id_to_abbr o →
  team_data_dir (self s) = team_data_dir o →
  get_team_game_log env' (t_id team) true s = (Ok df, s') →
  df ≠ pd_DataFrame →
  files (world s') =
    <[["nba_data"; "teams"; t_abbreviation team +:+ "_games.csv"] := df]> (files (world s)).
Proof.
  intros Hinit Hnd Hteam Habbr Hdir Hrun Hne.
  rewrite (saved_team_log_file env' (t_id team) true s df s' Hrun Hne).
  rewrite Habbr, Hdir.
  unfold __init__ in Hinit.
  apply mbind_Ok in Hinit as (? & w1 & _ & Hinit).
  apply mbind_Ok in Hinit as (td & w2 & _ & Hinit).
  apply mbind_Ok in Hinit as (t & w3 & _ & Hinit).
  injection Hinit as <- _. simpl in *.
  by rewrite abbreviation_table_lookup, (last_filter_NoDup _ _ Hnd Hteam).
Qed.

Lemma constructed_object_names_the_team_file_witness :
  let run := get_team_game_log (serving_league (Ok [team_games])) 1610612738 true
               (league_boot (Ok [team_games])) in
  files (world run.2) =
  <[["nba_data"; "teams"; "BOS_games.csv"] := returned pd_DataFrame run]> ∅.
Proof.
  exact (constructed_object_names_the_team_file (serving_league (Ok [team_games]))
           "2024-25" SeasonType_regular empty_disk _ _ (serving_league (Ok [team_games]))
           (league_boot (Ok [team_games]))
           (mkTeam 1610612738 "Boston Celtics" "BOS" "Celtics") _ _
           (league_is_constructed (Ok [team_games]))
           ltac:(apply (bool_decide_unpack _); vm_compute; exact I)
           ltac:(apply (bool_decide_unpack _); vm_compute; exact I)
           eq_refl eq_refl league_team_fetched ltac:(done)).
Defined.

(** ** The sweep and the disk *)

Lemma keeps_weaken {S A} (R1 R2 : relation S) (m : M S A) :
  (∀ s s', R1 s s' → R2 s s') → keeps R1 m → keeps R2 m.
Proof. intros HR Hm s. apply HR, Hm. Qed.

Lemma mbind_Raise {S A B} (m : M S A) (k : A → M S B) s e s' :
  (m ≫= k) s = (Raise e, s') →
  m s = (Raise e, s') ∨ ∃ a s1, m s = (Ok a, s1) ∧ k a s1 = (Raise e, s').
Proof.
  unfold mbind, M_bind. destruct (m s) as [[a|e0] s1]; [by eauto|].
  intros [= -> ->]. by left.
Qed.

Lemma df_empty_nil df : df_empty df = false → df ≠ pd_DataFrame.
Proof. by intros H ->. Qed.

(** A team fetch that returns an empty frame has written nothing. *)
Lemma empty_team_log_files env team_id save s df s' :
  get_team_game_log env team_id save s = (Ok df, s') →
  df_empty df = true → files (world s') = files (world s).
Proof.
  intros Hrun Hdf. unfold get_team_game_log in Hrun.
  rewrite fetch_governor in Hrun.
  match type of Hrun with
  | context [emit (LogRecord INFO ?msg) (world s)] =>
      destruct (fetch_start msg s) as (s2 & Hrl & Hfiles)
  end.
  rewrite Hrl in Hrun. cbn [snd] in Hrun. rewrite <- Hfiles. clear Hrl Hfiles.
  assert (Hask : ∀ {A} c (r : res A) x s3, ask c r s2 = (x, s3) →
                 files (world s3) = files (world s2)).
  { intros A c r x s3 H. pose proof (keeps_ask files_on_disk c r s2) as Hk.
    by rewrite H in Hk. }
  apply try_except_Exception_Ok in Hrun as [Hrun | (e & s1 & Hbody & _ & Hh)].
  - apply mbind_Ok in Hrun as (frames & s3 & Hfr & Hrun). apply Hask in Hfr.
    apply mbind_Ok in Hrun as (raw & s4 & Hget & Hrun). apply lift_res_Ok in Hget as [_ ->].
    destruct (df_empty raw) eqn:Hraw.
    + apply mbind_Ok in Hrun as ([] & s5 & Hlog & Hrun).
      apply logger_log_Ok in Hlog as ->; [|simpl; lia]. by injection Hrun as _ <-.
    + cbv zeta in Hrun.
      apply mbind_Ok in Hrun as ([] & s10 & _ & Hrun).
      apply mbind_Ok in Hrun as ([] & s12 & _ & Hrun).
      injection Hrun as <- _.
      pose proof (df_empty_team_frame team_id raw Hraw) as Hne.
      unfold team_frame in Hne. congruence.
  - apply mbind_Ok in Hh as ([] & s5 & Hlog & Hh).
    apply logger_log_Ok in Hlog as ->; [|simpl; lia]. injection Hh as _ <-.
    cbn [get_world set_world State_HasWorld world emit files].
    apply mbind_Raise in Hbody as [Hfr | (frames & s3 & Hfr & Hbody)];
      [by apply Hask in Hfr|]. apply Hask in Hfr. rewrite <- Hfr.
    apply mbind_Raise in Hbody as [Hget | (raw & s4 & Hget & Hbody)].
    { unfold lift_res in Hget. destruct (list_getitem frames 0); [discriminate|].
      by injection Hget as _ <-. }
    apply lift_res_Ok in Hget as [_ ->].
    destruct (df_empty raw).
    + apply mbind_Raise in Hbody as [Hlog | ([] & s6 & _ & Hret)]; [|discriminate].
      unfold logger_warning in Hlog. by rewrite logger_log_run in Hlog by (simpl; lia).
    + cbv zeta in Hbody.
      apply mbind_Raise in Hbody as [Hsave | ([] & s6 & _ & Hrest)].
      * destruct save; [|discriminate].
        apply mbind_Raise in Hsave as [Hcsv | ([] & s6 & _ & Hlog)].
        -- unfold to_csv in Hcsv. destruct (to_csv_error env _ _); [|discriminate].
           by injection Hcsv as _ <-.
        -- unfold logger_info in Hlog.
           by rewrite logger_log_run in Hlog by (simpl; lia).
      * apply mbind_Raise in Hrest as [Hlog | ([] & s7 & _ & Hret)]; [|discriminate].
        unfold logger_info in Hlog. by rewrite logger_log_run in Hlog by (simpl; lia).
Qed.

Lemma sweep_loop_files env (table l : list Team) (s : State) (r : gmap Z DataFrame)
    s' r' u :
  for_each l (sweep_step env) (s, r) = (Ok u, (s', r')) →
  (∀ t1 t2, t1 ∈ table → t2 ∈ table →
     team_file_path (self s) (t_id t1) = team_file_path (self s) (t_id t2) →
     t_id t1 = t_id t2) →
  l ⊆ table →
  (∀ k, is_Some (r !! k) → k ∈ t_id <$> table) →
  (∀ k df, r !! k = Some df → files (world s) !! team_file_path (self s) k = Some df) →
  (∀ k df, r' !! k = Some df → files (world s') !! team_file_path (self s) k = Some df) ∧
  (∀ p, p ∉ team_files (self s) l → files (world s') !! p = files (world s) !! p).
Proof.
  revert s r u. induction l as [|x l IH]; intros s r u H Hinj Hsub Hkeys Hr0.
  - injection H as _ <- <-. done.
  - cbn [for_each] in H. apply mbind_Ok in H as (u1 & [s1 r1] & Hstep & H).
    destruct (sweep_step_Ok env x s r s1 r1 u1 Hstep) as (df0 & s0 & Hfetch & Hr & Hs).
    destruct (governed_get_team_game_log env (t_id x) true (announced x s))
      as (t & _ & Hself).
    rewrite Hfetch in Hself. cbn [snd] in Hself.
    assert (team_file_path (self s1) = team_file_path (self s)) as Hpath.
    { by rewrite Hs; simpl; rewrite Hself. }
    assert (Hx : x ∈ table) by (apply Hsub; left).
    assert (Hfiles1 : files (world s1) =
                      if df_empty df0 then files (world s)
                      else <[team_file_path (self s) (t_id x) := df0]> (files (world s))).
    { rewrite Hs. change (files (world (mkState (self s0) _))) with (files (world s0)).
      destruct (df_empty df0) eqn:Hempty.
      - by rewrite (empty_team_log_files env (t_id x) true (announced x s) df0 s0 Hfetch).
      - rewrite (saved_team_log_file env (t_id x) true (announced x s) df0 s0 Hfetch
                   (df_empty_nil _ Hempty)).
        unfold team_file_path, os_path_join. simpl.
        by destruct (team_id_to_abbr (self s) !! t_id x). }
    destruct (IH s1 r1 u H) as [Hin Hout].
    + by rewrite Hpath.
    + intros t0 Ht0. apply Hsub. by right.
    + intros k. rewrite Hr. destruct (df_empty df0); cbn [negb]; [apply Hkeys|].
      destruct (decide (t_id x = k)) as [<- | Hne].
      * intros _. by apply list_elem_of_fmap_2.
      * rewrite lookup_insert_ne by done. apply Hkeys.
    + intros k df. rewrite Hr, Hpath, Hfiles1.
      destruct (df_empty df0); cbn [negb]; [apply Hr0|].
      destruct (decide (t_id x = k)) as [<- | Hne].
      * rewrite !lookup_insert_eq. done.
      * rewrite lookup_insert_ne by done. intros Hk.
        rewrite lookup_insert_ne; [by apply Hr0|].
        assert (Hk' : k ∈ t_id <$> table) by (apply Hkeys; eauto).
        apply list_elem_of_fmap in Hk' as (tk & -> & Htk).
        intros Heq. apply Hne. by apply Hinj.
    + split.
      * intros k df Hk. rewrite <- Hpath. by apply Hin.
      * intros p Hp. unfold team_files in Hp. rewrite fmap_cons, not_elem_of_cons in Hp.
        destruct Hp as [Hpx Hpl]. rewrite Hout by (by unfold team_files; rewrite Hpath).
        rewrite Hfiles1. destruct (df_empty df0); [done|].
        by rewrite lookup_insert_ne.
Qed.


Lemma league_files_distinct r t1 t2 :
  t1 ∈ teams_data (self (league_boot r)) → t2 ∈ teams_data (self (league_boot r)) →
  team_file_path (self (league_boot r)) (t_id t1) =
    team_file_path (self (league_boot r)) (t_id t2) →
  t_id t1 = t_id t2.
Proof.
  assert (E : teams_data (self (league_boot r)) = league) by (by vm_compute).
  rewrite E. unfold league. rewrite !elem_of_cons, !elem_of_nil.
  intros [->|[->|[->|[]]]] [->|[->|[->|[]]]] Heq;
    first [reflexivity | by vm_compute in Heq].
Defined.


(** ** A check that cannot be made *)

(** X21. A check that cannot be made fails: when the box-score request
    raises an exception the spot check returns False, as it does for totals
    that disagree, once the fetch has logged the exception as an ERROR and
    the check a WARNING that no data is available. *)
Theorem spot_check_of_a_failed_fetch env game_id s e :
  boxscoretraditionalv2_BoxScoreTraditionalV2 env game_id = Raise e →
  isinstance_Exception e = true →
  ∃ s', spot_check_game env game_id s = (Ok false, s') ∧
        records (world s') = records (world s) ++
          [LogRecord INFO [Lit "Performing spot check on game ID "; FStr game_id];
           LogRecord INFO [Lit "Fetching box score for game ID "; FStr game_id];
           LogRecord ERROR [Lit "Error fetching box score for game ID "; FStr game_id;
                            Lit ": "; FExc e];
           LogRecord WARNING [Lit "No data available for spot check on game ID ";
                              FStr game_id]].
Proof.
  intros Hapi He. unfold spot_check_game, try_except_Exception, logger_info.
  rewrite mbind_logger by (simpl; lia).
  set (s0 := set_world _ s).
  assert (∃ s1, get_box_score env game_id false s0
                = (Ok (mkBoxScore pd_DataFrame pd_DataFrame), s1) ∧
                records (world s1) = records (world s0) ++
                  [LogRecord INFO [Lit "Fetching box score for game ID "; FStr game_id];
                   LogRecord ERROR [Lit "Error fetching box score for game ID ";
                                    FStr game_id; Lit ": "; FExc e]])
    as (s1 & Hbs & Hrec).
  { unfold get_box_score.
    rewrite (fetch_governor (λ _, [Lit "Fetching box score for game ID "; FStr game_id])).
    destruct (rate_limit_stamps
                (mkState (self s0)
                   (emit (LogRecord INFO [Lit "Fetching box score for game ID "; FStr game_id])
                      (world s0)))) as (s2 & Hrl & _ & _ & _ & _ & Hrec2 & _).
    rewrite Hrl. cbn [snd]. unfold try_except_Exception.
    rewrite mbind_ask, Hapi, He. unfold logger_error.
    rewrite mbind_logger by (simpl; lia).
    eexists. split; [reflexivity|]. simpl. rewrite Hrec2. simpl.
    by rewrite <- app_assoc. }
  rewrite (mbind_run _ _ _ _ _ Hbs). cbn [player_stats team_stats].
  change (df_empty pd_DataFrame) with true. cbn [negb andb].
  unfold logger_warning. rewrite mbind_logger by (simpl; lia).
  eexists. split; [reflexivity|]. simpl. rewrite Hrec. unfold s0. simpl.
  by rewrite <- !app_assoc.
Qed.

Lemma spot_check_of_a_failed_fetch_witness :
  (spot_check_game (serving_box_score (Raise ConnectionError)) "0022400001" boot).1 = Ok false.
Proof.
  destruct (spot_check_of_a_failed_fetch (serving_box_score (Raise ConnectionError))
              "0022400001" boot ConnectionError eq_refl eq_refl) as (s' & Hrun & _).
  by rewrite Hrun.
Defined.

(** ** The first fetch of an object *)

Global Instance asks_more_PreOrder : PreOrder asks_more.
Proof.
  split.
  - intros s. exists []. by rewrite app_nil_r.
  - intros s1 s2 s3 [m1 H1] [m2 H2]. exists (m1 ++ m2). by rewrite H2, H1, app_assoc.
Qed.

Global Instance calls_made_LogBlind : LogBlind calls_made.
Proof. by intros r s. Qed.
Global Instance calls_made_FileBlind : FileBlind calls_made.
Proof. by intros p df s. Qed.

Lemma same_calls_asks_more s s' : same calls_made s s' → asks_more s s'.
Proof. intros H. exists []. unfold same, calls_made in H. by rewrite H, app_nil_r. Qed.

Lemma keeps_asks_more_ask {A} c (r : res A) : keeps asks_more (ask c r).
Proof. intros s. rewrite ask_run. by exists [c]. Qed.

Ltac ask_step :=
  lazymatch goal with
  | |- keeps _ (mbind _ _) => apply keeps_bind; [tc_solve| |intros ?]
  | |- keeps _ (try_except_Exception _ _) =>
      apply keeps_try_except_Exception; [tc_solve| |intros ?]
  | |- keeps _ (try_except _ _) => apply keeps_try_except; [tc_solve| |]
  | |- keeps _ (ask _ _) => apply keeps_asks_more_ask
  | |- keeps _ (if ?b then _ else _) => destruct b
  | |- keeps asks_more _ =>
      apply (keeps_weaken (same calls_made)); [apply same_calls_asks_more|]; frame_step
  end.

Ltac asks :=
  unfold logger_info, logger_warning, logger_error; cbv zeta; repeat ask_step.

(** What the governor asks for at the opening of a fetch stays in the
    trace, whatever follows. *)
Lemma fetch_governor_calls {A} (msg : NBADataScraper → list frag)
    (rest : NBADataScraper → M State A) handler s :
  (∀ o, keeps asks_more (rest o)) →
  (∀ e, keeps asks_more (handler e)) →
  let current_time := clock (advance 0 (world s)) in
  let elapsed := current_time - last_request_time (self s) in
  ∃ more,
    calls (world (try_except_Exception
                    (o ← get_self; logger_info (msg o);; _rate_limit_request;; rest o)
                    handler s).2) =
    calls (world s) ++
    (if bool_decide (elapsed < request_delay (self s))
     then [time_sleep_call (request_delay (self s) - elapsed)] else []) ++ more.
Proof.
  intros Hrest Hh. cbv zeta. rewrite fetch_governor.
  destruct (rate_limit_stamps
              (mkState (self s) (emit (LogRecord INFO (msg (self s))) (world s))))
    as (s2 & -> & _ & _ & _ & Hcalls & _).
  cbn [snd]. simpl in Hcalls.
  destruct (keeps_try_except_Exception asks_more _ _ (Hrest (self s)) Hh s2) as [more Hmore].
  exists more. by rewrite Hmore, Hcalls, <- app_assoc.
Qed.

(** X22. The first fetch of an object waits out the interval: the
    constructor records its own time as that of the last request, so a
    player, team or box-score fetch that reads the clock less than a second
    later first asks for a sleep of what remains of the second. *)
Theorem first_fetch_waits_out_the_interval env first_season first_type w o w' env' :
  __init__ env first_season first_type w = (Ok o, w') →
  let elapsed := clock (advance 0 w') - clock w' in
  elapsed < seconds 1 →
  let waited s' := ∃ more,
    calls (world s') = calls w' ++ [time_sleep_call (seconds 1 - elapsed)] ++ more in
  (∀ player_id save, waited (get_player_game_log env' player_id save (mkState o w')).2) ∧
  (∀ team_id save, waited (get_team_game_log env' team_id save (mkState o w')).2) ∧
  (∀ game_id save, waited (get_box_score env' game_id save (mkState o w')).2).
Proof.
  intros Hinit elapsed Hlt waited.
  assert (last_request_time o = clock w' ∧ request_delay o = seconds 1) as [Hlast Hdelay].
  { unfold __init__ in Hinit.
    apply mbind_Ok in Hinit as (? & w1 & _ & Hinit).
    apply mbind_Ok in Hinit as (td & w2 & _ & Hinit).
    apply mbind_Ok in Hinit as (t & w3 & Hnow & Hinit).
    injection Hinit as <- <-. by injection Hnow as <- <-. }
  assert (∀ A (msg : NBADataScraper → list frag) (rest : NBADataScraper → M State A) handler,
            (∀ o, keeps asks_more (rest o)) → (∀ e, keeps asks_more (handler e)) →
            waited (try_except_Exception
                      (o ← get_self; logger_info (msg o);; _rate_limit_request;; rest o)
                      handler (mkState o w')).2) as Hfetch.
  { intros A msg rest handler Hrest Hh.
    destruct (fetch_governor_calls msg rest handler (mkState o w') Hrest Hh) as [more Hmore].
    exists more. rewrite Hmore. cbn [self world]. rewrite Hlast, Hdelay.
    fold elapsed. by rewrite bool_decide_eq_true_2. }
  repeat split; intros.
  - unfold get_player_game_log.
    apply (Hfetch _ (λ o, [Lit "Fetching game log for player ID "; FInt player_id;
                           Lit " for season "; FStr (season o)])); intros; asks.
  - unfold get_team_game_log.
    apply (Hfetch _ (λ o, [Lit "Fetching game log for team ID "; FInt team_id;
                           Lit " for season "; FStr (season o)])); intros; asks.
  - unfold get_box_score.
    apply (Hfetch _ (λ _, [Lit "Fetching box score for game ID "; FStr game_id]));
      intros; asks.
Qed.

Lemma first_fetch_waits_out_the_interval_witness :
  let s := league_boot (Ok [team_games]) in
  let elapsed := clock (advance 0 (world s)) - clock (world s) in
  elapsed < seconds 1 ∧
  ∃ more,
    calls (world (get_team_game_log (serving_league (Ok [team_games])) 1610612738 true
                    (mkState (self s) (world s))).2) =
    calls (world s) ++ [time_sleep_call (seconds 1 - elapsed)] ++ more.
Proof.
  intros s elapsed.
  assert (elapsed < seconds 1) as Hlt by (vm_compute; reflexivity).
  split; [exact Hlt|].
  exact (proj1 (proj2 (first_fetch_waits_out_the_interval
                         (serving_league (Ok [team_games])) "2024-25" SeasonType_regular
                         empty_disk (self s) (world s) (serving_league (Ok [team_games]))
                         (league_is_constructed (Ok [team_games])) Hlt))
           1610612738 true).
Defined.
